(** * modrover: the Rover exploration-and-ensembling engine

    A shallow embedding of [src/modrover/rover.py].  Python objects that
    are mutated in place and shared ([Learner] instances, the [learners]
    dict, the lazily created [_all_covariates] attribute) live in an
    explicit world that every method threads; exceptions are outcomes of
    the method monad.  Floats are the kernel's binary64 numbers. *)

From Stdlib Require Import ZArith Lia PrimFloat.
From Stdlib Require FloatAxioms.
From stdpp Require Import base list strings.

Open Scope Z_scope.

(** * Python values *)

(** The exceptions the engine raises or lets through. *)
Inductive exn : Type :=
  | IndexError
  | ValueError
  | TypeError
  | AttributeError
  | KeyError
  | NotFittedError (msg : string)
  | InvalidConfigurationError (msg : string)
  | ExternalError (msg : string).

Module Py.

(** [bool(x)] for a float: every value but [0.0] and [-0.0] is true
    (a NaN is true). *)
Definition float_truth (x : float) : bool := negb (PrimFloat.eqb x 0%float).

(** [bool(x)] for an [Optional[float]]. *)
Definition opt_float_truth (x : option float) : bool :=
  match x with
  | None => false
  | Some v => float_truth v
  end.

(** [l[i]] on a list or tuple: negative indices count from the end, an
    index outside [-len, len) raises [IndexError]. *)
Definition index {A} (l : list A) (i : Z) : exn + A :=
  let n := Z.of_nat (length l) in
  let j := if i <? 0 then n + i else i in
  if (0 <=? j) && (j <? n) then
    match l !! Z.to_nat j with
    | Some x => inr x
    | None => inl IndexError
    end
  else inl IndexError.

(** [[l[i] for i in ids]]: the first failing index raises. *)
Fixpoint index_all {A} (l : list A) (ids : list Z) : exn + list A :=
  match ids with
  | [] => inr []
  | i :: ids' =>
      match index l i with
      | inl e => inl e
      | inr x =>
          match index_all l ids' with
          | inl e => inl e
          | inr xs => inr (x :: xs)
          end
      end
  end.

(** The stop bound of [l[:k]] and the start bound of [l[k:]], clamped
    as Python clamps slice bounds. *)
Definition slice_bound {A} (l : list A) (k : Z) : nat :=
  let n := Z.of_nat (length l) in
  let j := if k <? 0 then n + k else k in
  Z.to_nat (Z.min n (Z.max 0 j)).

(** [l[:k]] *)
Definition slice_to {A} (l : list A) (k : Z) : list A :=
  take (slice_bound l k) l.

(** [l[k:]] *)
Definition slice_from {A} (l : list A) (k : Z) : list A :=
  drop (slice_bound l k) l.

(** [tuple(range(n))] *)
Definition range (n : nat) : list Z := Z.of_nat <$> seq 0 n.

(** A [dict] keeps its keys in insertion order, so it is an association
    list with at most one pair per key. *)
Section Dict.
Context {K V : Type} `{EqDecision K}.

(** [d.get(k)] *)
Fixpoint dict_get (d : list (K * V)) (k : K) : option V :=
  match d with
  | [] => None
  | (k', v) :: d' => if decide (k' = k) then Some v else dict_get d' k
  end.

(** [k in d] *)
Definition dict_contains (d : list (K * V)) (k : K) : bool :=
  match dict_get d k with
  | Some _ => true
  | None => false
  end.

(** [d[k] = v]: an existing key keeps its place, a new key goes last. *)
Fixpoint dict_set (d : list (K * V)) (k : K) (v : V) : list (K * V) :=
  match d with
  | [] => [(k, v)]
  | (k', v') :: d' =>
      if decide (k' = k) then (k, v) :: d' else (k', v') :: dict_set d' k v
  end.

(** [d.update(other)] *)
Definition dict_update (d other : list (K * V)) : list (K * V) :=
  foldl (fun acc kv => dict_set acc kv.1 kv.2) d other.
End Dict.

(** [set(ids)] followed by iteration: the distinct elements, each once.
    CPython's iteration order over a set of tuples is an artefact of
    hashing; the model fixes one order. *)
Definition set_of `{EqDecision A} (l : list A) : list A := remove_dups l.

End Py.

(** * numpy arrays *)

Module Np.

(** The one-dimensional arrays [np.array] builds from a tuple of Python
    ints: an integer array, or, from the empty tuple, the empty array of
    dtype [float64] (numpy's default dtype when there is no element to
    infer one from). *)
Inductive ndarray : Type :=
  | IntArr (xs : list Z)
  | EmptyFloat64.

(** [np.array(t)] for a tuple of Python ints. *)
Definition array_of_ints (t : list Z) : ndarray :=
  match t with
  | [] => EmptyFloat64
  | _ => IntArr t
  end.

(** [a + k] for a Python int [k]; the dtype of [a] is kept. *)
Definition add_int (a : ndarray) (k : Z) : ndarray :=
  match a with
  | IntArr xs => IntArr ((fun x => x + k) <$> xs)
  | EmptyFloat64 => EmptyFloat64
  end.

(** [np.zeros(n)] *)
Definition zeros (n : nat) : list float := replicate n 0%float.

(** Broadcasting a one-dimensional value to length [n]: equal lengths
    pass, a single element is repeated, anything else fails. *)
Definition broadcast_to {A} (n : nat) (src : list A) : option (list A) :=
  if decide (length src = n) then Some src
  else match src with
       | [x] => Some (replicate n x)
       | _ => None
       end.

(** [row[:k] = src] *)
Definition assign_prefix (row : list float) (k : Z) (src : list float)
  : exn + list float :=
  let n := length (Py.slice_to row k) in
  match broadcast_to n src with
  | Some vals => inr (vals ++ drop n row)
  | None => inl ValueError
  end.

(** An index into an axis of length [n], negative values wrapping. *)
Definition axis_index (n : nat) (i : Z) : option nat :=
  let j := if i <? 0 then Z.of_nat n + i else i in
  if (0 <=? j) && (j <? Z.of_nat n) then Some (Z.to_nat j) else None.

(** The writes of an index-array assignment, in order: a later write to
    the same cell wins. *)
Definition scatter (row : list float) (writes : list (nat * float))
  : list float :=
  foldl (fun r w => <[w.1 := w.2]> r) row writes.

(** [row[idx] = src] for an index array: an index array must be of
    integer (or boolean) dtype, so a float one is refused, empty or not;
    then the value is broadcast to the shape of the index, then every
    index is checked against the axis. *)
Definition assign_at (row : list float) (idx : ndarray) (src : list float)
  : exn + list float :=
  match idx with
  | EmptyFloat64 => inl IndexError
  | IntArr ids =>
      match broadcast_to (length ids) src with
      | None => inl ValueError
      | Some vals =>
          match mapM (axis_index (length row)) ids with
          | None => inl IndexError
          | Some cells => inr (scatter row (zip cells vals))
          end
      end
  end.

(** [m.T.dot(w)] for a matrix given by its rows [m] (each of length
    [n]) and a vector [w]: entry [j] is the sum over the rows of
    [m[i][j] * w[i]].  The shapes must agree. *)
Definition dot_T (n : nat) (m : list (list float)) (w : list float)
  : exn + list float :=
  if decide (length m = length w) then
    inr ((fun j =>
            foldl (fun acc rw => (acc + default 0 (rw.1 !! j) * rw.2)%float)
                  0%float (zip m w)) <$> seq 0 n)
  else inl ValueError.

End Np.

(** * Learners *)

(** A [LearnerID]: a tuple of Python ints, the indices of the explore
    columns of a learner in the order they are given to the model. *)
Abbreviation LearnerID := (list Z).

(** An object reference: the address of a [Learner] in the object store. *)
Abbreviation ref := nat.

(** A value of a parameter specification: the list under ["variables"],
    or any other setting the user supplied, kept as given. *)
Inductive SpecValue : Type :=
  | Variables (cols : list string)
  | Setting (repr : string).

Abbreviation ParamSpec := (list (string * SpecValue)).
Abbreviation ParamSpecs := (list (string * ParamSpec)).

Module Learner.

(** Modelled from the spec: the attributes of [Learner] ([learner.py] is
    not among the sources).  The constructor arguments are the ones
    [Rover.get_learner] passes; the fitted state is the spec's
    [is_fitted], [performance] and [coefficients], under the names
    [rover.py] reads them by. *)
Record t : Type := make {
  model_type : string;
  y : string;
  param_specs : ParamSpecs;
  all_covariates : list string;
  offset : string;
  weights : string;
  model_eval_metric : string;
  has_been_fit : bool;
  performance : option float;
  opt_coefs : option (list float);
}.

(** Modelled from the spec: [Learner.__init__], which builds an unfit
    learner without performance or coefficients. *)
Definition init (model_type y : string) (param_specs : ParamSpecs)
    (all_covariates : list string) (offset weights metric : string) : t :=
  make model_type y param_specs all_covariates offset weights metric
       false None None.

(** [learner.opt_coefs = coefs] *)
Definition set_opt_coefs (coefs : list float) (l : t) : t :=
  make (model_type l) (y l) (param_specs l) (all_covariates l) (offset l)
       (weights l) (model_eval_metric l) (has_been_fit l) (performance l)
       (Some coefs).

End Learner.

(** * The collaborators of the engine

    What [rover.py] imports and calls but does not define: the model
    fitter behind [Learner.fit] and [Learner.predict], the weighting of
    [synthesizer.metrics_to_weights], and the strategies. *)

(** A strategy object: its [base_learner_id], and [get_next_layer], which
    sees the current layer and the registry (each id with the state of its
    learner), may keep a state of its own, and may raise. *)
Record RoverStrategy : Type := {
  strategy_state : Type;
  strategy_init : strategy_state;
  base_learner_id : LearnerID;
  get_next_layer :
    strategy_state -> list LearnerID -> list (LearnerID * Learner.t) ->
    (exn + list LearnerID) * strategy_state;
}.

Class Collaborators : Type := {
  (** [pd.DataFrame] *)
  DataFrame : Type;
  (** [Learner.fit(dataset, holdout_cols)] run on a learner in a given
      state: the exception it raises, if any, and the state it leaves the
      learner in. *)
  Learner_fit :
    Learner.t -> DataFrame -> option (list string) -> option exn * Learner.t;
  (** [Learner.predict(dataset)] *)
  Learner_predict : Learner.t -> DataFrame -> exn + list float;
  (** [metrics_to_weights(metrics, max_num_models, kernel_param,
      ratio_cutoff)] *)
  metrics_to_weights :
    list (option float) -> Z -> float -> float -> exn + list float;
  (** [get_strategy(name)]: the strategy class, a constructor taking
      [num_covs]. *)
  get_strategy : string -> exn + (nat -> exn + RoverStrategy);
}.

(** * The state of a run *)

(** The constructor arguments of [Rover], which no method reassigns. *)
Record Config : Type := {
  model_type : string;
  y : string;
  col_fixed : list (string * list string);
  col_explore : list string;
  explore_param : string;
  param_specs : ParamSpecs;
  offset : string;
  weights : string;
  holdout_cols : option (list string);
  model_eval_metric : string;
}.

(** The number of fixed covariates of a configuration. *)
Definition fixed_count (c : Config) : nat :=
  sum_list (length <$> (col_fixed c).*2).

(** What the run observes of the collaborators: each call of
    [Learner.fit], with the id it was made for, the object it was made on
    and whether it returned, and each call of [Learner.predict]. *)
Inductive Event : Type :=
  | FitCall (learner_id : LearnerID) (obj : ref) (returned : bool)
  | PredictCall (obj : ref).

(** A [Rover] instance with the objects it refers to: [learners] maps an
    id to the address of its [Learner], [_all_covariates] is [None] until
    the attribute exists, [heap] is the object store, [trace] the calls
    made so far (oldest first). *)
Record World : Type := {
  config : Config;
  learners : list (LearnerID * ref);
  super_learner : option ref;
  _all_covariates : option (list string);
  heap : list Learner.t;
  trace : list Event;
}.

Definition set_learners (v : list (LearnerID * ref)) (w : World) : World :=
  {| config := config w; learners := v; super_learner := super_learner w;
     _all_covariates := _all_covariates w; heap := heap w; trace := trace w |}.

Definition set_super_learner (v : option ref) (w : World) : World :=
  {| config := config w; learners := learners w; super_learner := v;
     _all_covariates := _all_covariates w; heap := heap w; trace := trace w |}.

Definition set_all_covariates (v : option (list string)) (w : World) : World :=
  {| config := config w; learners := learners w;
     super_learner := super_learner w;
     _all_covariates := v; heap := heap w; trace := trace w |}.

Definition set_heap (v : list Learner.t) (w : World) : World :=
  {| config := config w; learners := learners w;
     super_learner := super_learner w;
     _all_covariates := _all_covariates w; heap := v; trace := trace w |}.

Definition set_trace (v : list Event) (w : World) : World :=
  {| config := config w; learners := learners w;
     super_learner := super_learner w;
     _all_covariates := _all_covariates w; heap := heap w; trace := v |}.

(** * The method monad *)

(** Why a model run stops without a Python outcome: the loop of
    [_explore] used up its fuel, or a reference has no object (which no
    Python execution produces). *)
Inductive halt : Type := OutOfFuel | Dangling.

Inductive outcome (A : Type) : Type :=
  | Return (a : A)
  | Raise (e : exn)
  | Halt (h : halt).
Arguments Return {A} a.
Arguments Raise {A} e.
Arguments Halt {A} h.

(** A method: from a world to an outcome and the world it leaves.  A
    raised exception keeps the effects made before it. *)
Definition M (A : Type) : Type := World -> outcome A * World.

Definition ret {A} (a : A) : M A := fun w => (Return a, w).

Definition raise {A} (e : exn) : M A := fun w => (Raise e, w).

Definition bind {A B} (m : M A) (k : A -> M B) : M B :=
  fun w =>
    match m w with
    | (Return a, w') => k a w'
    | (Raise e, w') => (Raise e, w')
    | (Halt h, w') => (Halt h, w')
    end.

Notation "x <~ m ;; k" := (bind m (fun x => k))
  (at level 100, m at next level, right associativity).
Notation "m ;;; k" := (bind m (fun _ => k))
  (at level 100, right associativity).

(** The result of a pure computation that may raise. *)
Definition lift {A} (r : exn + A) : M A :=
  match r with
  | inl e => raise e
  | inr a => ret a
  end.

Definition get_world : M World := fun w => (Return w, w).

Definition modify (f : World -> World) : M unit := fun w => (Return tt, f w).

(** Reading the object behind a reference. *)
Definition deref (r : ref) : M Learner.t :=
  fun w =>
    match heap w !! r with
    | Some l => (Return l, w)
    | None => (Halt Dangling, w)
    end.

(** Mutating the object behind a reference. *)
Definition store (r : ref) (l : Learner.t) : M unit :=
  modify (fun w => set_heap (<[r := l]> (heap w)) w).

(** Creating an object: it gets the next free address. *)
Definition alloc (l : Learner.t) : M ref :=
  fun w => (Return (length (heap w)), set_heap (heap w ++ [l]) w).

Definition emit (e : Event) : M unit :=
  modify (fun w => set_trace (trace w ++ [e]) w).


(** * The Rover class *)

Module Rover.

Section Methods.
Context `{Collaborators}.

(** [Rover.__init__]: the arguments are stored, the registry is empty,
    there is no super learner and no [_all_covariates] attribute yet.  The
    object store may already hold objects of the caller. *)
Definition init (c : Config) (objects : list Learner.t) : World :=
  {| config := c; learners := []; super_learner := None;
     _all_covariates := None; heap := objects; trace := [] |}.

(** The loop of [all_covariates] over [col_fixed.values()], each list
    extending the result. *)
Definition unpack_covariates (c : Config) : list string :=
  foldl (fun acc kv => acc ++ kv.2) [] (col_fixed c) ++ col_explore c.

(** The property [all_covariates]: computed and stored in
    [_all_covariates] on the first access, read from there afterwards. *)
Definition all_covariates : M (list string) :=
  fun w =>
    match _all_covariates w with
    | Some covs => (Return covs, w)
    | None =>
        let covs := unpack_covariates (config w) in
        (Return covs, set_all_covariates (Some covs) w)
    end.

(** The property [num_covariates]. *)
Definition num_covariates : M nat :=
  covs <~ all_covariates ;; ret (length covs).

(** The items of the registry with the objects behind the references:
    each id with its learner. *)
Fixpoint snapshot (d : list (LearnerID * ref)) : M (list (LearnerID * Learner.t)) :=
  match d with
  | [] => ret []
  | (lid, r) :: d' =>
      l <~ deref r ;;
      rest <~ snapshot d' ;;
      ret ((lid, l) :: rest)
  end.

(** The property [performances]. *)
Definition performances : M (list (LearnerID * option float)) :=
  w <~ get_world ;;
  registry <~ snapshot (learners w) ;;
  ret ((fun kv => (kv.1, Learner.performance kv.2)) <$> registry).

(** [param_specs[name]["variables"]] on the nested [defaultdict]: a
    missing parameter or a missing list reads as empty. *)
Definition spec_variables (ps : ParamSpecs) (name : string) : SpecValue :=
  default (Variables [])
          (Py.dict_get (default [] (Py.dict_get ps name)) "variables").

(** [param_specs[name]["variables"] = v] *)
Definition set_spec_variables (ps : ParamSpecs) (name : string) (v : SpecValue)
  : ParamSpecs :=
  Py.dict_set ps name
    (Py.dict_set (default [] (Py.dict_get ps name)) "variables" v).

(** One round of the loop of [default_param_specs]: the fixed columns
    extend the parameter's variables, then the user's settings for the
    parameter are merged over it. *)
Definition default_param_specs_step (user : ParamSpecs)
    (acc : exn + ParamSpecs) (kv : string * list string) : exn + ParamSpecs :=
  match acc with
  | inl e => inl e
  | inr ps =>
      match spec_variables ps kv.1 with
      | Variables cols =>
          let ps1 := set_spec_variables ps kv.1 (Variables (cols ++ kv.2)) in
          inr (Py.dict_set ps1 kv.1
                 (Py.dict_update (default [] (Py.dict_get ps1 kv.1))
                                 (default [] (Py.dict_get user kv.1))))
      | Setting _ => inl AttributeError
      end
  end.

(** The property [default_param_specs]. *)
Definition default_param_specs (c : Config) : exn + ParamSpecs :=
  foldl (default_param_specs_step (param_specs c)) (inr []) (col_fixed c).

(** [check_is_fitted]: [not self.super_learner] holds when the attribute
    is [None]; a [Learner] object counts as true. *)
Definition check_is_fitted : M unit :=
  w <~ get_world ;;
  match super_learner w with
  | None => raise (NotFittedError "Rover has not been ensembled yet")
  | Some _ => ret tt
  end.

(** [get_learner(learner_id, use_cache)] *)
Definition get_learner (learner_id : LearnerID) (use_cache : bool) : M ref :=
  w <~ get_world ;;
  if Py.dict_contains (learners w) learner_id && use_cache then
    match Py.dict_get (learners w) learner_id with
    | Some r => ret r
    | None => raise KeyError
    end
  else
    let c := config w in
    explore_columns <~ lift (Py.index_all (col_explore c) learner_id) ;;
    param_specs <~ lift (default_param_specs c) ;;
    match spec_variables param_specs (explore_param c) with
    | Variables cols =>
        let param_specs' :=
          set_spec_variables param_specs (explore_param c)
                             (Variables (cols ++ explore_columns)) in
        covs <~ all_covariates ;;
        alloc (Learner.init (model_type c) (y c) param_specs' covs
                            (offset c) (weights c) (model_eval_metric c))
    | Setting _ => raise TypeError
    end.

(** The call [learner.fit(dataset, self.holdout_cols)] made for
    [learner_id]: the object is left in the state the fitter leaves it in,
    and an exception of the fitter is raised here. *)
Definition call_fit (dataset : DataFrame) (learner_id : LearnerID)
    (learner : ref) : M unit :=
  w <~ get_world ;;
  l <~ deref learner ;;
  match Learner_fit l dataset (holdout_cols (config w)) with
  | (None, l') =>
      store learner l' ;;; emit (FitCall learner_id learner true)
  | (Some e, l') =>
      store learner l' ;;; emit (FitCall learner_id learner false) ;;; raise e
  end.

(** [_fit_layer(dataset, learners)] *)
Fixpoint _fit_layer (dataset : DataFrame) (layer : list (LearnerID * ref))
  : M unit :=
  match layer with
  | [] => ret tt
  | (learner_id, learner) :: layer' =>
      call_fit dataset learner_id learner ;;;
      modify (fun w =>
                set_learners (Py.dict_set (learners w) learner_id learner) w) ;;;
      _fit_layer dataset layer'
  end.

(** The first loop of the body of [_explore]: the learners of the layer
    that have not been fit, with their ids. *)
Fixpoint unfit_learners (curr_ids : list LearnerID)
  : M (list (LearnerID * ref)) :=
  match curr_ids with
  | [] => ret []
  | learner_id :: ids' =>
      learner <~ get_learner learner_id true ;;
      l <~ deref learner ;;
      rest <~ unfit_learners ids' ;;
      ret (if Learner.has_been_fit l then rest
           else (learner_id, learner) :: rest)
  end.

(** The [while curr_ids] loop of [_explore]; [fuel] bounds the number of
    layers. *)
Fixpoint explore_loop (fuel : nat) (dataset : DataFrame) (s : RoverStrategy)
    (st : strategy_state s) (curr_ids : list LearnerID) : M unit :=
  match curr_ids with
  | [] => ret tt
  | _ :: _ =>
      match fuel with
      | O => fun w => (Halt OutOfFuel, w)
      | S fuel' =>
          curr_learners <~ unfit_learners curr_ids ;;
          _fit_layer dataset curr_learners ;;;
          w <~ get_world ;;
          registry <~ snapshot (learners w) ;;
          match get_next_layer s st curr_ids registry with
          | (inl e, _) => raise e
          | (inr next_ids, st') =>
              explore_loop fuel' dataset s st' (Py.set_of next_ids)
          end
      end
  end.

(** [_explore(dataset, strategy)]: a strategy given by name is looked up
    and built for [num_covariates] covariates. *)
Definition _explore (fuel : nat) (dataset : DataFrame)
    (strategy : string + RoverStrategy) : M unit :=
  s <~ match strategy with
       | inl name =>
           strategy_class <~ lift (get_strategy name) ;;
           n <~ num_covariates ;;
           lift (strategy_class n)
       | inr s => ret s
       end ;;
  explore_loop fuel dataset s (strategy_init s) [base_learner_id s].

(** The body of [_learner_coefs_to_global_coefs] once [num_covariates]
    and [len(col_explore)] are read. *)
Definition global_coefs (num_covs num_explore : nat) (learner_id : LearnerID)
    (opt_coefs : list float) : exn + list float :=
  let offset := Z.of_nat num_covs - Z.of_nat num_explore in
  let row := Np.zeros num_covs in
  match Np.assign_prefix row offset (Py.slice_to opt_coefs offset) with
  | inl e => inl e
  | inr row' =>
      let explore_indices := Np.add_int (Np.array_of_ints learner_id) offset in
      Np.assign_at row' explore_indices (Py.slice_from opt_coefs offset)
  end.

(** [_learner_coefs_to_global_coefs(learner_id, opt_coefs)] *)
Definition _learner_coefs_to_global_coefs (learner_id : LearnerID)
    (opt_coefs : list float) : M (list float) :=
  n <~ num_covariates ;;
  w <~ get_world ;;
  lift (global_coefs n (length (col_explore (config w))) learner_id opt_coefs).

(** The test [learner.performance and learner.opt_coefs is not None]. *)
Definition ensemble_candidate (l : Learner.t) : bool :=
  Py.opt_float_truth (Learner.performance l)
  && bool_decide (is_Some (Learner.opt_coefs l)).

(** The first loop of [_generate_coefficients_matrix], over the items of
    the registry: the ids of the learners that pass the test, and their
    performances. *)
Definition select_step (acc : list LearnerID * list float)
    (kv : LearnerID * Learner.t) : list LearnerID * list float :=
  if ensemble_candidate kv.2
  then (acc.1 ++ [kv.1], acc.2 ++ option_list (Learner.performance kv.2))
  else acc.

Definition select_learners (registry : list (LearnerID * Learner.t))
  : list LearnerID * list float :=
  foldl select_step ([], []) registry.

(** The second loop of [_generate_coefficients_matrix]: one row of
    global coefficients per selected id. *)
Fixpoint coefficient_rows (learner_ids : list LearnerID)
  : M (list (list float)) :=
  match learner_ids with
  | [] => ret []
  | learner_id :: ids' =>
      w <~ get_world ;;
      match Py.dict_get (learners w) learner_id with
      | None => raise KeyError
      | Some r =>
          l <~ deref r ;;
          match Learner.opt_coefs l with
          | None => raise TypeError
          | Some opt_coefs =>
              all_coefs <~ _learner_coefs_to_global_coefs learner_id opt_coefs ;;
              rest <~ coefficient_rows ids' ;;
              ret (all_coefs :: rest)
          end
      end
  end.

(** A two-dimensional array by its rows, with the length of a row (which
    an array without rows still has). *)
Record Matrix : Type := { y_dim : nat; rows : list (list float) }.

(** [_generate_coefficients_matrix()] *)
Definition _generate_coefficients_matrix : M (list LearnerID * Matrix) :=
  w <~ get_world ;;
  registry <~ snapshot (learners w) ;;
  let learner_ids := (select_learners registry).1 in
  n <~ num_covariates ;;
  coefficients <~ coefficient_rows learner_ids ;;
  ret (learner_ids, {| y_dim := n; rows := coefficients |}).

(** [[self.performances[key] for key in learner_ids]] *)
Fixpoint performances_of (learner_ids : list LearnerID)
  : M (list (option float)) :=
  match learner_ids with
  | [] => ret []
  | key :: ids' =>
      perfs <~ performances ;;
      match Py.dict_get perfs key with
      | None => raise KeyError
      | Some p =>
          rest <~ performances_of ids' ;;
          ret (p :: rest)
      end
  end.

(** The exception of the parameter check of
    [_generate_ensemble_coefficients]. *)
Definition invalid_configuration : exn :=
  InvalidConfigurationError
    ("The ratio cutoff parameter must be < 1, and max_num_models >= 1, "
     +:+ "otherwise no models will be used for ensembling.").

(** [_generate_ensemble_coefficients(max_num_models, kernel_param,
    ratio_cutoff)] *)
Definition _generate_ensemble_coefficients (max_num_models : Z)
    (kernel_param ratio_cutoff : float) : M (list float) :=
  if PrimFloat.ltb 1 ratio_cutoff || (max_num_models <? 1) then
    raise invalid_configuration
  else
    ids_coefs <~ _generate_coefficients_matrix ;;
    perfs <~ performances_of ids_coefs.1 ;;
    ws <~ lift (metrics_to_weights perfs max_num_models kernel_param
                                   ratio_cutoff) ;;
    lift (Np.dot_T (y_dim ids_coefs.2) (rows ids_coefs.2) ws).

(** The local [master_learner_id] of [_create_super_learner]:
    [tuple(range(self.num_covariates))]. *)
Definition master_learner_id : M LearnerID :=
  n <~ num_covariates ;; ret (Py.range n).

(** [_create_super_learner(max_num_models, kernel_param, ratio_cutoff)] *)
Definition _create_super_learner (max_num_models : Z)
    (kernel_param ratio_cutoff : float) : M ref :=
  means <~ _generate_ensemble_coefficients max_num_models kernel_param
                                           ratio_cutoff ;;
  master <~ master_learner_id ;;
  learner <~ get_learner master false ;;
  l <~ deref learner ;;
  store learner (Learner.set_opt_coefs means l) ;;;
  ret learner.

(** [fit(dataset, strategy, max_num_models, kernel_param, ratio_cutoff)] *)
Definition fit (fuel : nat) (dataset : DataFrame)
    (strategy : string + RoverStrategy) (max_num_models : Z)
    (kernel_param ratio_cutoff : float) : M unit :=
  _explore fuel dataset strategy ;;;
  super_learner <~ _create_super_learner max_num_models kernel_param
                                         ratio_cutoff ;;
  modify (set_super_learner (Some super_learner)).

(** [predict(dataset)] *)
Definition predict (dataset : DataFrame) : M (list float) :=
  check_is_fitted ;;;
  w <~ get_world ;;
  match super_learner w with
  | None => raise AttributeError
  | Some r =>
      l <~ deref r ;;
      emit (PredictCall r) ;;;
      lift (Learner_predict l dataset)
  end.

End Methods.

End Rover.

(** * Test doubles

    Concrete collaborators on which the engine runs: a fitter that reads
    the variables under ["mu"], a weighting that gives every learner the
    same weight, and strategies that play back a fixed list of layers. *)

Module Double.

(** The variables a learner submits for ["mu"]. *)
Definition mu_variables (l : Learner.t) : list string :=
  match Rover.spec_variables (Learner.param_specs l) "mu" with
  | Variables cols => cols
  | Setting _ => []
  end.

(** A learner after a fit that returned. *)
Definition fitted (l : Learner.t) (score : float) (coefs : list float)
  : Learner.t :=
  Learner.make (Learner.model_type l) (Learner.y l) (Learner.param_specs l)
    (Learner.all_covariates l) (Learner.offset l) (Learner.weights l)
    (Learner.model_eval_metric l) true (Some score) (Some coefs).

(** A fitter: it raises on the column ["collinear"], scores [0.0] on the
    column ["exact"] and [1.0] otherwise, and returns one coefficient
    [0.5] per submitted variable. *)
Definition fit (l : Learner.t) (dataset : unit)
    (holdout_cols : option (list string)) : option exn * Learner.t :=
  let cols := mu_variables l in
  if bool_decide ("collinear" ∈ cols)
  then (Some (ExternalError "singular design matrix"), l)
  else
    let score := if bool_decide ("exact" ∈ cols) then 0%float else 1%float in
    (None, fitted l score (replicate (length cols) 0.5%float)).

#[export] Instance collaborators : Collaborators := {|
  DataFrame := unit;
  Learner_fit := fit;
  Learner_predict := fun l _ => inr (default [] (Learner.opt_coefs l));
  metrics_to_weights := fun metrics _ _ _ =>
    inr (replicate (length metrics) 1%float);
  get_strategy := fun _ => inl (ExternalError "unknown strategy");
|}.

(** A strategy that starts at [base] and then plays back [layers]. *)
Definition playback (base : LearnerID) (layers : list (list LearnerID))
  : RoverStrategy :=
  {| strategy_state := list (list LearnerID);
     strategy_init := layers;
     base_learner_id := base;
     get_next_layer := fun st _ _ =>
       match st with
       | [] => (inr [], [])
       | layer :: st' => (inr layer, st')
       end |}.

(** Collaborators like the ones above, with one strategy that has a
    name: ["full"] starts, as a backward search does, at the learner of
    all [num_covs] covariates it is built for, and proposes nothing
    else. *)
Definition named_collaborators : Collaborators := {|
  DataFrame := unit;
  Learner_fit := fit;
  Learner_predict := fun l _ => inr (default [] (Learner.opt_coefs l));
  metrics_to_weights := fun metrics _ _ _ =>
    inr (replicate (length metrics) 1%float);
  get_strategy := fun name =>
    if decide (name = "full")
    then inr (fun num_covs => inr (playback (Py.range num_covs) []))
    else inl (ExternalError "unknown strategy");
|}.

(** A configuration with everything on the parameter ["mu"]. *)
Definition config_of (fixed : list (string * list string))
    (explore : list string) : Config :=
  {| model_type := "gaussian"; y := "obs"; col_fixed := fixed;
     col_explore := explore; explore_param := "mu"; param_specs := [];
     offset := "offset"; weights := "weights"; holdout_cols := None;
     model_eval_metric := "get_rmse" |}.

(** The docstring's setting: [a] and [b] fixed, [c], [d], [e] explored. *)
Definition docstring_config : Config :=
  config_of [("mu", ["a"; "b"])] ["c"; "d"; "e"].

(** Two explore columns, none fixed. *)
Definition plain_config : Config := config_of [] ["c"; "d"].

(** A registry with two fitted learners, the second with a perfect
    score. *)
Definition scored_world : World :=
  {| config := config_of [] ["c"; "exact"];
     learners := [([0], 0%nat); ([1], 1%nat)];
     super_learner := None;
     _all_covariates := None;
     heap :=
       [ fitted (Learner.init "gaussian" "obs"
                   [("mu", [("variables", Variables ["c"])])]
                   ["c"; "exact"] "offset" "weights" "get_rmse")
                1%float [0.5%float];
         fitted (Learner.init "gaussian" "obs"
                   [("mu", [("variables", Variables ["exact"])])]
                   ["c"; "exact"] "offset" "weights" "get_rmse")
                0%float [0.5%float] ];
     trace := [FitCall [0] 0%nat true; FitCall [1] 1%nat true] |}.

End Double.

(** * Well-formed worlds *)

(** The [_all_covariates] attribute, once it exists, holds what
    [all_covariates] computes from the configuration: no method reassigns
    the configuration, so every world a [Rover] reaches is like this. *)
Definition cache_consistent (w : World) : Prop :=
  forall covs, _all_covariates w = Some covs ->
               covs = Rover.unpack_covariates (config w).

(** * The invariants of a run *)

(** The ids for which [Learner.fit] was called, oldest first. *)
Definition fit_calls (tr : list Event) : list LearnerID :=
  omap (fun ev => match ev with
                  | FitCall learner_id _ _ => Some learner_id
                  | PredictCall _ => None
                  end) tr.

(** The calls of [Learner.fit] that returned, oldest first: the id and
    the object of each. *)
Definition successes (tr : list Event) : list (LearnerID * ref) :=
  omap (fun ev => match ev with
                  | FitCall learner_id obj true => Some (learner_id, obj)
                  | _ => None
                  end) tr.

(** A call of [Learner.fit] that raised. *)
Definition failed_fit (ev : Event) : bool :=
  match ev with
  | FitCall _ _ false => true
  | _ => false
  end.

(** What the engine relies on from [Learner.fit]: a fit that returns
    leaves the learner marked as fitted. *)
Definition fit_marks_fitted `{Collaborators} : Prop :=
  forall (l l' : Learner.t) (dataset : DataFrame)
         (holdouts : option (list string)),
    Learner_fit l dataset holdouts = (None, l') ->
    Learner.has_been_fit l' = true.

(** The state of a [Rover] between two layers: every learner of the
    registry is an object that has been fit; no call of [Learner.fit] has
    raised; no id was fitted twice; and the registry holds, in order,
    exactly the calls of [Learner.fit] that returned. *)
Record run_inv (w : World) : Prop := {
  inv_fitted :
    forall learner_id r, (learner_id, r) ∈ learners w ->
      exists l, heap w !! r = Some l /\ Learner.has_been_fit l = true;
  inv_clean : forall ev, ev ∈ trace w -> failed_fit ev = false;
  inv_once : NoDup (fit_calls (trace w));
  inv_registry : learners w = successes (trace w);
}.

(** The state a raising [Learner.fit] leaves: the run was in a state
    [w0] between two calls, the fit of the learner [r] of an id that is
    not in the registry raised [e], and since then nothing but the record
    of that call and the learner itself has changed. *)
Definition aborted_by_fit `{Collaborators} (dataset : DataFrame) (e : exn)
    (w : World) : Prop :=
  exists (w0 : World) (learner_id : LearnerID) (r : ref) (l l' : Learner.t),
    run_inv w0
    /\ heap w0 !! r = Some l
    /\ Learner_fit l dataset (holdout_cols (config w0)) = (Some e, l')
    /\ trace w = trace w0 ++ [FitCall learner_id r false]
    /\ learners w = learners w0
    /\ (learner_id ∉ (learners w0).*1)
    /\ config w = config w0.

(** What holds when a step of the exploration ends: the invariant, or,
    if it raised, possibly the state of an aborted fit. *)
Definition run_post `{Collaborators} {A} (dataset : DataFrame)
    (res : outcome A * World) : Prop :=
  match res.1 with
  | Raise e => run_inv res.2 \/ aborted_by_fit dataset e res.2
  | _ => run_inv res.2
  end.

(** What a step of the exploration may do to the [Rover]: extend the
    registry and the trace at their ends, and nothing else. *)
Definition grows (w w' : World) : Prop :=
  (learners w `prefix_of` learners w')
  /\ (trace w `prefix_of` trace w')
  /\ super_learner w' = super_learner w
  /\ config w' = config w.

(** A method that touches neither the registry, nor the trace, nor the
    super learner, nor the configuration. *)
Definition frame {A} (m : M A) : Prop :=
  forall w,
    learners (m w).2 = learners w
    /\ trace (m w).2 = trace w
    /\ super_learner (m w).2 = super_learner w
    /\ config (m w).2 = config w.

(** A method that keeps every object of the store as it is. *)
Definition keeps_objects {A} (m : M A) : Prop :=
  forall w r l, heap w !! r = Some l -> heap (m w).2 !! r = Some l.

(** * Relations between the states of a method *)

(** A method every run of which leaves a state related by [R] to the one
    it started from, whatever the outcome. *)
Definition stable {A} (R : relation World) (m : M A) : Prop :=
  forall w, R w (m w).2.

(** Nothing but the [_all_covariates] attribute may differ. *)
Definition same_but_cache (w w' : World) : Prop :=
  config w' = config w
  /\ learners w' = learners w
  /\ super_learner w' = super_learner w
  /\ heap w' = heap w
  /\ trace w' = trace w.

(** What every method but the last assignment of [fit] keeps: the
    configuration, the super learner, and an [_all_covariates] attribute
    that holds what [all_covariates] computes. *)
Definition same_setting (w w' : World) : Prop :=
  config w' = config w
  /\ super_learner w' = super_learner w
  /\ (cache_consistent w -> cache_consistent w').

(** The entry [default_param_specs] builds for a parameter with fixed
    columns: the columns under ["variables"], and the user's settings for
    the parameter merged over that. *)
Definition fixed_param_spec (user : ParamSpecs) (kv : string * list string)
  : string * ParamSpec :=
  (kv.1, Py.dict_update [("variables", Variables kv.2)]
                        (default [] (Py.dict_get user kv.1))).

(** * Python and numpy primitives *)

Lemma foldl_extend {A B} (f : B -> list A) (acc : list A) (l : list B) :
  foldl (fun acc x => acc ++ f x) acc l = acc ++ concat (f <$> l).
Proof.
  revert acc; induction l as [|x l IH]; intros acc; simpl.
  - by rewrite app_nil_r.
  - by rewrite IH, <- app_assoc.
Qed.

Lemma unpack_covariates_concat (c : Config) :
  Rover.unpack_covariates c = concat ((col_fixed c).*2) ++ col_explore c.
Proof. unfold Rover.unpack_covariates. by rewrite foldl_extend. Qed.

Lemma unpack_covariates_length (c : Config) :
  length (Rover.unpack_covariates c)
  = (fixed_count c + length (col_explore c))%nat.
Proof.
  rewrite unpack_covariates_concat, length_app, length_concat.
  reflexivity.
Qed.

(** * The global covariate order *)

(** C7. On a Rover whose [_all_covariates] attribute does not exist yet,
    [all_covariates] is the fixed-covariate lists concatenated in the
    iteration order of [col_fixed], followed by [col_explore];
    [num_covariates] is its length, the number of fixed covariates plus
    the number of explore covariates; and from then on every access, in
    any world that still carries the attribute, returns that same sequence
    and changes nothing. *)
Theorem all_covariates_global_order (w : World) :
  _all_covariates w = None ->
  let covs := concat ((col_fixed (config w)).*2) ++ col_explore (config w) in
  exists w1,
    Rover.all_covariates w = (Return covs, w1)
    /\ Rover.num_covariates w = (Return (length covs), w1)
    /\ length covs = (fixed_count (config w) + length (col_explore (config w)))%nat
    /\ forall w2, _all_covariates w2 = _all_covariates w1 ->
         Rover.all_covariates w2 = (Return covs, w2)
         /\ Rover.num_covariates w2 = (Return (length covs), w2).
Proof.
  intros Hnone covs.
  exists (set_all_covariates (Some (Rover.unpack_covariates (config w))) w).
  assert (Hc : Rover.unpack_covariates (config w) = covs)
    by apply unpack_covariates_concat.
  unfold Rover.num_covariates, bind, Rover.all_covariates, ret.
  rewrite Hnone, Hc. simpl.
  repeat split.
  - rewrite <- Hc. apply unpack_covariates_length.
  - by rewrite H.
  - by rewrite H.
Qed.

Lemma all_covariates_global_order_witness :
  let w := Rover.init Double.docstring_config [] in
  _all_covariates w = None
  /\ exists w1,
       Rover.all_covariates w = (Return ["a"; "b"; "c"; "d"; "e"], w1)
       /\ Rover.num_covariates w = (Return 5%nat, w1).
Proof.
  split; [reflexivity|].
  destruct (all_covariates_global_order
              (Rover.init Double.docstring_config []) eq_refl)
    as (w1 & Ha & Hn & _).
  exists w1. split; [exact Ha | exact Hn].
Defined.

(** * The not-fitted guard *)

(** C8. While [super_learner] is [None], [check_is_fitted] and [predict]
    raise [NotFittedError] and leave the world as it is: the learner's
    [predict] is not called. *)
Theorem predict_not_fitted `{Collaborators} (dataset : DataFrame) (w : World) :
  super_learner w = None ->
  Rover.check_is_fitted w
    = (Raise (NotFittedError "Rover has not been ensembled yet"), w)
  /\ Rover.predict dataset w
    = (Raise (NotFittedError "Rover has not been ensembled yet"), w).
Proof.
  intros Hnone.
  unfold Rover.predict, Rover.check_is_fitted, bind, get_world, raise.
  rewrite Hnone. split; reflexivity.
Qed.

Lemma predict_not_fitted_witness :
  let w := Rover.init Double.plain_config [] in
  super_learner w = None
  /\ Rover.predict (H := Double.collaborators) tt w
     = (Raise (NotFittedError "Rover has not been ensembled yet"), w).
Proof.
  split; [reflexivity|].
  exact (proj2 (predict_not_fitted (H := Double.collaborators) tt
                  (Rover.init Double.plain_config []) eq_refl)).
Defined.

(** * Uncached creation *)

(** Without the cache, [get_learner] is the construction of a learner. *)
Lemma get_learner_uncached_unfold (learner_id : LearnerID) (w : World) :
  Rover.get_learner learner_id false w
  = match Py.index_all (col_explore (config w)) learner_id with
    | inl e => (Raise e, w)
    | inr explore_columns =>
        match Rover.default_param_specs (config w) with
        | inl e => (Raise e, w)
        | inr ps =>
            match Rover.spec_variables ps (explore_param (config w)) with
            | Variables cols =>
                let covs := default (Rover.unpack_covariates (config w))
                                    (_all_covariates w) in
                (Return (length (heap w)),
                 set_heap
                   (heap w ++
                      [Learner.init (model_type (config w)) (y (config w))
                         (Rover.set_spec_variables ps (explore_param (config w))
                            (Variables (cols ++ explore_columns)))
                         covs (offset (config w)) (weights (config w))
                         (model_eval_metric (config w))])
                   (set_all_covariates (Some covs) w))
            | Setting _ => (Raise TypeError, w)
            end
        end
    end.
Proof.
  unfold Rover.get_learner, bind, get_world.
  rewrite andb_false_r. simpl.
  destruct (Py.index_all _ _); simpl; [reflexivity|].
  destruct (Rover.default_param_specs _); simpl; [reflexivity|].
  destruct (Rover.spec_variables _ _); simpl; [|reflexivity].
  unfold Rover.all_covariates, alloc.
  destruct w as [c ls sl [covs|] hp tr]; reflexivity.
Qed.


(** * The projection of local coefficients *)

Lemma scatter_length (row : list float) (writes : list (nat * float)) :
  length (Np.scatter row writes) = length row.
Proof.
  revert row; induction writes as [|w ws IH]; intros row; simpl; [done|].
  unfold Np.scatter in *. simpl. by rewrite IH, length_insert.
Qed.

Lemma scatter_lookup_other (row : list float) (writes : list (nat * float))
    (j : nat) :
  j ∉ writes.*1 -> Np.scatter row writes !! j = row !! j.
Proof.
  revert row; induction writes as [|[c v] ws IH]; intros row Hj; [done|].
  unfold Np.scatter in *. simpl in *.
  apply not_elem_of_cons in Hj as [Hne Hj].
  rewrite IH by done. by apply list_lookup_insert_ne.
Qed.

Lemma scatter_lookup_written (row : list float) (cells : list nat)
    (vals : list float) (rank c : nat) (v : float) :
  NoDup cells -> length cells = length vals ->
  cells !! rank = Some c -> vals !! rank = Some v ->
  (c < length row)%nat ->
  Np.scatter row (zip cells vals) !! c = Some v.
Proof.
  revert row vals rank.
  induction cells as [|c0 cells IH]; intros row vals rank Hnd Hlen Hc Hv Hlt;
    [done|].
  destruct vals as [|v0 vals]; [done|].
  apply NoDup_cons in Hnd as [Hnotin Hnd].
  injection Hlen as Hlen.
  change (Np.scatter row (zip (c0 :: cells) (v0 :: vals)))
    with (Np.scatter (<[c0 := v0]> row) (zip cells vals)).
  destruct rank as [|rank]; simpl in Hc, Hv.
  - injection Hc as ->. injection Hv as ->.
    rewrite scatter_lookup_other.
    + by apply list_lookup_insert_eq.
    + rewrite fst_zip by lia. done.
  - eapply IH; eauto. by rewrite length_insert.
Qed.

Lemma slice_bound_nat {A} (l : list A) (n : nat) :
  (n <= length l)%nat -> Py.slice_bound l (Z.of_nat n) = n.
Proof. intros Hn. unfold Py.slice_bound. case_match; lia. Qed.

Lemma broadcast_to_same {A} (n : nat) (src : list A) :
  length src = n -> Np.broadcast_to n src = Some src.
Proof. intros H. unfold Np.broadcast_to. by rewrite decide_True. Qed.

Lemma axis_index_all (n : nat) (ids : list Z) :
  (forall k, k ∈ ids -> 0 <= k < Z.of_nat n) ->
  mapM (Np.axis_index n) ids = Some (Z.to_nat <$> ids).
Proof.
  intros Hin. apply mapM_Some, Forall2_fmap_r, Forall2_same_length_lookup.
  split; [done|]. intros i x y Hx Hy. simplify_eq. simpl.
  assert (0 <= x < Z.of_nat n) by (apply Hin; eapply list_elem_of_lookup_2; eauto).
  unfold Np.axis_index.
  replace (x <? 0) with false by lia.
  replace ((0 <=? x) && (x <? Z.of_nat n)) with true by lia. done.
Qed.

(** For a non-empty identity of distinct indices into the explore pool
    and a local vector of matching length, the projection returns a vector
    over all covariates: the fixed coefficients first, each explore
    coefficient at the place of its covariate, zero elsewhere. *)
Lemma global_coefs_spec (num_fixed num_explore : nat) (learner_id : LearnerID)
    (opt_coefs : list float) :
  learner_id <> [] -> NoDup learner_id ->
  (forall k, k ∈ learner_id -> 0 <= k < Z.of_nat num_explore) ->
  length opt_coefs = (num_fixed + length learner_id)%nat ->
  exists row,
    Rover.global_coefs (num_fixed + num_explore) num_explore learner_id opt_coefs
    = inr row
    /\ length row = (num_fixed + num_explore)%nat
    /\ (forall i, (i < num_fixed)%nat -> row !! i = opt_coefs !! i)
    /\ (forall rank k, learner_id !! rank = Some k ->
          row !! (num_fixed + Z.to_nat k)%nat
          = opt_coefs !! (num_fixed + rank)%nat)
    /\ (forall j, (j < num_explore)%nat -> Z.of_nat j ∉ learner_id ->
          row !! (num_fixed + j)%nat = Some 0%float).
Proof.
  intros Hne Hnd Hrange Hlen.
  unfold Rover.global_coefs.
  replace (Z.of_nat (num_fixed + num_explore) - Z.of_nat num_explore)
    with (Z.of_nat num_fixed) by lia.
  unfold Np.assign_prefix, Py.slice_to, Py.slice_from, Np.zeros.
  rewrite !slice_bound_nat by (rewrite ?length_replicate; lia).
  rewrite length_take_le by (rewrite length_replicate; lia).
  rewrite broadcast_to_same by (rewrite length_take_le; lia).
  rewrite drop_replicate.
  replace (num_fixed + num_explore - num_fixed)%nat with num_explore by lia.
  set (row0 := take num_fixed opt_coefs ++ replicate num_explore 0%float).
  assert (Hrow0 : length row0 = (num_fixed + num_explore)%nat).
  { unfold row0. rewrite length_app, length_take_le, length_replicate; lia. }
  destruct learner_id as [|k0 ids] eqn:Hid; [done|]. rewrite <- Hid in *.
  assert (Harr : Np.array_of_ints learner_id = Np.IntArr learner_id)
    by (by rewrite Hid).
  rewrite Harr. simpl Np.add_int. unfold Np.assign_at.
  rewrite broadcast_to_same by (rewrite length_fmap, length_drop; lia).
  rewrite axis_index_all; last first.
  { intros k [k' [-> Hk']]%list_elem_of_fmap. apply Hrange in Hk'. lia. }
  set (cells := Z.to_nat <$> ((fun x => x + Z.of_nat num_fixed) <$> learner_id)).
  assert (Hcells : forall rank k, learner_id !! rank = Some k ->
            cells !! rank = Some (num_fixed + Z.to_nat k)%nat).
  { intros rank k Hk. unfold cells. rewrite !list_lookup_fmap, Hk. simpl.
    f_equal. assert (0 <= k) by (apply Hrange; eapply list_elem_of_lookup_2; eauto).
    lia. }
  assert (Hcl : length cells = length (drop num_fixed opt_coefs)).
  { unfold cells. rewrite !length_fmap, length_drop. lia. }
  assert (Hcnd : NoDup cells).
  { unfold cells. rewrite <- list_fmap_compose.
    apply NoDup_fmap_2_strong; [|done].
    intros x y Hx Hy Heq. apply Hrange in Hx, Hy. simpl in Heq. lia. }
  eexists. split; [reflexivity|]. split; [|split; [|split]].
  - by rewrite scatter_length.
  - intros i Hi. rewrite scatter_lookup_other.
    + unfold row0. rewrite lookup_app_l by (rewrite length_take_le; lia).
      by apply lookup_take_lt.
    + rewrite fst_zip by lia. unfold cells.
      intros [z [-> [k [-> Hk]]%list_elem_of_fmap]]%list_elem_of_fmap.
      apply Hrange in Hk. lia.
  - intros rank k Hk.
    assert (is_Some (drop num_fixed opt_coefs !! rank)) as [v Hv].
    { apply lookup_lt_is_Some. rewrite <- Hcl. unfold cells.
      rewrite !length_fmap. by eapply lookup_lt_Some. }
    rewrite (scatter_lookup_written _ _ _ rank _ v); eauto.
    + by rewrite lookup_drop in Hv.
    + rewrite Hrow0. assert (0 <= k < Z.of_nat num_explore)
        by (apply Hrange; eapply list_elem_of_lookup_2; eauto). lia.
  - intros j Hj Hnotin. rewrite scatter_lookup_other.
    + unfold row0. rewrite lookup_app_r by (rewrite length_take_le; lia).
      rewrite length_take_le by lia.
      replace (num_fixed + j - num_fixed)%nat with j by lia.
      by apply lookup_replicate_2.
    + rewrite fst_zip by lia. unfold cells.
      intros [z [Hz [k [-> Hk]]%list_elem_of_fmap]]%list_elem_of_fmap.
      apply Hnotin. assert (0 <= k) by (by apply Hrange).
      replace (Z.of_nat j) with k by lia. done.
Qed.

Lemma num_covariates_consistent (w : World) :
  cache_consistent w ->
  Rover.num_covariates w
  = (Return (fixed_count (config w) + length (col_explore (config w)))%nat,
     set_all_covariates (Some (Rover.unpack_covariates (config w))) w).
Proof.
  intros Hc. unfold Rover.num_covariates, bind, Rover.all_covariates, ret.
  destruct (_all_covariates w) as [covs|] eqn:Hcache.
  - rewrite (Hc covs Hcache), unpack_covariates_length.
    destruct w; simpl in *. by rewrite Hcache, (Hc covs Hcache).
  - by rewrite unpack_covariates_length.
Qed.

(** X6. On a well-formed world, for a non-empty identity of distinct
    indices into the explore pool and a local vector of matching length,
    [_learner_coefs_to_global_coefs] returns a row of [num_covariates]
    entries: the fixed coefficients first, each explore coefficient at the
    place of its covariate, zero at the other explore positions. *)
Lemma learner_coefs_to_global_coefs_nonempty (w : World)
    (learner_id : LearnerID) (opt_coefs : list float) :
  cache_consistent w ->
  learner_id <> [] -> NoDup learner_id ->
  (forall k, k ∈ learner_id ->
             0 <= k < Z.of_nat (length (col_explore (config w)))) ->
  length opt_coefs = (fixed_count (config w) + length learner_id)%nat ->
  exists row w',
    Rover._learner_coefs_to_global_coefs learner_id opt_coefs w
    = (Return row, w')
    /\ Rover.num_covariates w' = (Return (length row), w')
    /\ (forall i, (i < fixed_count (config w))%nat ->
          row !! i = opt_coefs !! i)
    /\ (forall rank k, learner_id !! rank = Some k ->
          row !! (fixed_count (config w) + Z.to_nat k)%nat
          = opt_coefs !! (fixed_count (config w) + rank)%nat)
    /\ (forall j, (j < length (col_explore (config w)))%nat ->
          Z.of_nat j ∉ learner_id ->
          row !! (fixed_count (config w) + j)%nat = Some 0%float).
Proof.
  intros Hc Hne Hnd Hrange Hlen.
  destruct (global_coefs_spec (fixed_count (config w))
              (length (col_explore (config w))) learner_id opt_coefs
              Hne Hnd Hrange Hlen)
    as (row & Hrow & Hlenrow & Hfixed & Hexplore & Hzero).
  exists row, (set_all_covariates (Some (Rover.unpack_covariates (config w))) w).
  split; [|split; [|by repeat split]].
  - unfold Rover._learner_coefs_to_global_coefs, bind.
    rewrite num_covariates_consistent by done. simpl.
    by rewrite Hrow.
  - rewrite num_covariates_consistent.
    + simpl. by rewrite Hlenrow.
    + intros covs. simpl. by intros [= <-].
Qed.

Lemma learner_coefs_to_global_coefs_nonempty_witness :
  exists row w',
    Rover._learner_coefs_to_global_coefs [1]
      [0.5%float; 0.25%float; 2%float] (Rover.init Double.docstring_config [])
    = (Return row, w')
    /\ row = [0.5%float; 0.25%float; 0%float; 2%float; 0%float].
Proof.
  destruct (learner_coefs_to_global_coefs_nonempty
              (Rover.init Double.docstring_config [])
              [1] [0.5%float; 0.25%float; 2%float])
    as (row & w' & Hrun & _).
  - intros covs Hcovs. discriminate Hcovs.
  - discriminate.
  - apply NoDup_singleton.
  - intros k ->%list_elem_of_singleton. simpl. lia.
  - reflexivity.
  - exists row, w'. split; [exact Hrun|].
    vm_compute in Hrun. by injection Hrun as <- _.
Defined.

(** C1. On the identity [()], the learner that has the fixed covariates
    only, [_learner_coefs_to_global_coefs] raises [IndexError] where the
    claim has it return the fixed coefficients followed by zeros:
    [np.array(())] is an empty array of dtype [float64], which numpy
    refuses as an index.  Here [a] and [b] are fixed, [c], [d], [e] are
    explored, and the local coefficients are those of [a] and [b]. *)
Theorem learner_coefs_empty_identity_raises :
  (Rover._learner_coefs_to_global_coefs []
     [0.5%float; 0.25%float] (Rover.init Double.docstring_config [])).1
  = Raise IndexError.
Proof. reflexivity. Qed.

(** * The filter of the ensemble *)

(** The test of [_generate_coefficients_matrix] passes exactly on a
    performance that is a float other than zero together with
    coefficients that are not [None]. *)
Lemma ensemble_candidate_iff (l : Learner.t) :
  Rover.ensemble_candidate l = true
  <-> exists p coefs,
        Learner.performance l = Some p
        /\ Py.float_truth p = true
        /\ Learner.opt_coefs l = Some coefs.
Proof.
  unfold Rover.ensemble_candidate, Py.opt_float_truth.
  rewrite andb_true_iff, bool_decide_eq_true.
  split.
  - intros [Hp [coefs Hc]].
    destruct (Learner.performance l) as [p|]; [|done]. by exists p, coefs.
  - intros (p & coefs & -> & Hp & ->). split; [done|by eexists].
Qed.

Lemma select_learners_foldl (acc : list LearnerID * list float)
    (registry : list (LearnerID * Learner.t)) :
  (foldl Rover.select_step acc registry).1
  = acc.1 ++ (filter (fun kv => Rover.ensemble_candidate kv.2 = true) registry).*1.
Proof.
  revert acc; induction registry as [|kv registry IH]; intros acc; simpl.
  - by rewrite app_nil_r.
  - rewrite IH, filter_cons. unfold Rover.select_step.
    destruct (Rover.ensemble_candidate kv.2) eqn:Hc; simpl.
    + by rewrite <- app_assoc.
    + done.
Qed.

(** The ids selected by the first loop are those of the learners of the
    registry that pass the test, in the order of the registry. *)
Lemma select_learners_ids (registry : list (LearnerID * Learner.t))
    (learner_id : LearnerID) :
  learner_id ∈ (Rover.select_learners registry).1
  <-> exists l, (learner_id, l) ∈ registry
                /\ Rover.ensemble_candidate l = true.
Proof.
  unfold Rover.select_learners. rewrite select_learners_foldl. simpl.
  rewrite list_elem_of_fmap. split.
  - intros [[lid l] [-> [Hc Hin]%list_elem_of_filter]]. by exists l.
  - intros [l [Hin Hc]]. exists (learner_id, l).
    split; [done|]. by apply list_elem_of_filter.
Qed.

(** C4. A fitted learner whose performance is [0.0] and whose
    coefficients are not [None] is left out of the ids and of the matrix
    that [_generate_coefficients_matrix] returns: the test reads the
    performance for its truth value, and [0.0] is false.  The registry
    has the learner [(0,)] with performance [1.0] and the learner [(1,)]
    with performance [0.0]. *)
Theorem zero_performance_learner_left_out :
  (exists l,
      Py.dict_get (learners Double.scored_world) [1] = Some 1%nat
      /\ heap Double.scored_world !! 1%nat = Some l
      /\ Learner.performance l = Some 0%float
      /\ Learner.opt_coefs l = Some [0.5%float])
  /\ (Rover._generate_coefficients_matrix Double.scored_world).1
     = Return ([[0]], {| Rover.y_dim := 2;
                         Rover.rows := [[0.5%float; 0%float]] |}).
Proof.
  split; [|reflexivity].
  eexists. repeat split; reflexivity.
Qed.

(** * The identity of the super learner *)

Lemma index_all_app {A} (l : list A) (ids1 ids2 : list Z) :
  Py.index_all l (ids1 ++ ids2)
  = match Py.index_all l ids1 with
    | inl e => inl e
    | inr xs =>
        match Py.index_all l ids2 with
        | inl e => inl e
        | inr ys => inr (xs ++ ys)
        end
    end.
Proof.
  induction ids1 as [|i ids1 IH]; simpl.
  - by destruct (Py.index_all l ids2).
  - destruct (Py.index l i); [done|]. rewrite IH.
    destruct (Py.index_all l ids1); [done|].
    by destruct (Py.index_all l ids2).
Qed.

Lemma index_nat {A} (l : list A) (i : nat) :
  Py.index l (Z.of_nat i)
  = match l !! i with Some x => inr x | None => inl IndexError end.
Proof.
  unfold Py.index. cbv zeta.
  destruct (Z.ltb_spec (Z.of_nat i) 0); [lia|].
  rewrite Nat2Z.id.
  destruct (l !! i) as [x|] eqn:Hl.
  - apply lookup_lt_Some in Hl.
    destruct (Z.leb_spec 0 (Z.of_nat i)); [|lia].
    destruct (Z.ltb_spec (Z.of_nat i) (Z.of_nat (length l))); [done|lia].
  - by case_match.
Qed.

(** Indexing with [range(m)]: the first [m] elements, or [IndexError]
    when [m] exceeds the length. *)
Lemma index_all_range {A} (l : list A) (m : nat) :
  Py.index_all l (Py.range m)
  = if decide (m <= length l)%nat then inr (take m l) else inl IndexError.
Proof.
  unfold Py.range. induction m as [|m IH].
  - destruct (decide (0 <= length l)%nat); [done|lia].
  - rewrite seq_S, fmap_app, index_all_app, IH. simpl.
    rewrite index_nat.
    destruct (decide (m <= length l)%nat) as [Hm|Hm];
      destruct (decide (S m <= length l)%nat) as [Hm'|Hm']; try lia.
    + destruct (l !! m) as [x|] eqn:Hl.
      * by rewrite (take_S_r _ _ x).
      * apply lookup_ge_None in Hl. lia.
    + destruct (l !! m) as [x|] eqn:Hl; [|done].
      apply lookup_lt_Some in Hl. lia.
    + done.
Qed.

(** With a fixed covariate, the identity [_create_super_learner] builds
    from [num_covariates] is not the full explorable subset, and
    [get_learner] raises [IndexError] on it. *)
Lemma master_learner_id_out_of_range (w : World) :
  cache_consistent w ->
  (0 < fixed_count (config w))%nat ->
  exists w1,
    Rover.master_learner_id w
    = (Return (Py.range (fixed_count (config w)
                         + length (col_explore (config w)))), w1)
    /\ Py.range (fixed_count (config w) + length (col_explore (config w)))
       <> Py.range (length (col_explore (config w)))
    /\ Rover.get_learner
         (Py.range (fixed_count (config w) + length (col_explore (config w))))
         false w1
       = (Raise IndexError, w1).
Proof.
  intros Hc Hfixed. eexists. split; [|split].
  - unfold Rover.master_learner_id, bind.
    rewrite num_covariates_consistent by done. reflexivity.
  - intros Heq. apply (f_equal length) in Heq.
    unfold Py.range in Heq. rewrite !length_fmap, !length_seq in Heq. lia.
  - rewrite get_learner_uncached_unfold. simpl.
    rewrite index_all_range, decide_False by lia. done.
Qed.

Lemma master_learner_id_out_of_range_witness :
  let w := Rover.init Double.docstring_config [] in
  exists w1,
    Rover.master_learner_id w = (Return [0; 1; 2; 3; 4], w1)
    /\ Rover.get_learner [0; 1; 2; 3; 4] false w1 = (Raise IndexError, w1).
Proof.
  destruct (master_learner_id_out_of_range
              (Rover.init Double.docstring_config []))
    as (w1 & Hid & _ & Hget).
  - intros covs Hcovs. discriminate Hcovs.
  - vm_compute. lia.
  - exists w1. split; [exact Hid | exact Hget].
Defined.

(** C2. With one fixed covariate and two explore covariates, [fit]
    explores, builds the ensemble coefficients, and then raises
    [IndexError]: the identity of the super learner is built from
    [num_covariates], which is [(0, 1, 2)], not the full explorable subset
    [(0, 1)], and [get_learner] indexes [col_explore] with it.  No super
    learner is stored. *)
Theorem fit_with_fixed_covariate_raises :
  let w := Rover.init (Double.config_of [("mu", ["a"])] ["b"; "c"]) [] in
  let res := Rover.fit (H := Double.collaborators) 5 tt
               (inr (Double.playback [0] [])) 10 10 0.5 w in
  res.1 = Raise IndexError
  /\ super_learner res.2 = None
  /\ (Rover.master_learner_id res.2).1 = Return [0; 1; 2]
  /\ Py.range (length (col_explore (config w))) = [0; 1].
Proof. repeat split; reflexivity. Qed.

(** * The check of the ensemble parameters *)

Lemma generate_ensemble_coefficients_invalid `{Collaborators}
    (max_num_models : Z) (kernel_param ratio_cutoff : float) (w : World) :
  PrimFloat.ltb 1 ratio_cutoff = true \/ max_num_models < 1 ->
  Rover._generate_ensemble_coefficients max_num_models kernel_param
                                        ratio_cutoff w
  = (Raise Rover.invalid_configuration, w).
Proof.
  intros Hbad. unfold Rover._generate_ensemble_coefficients.
  replace (PrimFloat.ltb 1 ratio_cutoff || (max_num_models <? 1)) with true.
  - reflexivity.
  - symmetry. apply orb_true_iff.
    destruct Hbad as [Hr|Hm]; [by left|right; lia].
Qed.

(** C5, as the code has it.  With [ratio_cutoff > 1] or
    [max_num_models < 1], [_generate_ensemble_coefficients] raises
    [InvalidConfigurationError] at once and changes nothing; [fit] calls
    it after [_explore], so a [fit] whose exploration returns raises the
    error in the world exploration left, with its learners fitted and
    stored and without a super learner, and a [fit] whose exploration
    does not return ends as the exploration does. *)
Theorem invalid_configuration_after_explore `{Collaborators} (fuel : nat)
    (dataset : DataFrame) (strategy : string + RoverStrategy)
    (max_num_models : Z) (kernel_param ratio_cutoff : float) (w : World) :
  PrimFloat.ltb 1 ratio_cutoff = true \/ max_num_models < 1 ->
  Rover._generate_ensemble_coefficients max_num_models kernel_param
                                        ratio_cutoff w
  = (Raise Rover.invalid_configuration, w)
  /\ Rover.fit fuel dataset strategy max_num_models kernel_param ratio_cutoff w
     = match Rover._explore fuel dataset strategy w with
       | (Return _, w1) => (Raise Rover.invalid_configuration, w1)
       | (Raise e, w1) => (Raise e, w1)
       | (Halt h, w1) => (Halt h, w1)
       end.
Proof.
  intros Hbad. split; [by apply generate_ensemble_coefficients_invalid|].
  unfold Rover.fit, bind.
  destruct (Rover._explore fuel dataset strategy w) as [[[]|e|h] w1];
    [|done|done].
  unfold Rover._create_super_learner, bind.
  by rewrite generate_ensemble_coefficients_invalid.
Qed.

Lemma invalid_configuration_after_explore_witness :
  let w := Rover.init Double.plain_config [] in
  let res := Rover.fit (H := Double.collaborators) 5 tt
               (inr (Double.playback [0] [])) 0 10 0.5 w in
  0 < 1
  /\ res.1 = Raise Rover.invalid_configuration
  /\ learners res.2 = [([0], 0%nat)].
Proof.
  split; [lia|].
  pose proof (proj2 (invalid_configuration_after_explore
                       (H := Double.collaborators) 5 tt
                       (inr (Double.playback [0] [])) 0 10 0.5
                       (Rover.init Double.plain_config [])
                       (or_intror (Z.lt_0_1)))) as Hfit.
  cbv zeta. rewrite Hfit. split; reflexivity.
Defined.

(** C5 as stated fails: with [max_num_models = 0], and with
    [ratio_cutoff = 1.5], [fit] raises the error only after
    [Learner.fit] has been called for the base learner. *)
Lemma invalid_configuration_not_before_fit :
  let w := Rover.init Double.plain_config [] in
  let few := Rover.fit (H := Double.collaborators) 5 tt
               (inr (Double.playback [0] [])) 0 10 0.5 w in
  let cutoff := Rover.fit (H := Double.collaborators) 5 tt
                  (inr (Double.playback [0] [])) 10 10 1.5 w in
  (few.1 = Raise Rover.invalid_configuration
   /\ trace few.2 = [FitCall [0] 0%nat true])
  /\ (cutoff.1 = Raise Rover.invalid_configuration
      /\ trace cutoff.2 = [FitCall [0] 0%nat true]).
Proof. repeat split; reflexivity. Qed.

(** * Frames *)

Lemma frame_ret {A} (a : A) : frame (ret a).
Proof. by intros w. Qed.

Lemma frame_raise {A} (e : exn) : frame (@raise A e).
Proof. by intros w. Qed.

Lemma frame_lift {A} (r : exn + A) : frame (lift r).
Proof. by destruct r; intros w. Qed.

Lemma frame_get_world : frame get_world.
Proof. by intros w. Qed.

Lemma frame_deref (r : ref) : frame (deref r).
Proof. intros w. unfold deref. by destruct (heap w !! r). Qed.

Lemma frame_store (r : ref) (l : Learner.t) : frame (store r l).
Proof. by intros w. Qed.

Lemma frame_alloc (l : Learner.t) : frame (alloc l).
Proof. by intros w. Qed.

Lemma frame_all_covariates : frame Rover.all_covariates.
Proof. intros w. unfold Rover.all_covariates. by destruct (_all_covariates w). Qed.

Lemma frame_bind {A B} (m : M A) (k : A -> M B) :
  frame m -> (forall a, frame (k a)) -> frame (bind m k).
Proof.
  intros Hm Hk w. unfold bind.
  destruct (Hm w) as (H1 & H2 & H3 & H4).
  destruct (m w) as [[a|e|h] w1]; simpl in *; [|done|done].
  destruct (Hk a w1) as (K1 & K2 & K3 & K4).
  by rewrite K1, K2, K3, K4.
Qed.

Lemma keeps_ret {A} (a : A) : keeps_objects (ret a).
Proof. by intros w. Qed.

Lemma keeps_raise {A} (e : exn) : keeps_objects (@raise A e).
Proof. by intros w. Qed.

Lemma keeps_lift {A} (r : exn + A) : keeps_objects (lift r).
Proof. by destruct r; intros w. Qed.

Lemma keeps_get_world : keeps_objects get_world.
Proof. by intros w. Qed.

Lemma keeps_deref (r : ref) : keeps_objects (deref r).
Proof. intros w r' l. unfold deref. by destruct (heap w !! r). Qed.

Lemma keeps_alloc (l : Learner.t) : keeps_objects (alloc l).
Proof. intros w r l' Hr. simpl. by apply lookup_app_l_Some. Qed.

Lemma keeps_all_covariates : keeps_objects Rover.all_covariates.
Proof.
  intros w r l. unfold Rover.all_covariates. by destruct (_all_covariates w).
Qed.

Lemma keeps_bind {A B} (m : M A) (k : A -> M B) :
  keeps_objects m -> (forall a, keeps_objects (k a)) -> keeps_objects (bind m k).
Proof.
  intros Hm Hk w r l Hr. unfold bind.
  specialize (Hm w r l Hr).
  destruct (m w) as [[a|e|h] w1]; simpl in *; [|done|done].
  by apply Hk.
Qed.

Create HintDb frame.
#[export] Hint Resolve keeps_ret keeps_raise keeps_lift keeps_get_world
  keeps_deref keeps_alloc keeps_all_covariates : frame.
#[export] Hint Resolve frame_ret frame_raise frame_lift frame_get_world
  frame_deref frame_store frame_alloc frame_all_covariates : frame.

(** One step of a frame proof: through a bind, a branch or a known
    method. *)
Ltac frame_step :=
  match goal with
  | |- frame (bind _ _) => apply frame_bind; [|intros ?]
  | |- keeps_objects (bind _ _) => apply keeps_bind; [|intros ?]
  | |- _ (match ?x with _ => _ end) => destruct x
  | |- _ (let _ := _ in _) => cbv zeta
  | |- _ => solve [eauto with frame]
  end.

Ltac frame_tac := repeat frame_step.

Lemma frame_num_covariates : frame Rover.num_covariates.
Proof. unfold Rover.num_covariates. frame_tac. Qed.
#[export] Hint Resolve frame_num_covariates : frame.

Lemma frame_snapshot (d : list (LearnerID * ref)) : frame (Rover.snapshot d).
Proof. induction d as [|[lid r] d IH]; simpl; frame_tac. Qed.
#[export] Hint Resolve frame_snapshot : frame.

Lemma frame_performances : frame Rover.performances.
Proof. unfold Rover.performances. frame_tac. Qed.
#[export] Hint Resolve frame_performances : frame.

Lemma frame_get_learner (learner_id : LearnerID) (use_cache : bool) :
  frame (Rover.get_learner learner_id use_cache).
Proof. unfold Rover.get_learner. frame_tac. Qed.
#[export] Hint Resolve frame_get_learner : frame.

Lemma frame_learner_coefs_to_global_coefs (learner_id : LearnerID)
    (opt_coefs : list float) :
  frame (Rover._learner_coefs_to_global_coefs learner_id opt_coefs).
Proof. unfold Rover._learner_coefs_to_global_coefs. frame_tac. Qed.
#[export] Hint Resolve frame_learner_coefs_to_global_coefs : frame.

Lemma frame_coefficient_rows (learner_ids : list LearnerID) :
  frame (Rover.coefficient_rows learner_ids).
Proof. induction learner_ids as [|lid ids IH]; simpl; frame_tac. Qed.
#[export] Hint Resolve frame_coefficient_rows : frame.

Lemma frame_generate_coefficients_matrix :
  frame Rover._generate_coefficients_matrix.
Proof. unfold Rover._generate_coefficients_matrix. frame_tac. Qed.
#[export] Hint Resolve frame_generate_coefficients_matrix : frame.

Lemma frame_performances_of (learner_ids : list LearnerID) :
  frame (Rover.performances_of learner_ids).
Proof. induction learner_ids as [|lid ids IH]; simpl; frame_tac. Qed.
#[export] Hint Resolve frame_performances_of : frame.

Lemma frame_generate_ensemble_coefficients `{Collaborators}
    (max_num_models : Z) (kernel_param ratio_cutoff : float) :
  frame (Rover._generate_ensemble_coefficients max_num_models kernel_param
                                               ratio_cutoff).
Proof. unfold Rover._generate_ensemble_coefficients. frame_tac. Qed.
#[export] Hint Resolve frame_generate_ensemble_coefficients : frame.

Lemma frame_master_learner_id : frame Rover.master_learner_id.
Proof. unfold Rover.master_learner_id. frame_tac. Qed.
#[export] Hint Resolve frame_master_learner_id : frame.

Lemma frame_create_super_learner `{Collaborators}
    (max_num_models : Z) (kernel_param ratio_cutoff : float) :
  frame (Rover._create_super_learner max_num_models kernel_param
                                     ratio_cutoff).
Proof. unfold Rover._create_super_learner. frame_tac. Qed.

Lemma keeps_get_learner (learner_id : LearnerID) (use_cache : bool) :
  keeps_objects (Rover.get_learner learner_id use_cache).
Proof. unfold Rover.get_learner. frame_tac. Qed.
#[export] Hint Resolve keeps_get_learner : frame.

Lemma frame_unfit_learners (curr_ids : list LearnerID) :
  frame (Rover.unfit_learners curr_ids).
Proof. induction curr_ids as [|lid ids IH]; simpl; frame_tac. Qed.

Lemma keeps_unfit_learners (curr_ids : list LearnerID) :
  keeps_objects (Rover.unfit_learners curr_ids).
Proof. induction curr_ids as [|lid ids IH]; simpl; frame_tac. Qed.

Lemma keeps_num_covariates : keeps_objects Rover.num_covariates.
Proof. unfold Rover.num_covariates. frame_tac. Qed.
#[export] Hint Resolve keeps_num_covariates : frame.

Lemma keeps_snapshot (d : list (LearnerID * ref)) :
  keeps_objects (Rover.snapshot d).
Proof. induction d as [|[lid r] d IH]; simpl; frame_tac. Qed.
#[export] Hint Resolve keeps_snapshot frame_unfit_learners
  keeps_unfit_learners : frame.


(** * The registry as a dict *)

Lemma dict_get_None {V} (d : list (LearnerID * V)) (k : LearnerID) :
  Py.dict_get d k = None <-> k ∉ d.*1.
Proof.
  induction d as [|[k' v] d IH]; simpl.
  - split; [intros _; apply not_elem_of_nil|done].
  - rewrite not_elem_of_cons. destruct (decide (k' = k)) as [->|Hne].
    + split; [done|]. by intros [? _].
    + rewrite IH. split; [by intros ?; split|by intros [_ ?]].
Qed.

Lemma dict_get_Some {V} (d : list (LearnerID * V)) (k : LearnerID) (v : V) :
  Py.dict_get d k = Some v -> (k, v) ∈ d.
Proof.
  induction d as [|[k' v'] d IH]; simpl; [done|].
  destruct (decide (k' = k)) as [->|Hne].
  - intros [= ->]. apply list_elem_of_here.
  - intros Hd. apply list_elem_of_further. by apply IH.
Qed.

Lemma dict_set_fresh {V} (d : list (LearnerID * V)) (k : LearnerID) (v : V) :
  k ∉ d.*1 -> Py.dict_set d k v = d ++ [(k, v)].
Proof.
  induction d as [|[k' v'] d IH]; simpl; [done|].
  rewrite not_elem_of_cons. intros [Hne Hk].
  destruct (decide (k' = k)) as [->|_]; [done|]. by rewrite IH.
Qed.

(** * Traces *)

Lemma fit_calls_clean (tr : list Event) :
  (forall ev, ev ∈ tr -> failed_fit ev = false) ->
  fit_calls tr = (successes tr).*1.
Proof.
  induction tr as [|ev tr IH]; [done|].
  intros Hclean.
  assert (failed_fit ev = false) as Hev by apply Hclean, list_elem_of_here.
  assert (fit_calls tr = (successes tr).*1) as Htr.
  { apply IH. intros ev' Hin. by apply Hclean, list_elem_of_further. }
  destruct ev as [lid r [|]|r]; [|done|exact Htr].
  change (lid :: fit_calls tr = lid :: (successes tr).*1). by f_equal.
Qed.

Lemma successes_elem (tr : list Event) (learner_id : LearnerID) (r : ref) :
  (learner_id, r) ∈ successes tr <-> FitCall learner_id r true ∈ tr.
Proof.
  unfold successes. rewrite list_elem_of_omap. split.
  - intros (ev & Hin & Hev).
    destruct ev as [lid r' [|]|r']; simplify_eq. done.
  - intros Hin. by exists (FitCall learner_id r true).
Qed.

Lemma fit_calls_elem (tr : list Event) (learner_id : LearnerID) :
  learner_id ∈ fit_calls tr
  <-> exists r returned, FitCall learner_id r returned ∈ tr.
Proof.
  unfold fit_calls. rewrite list_elem_of_omap. split.
  - intros (ev & Hin & Hev).
    destruct ev as [lid r b|r]; simplify_eq. by exists r, b.
  - intros (r & b & Hin). by exists (FitCall learner_id r b).
Qed.

(** Between two layers the keys of the registry are the ids fitted. *)
Lemma run_inv_keys (w : World) :
  run_inv w -> (learners w).*1 = fit_calls (trace w).
Proof.
  intros [_ Hclean _ Hreg]. by rewrite Hreg, fit_calls_clean.
Qed.

(** The invariant does not depend on the cache of covariates, and
    survives the creation of objects. *)
Lemma run_inv_frame (w w' : World) :
  run_inv w ->
  learners w' = learners w -> trace w' = trace w ->
  (forall r l, heap w !! r = Some l -> heap w' !! r = Some l) ->
  run_inv w'.
Proof.
  intros [Hfit Hclean Honce Hreg] Hl Ht Hh.
  split; rewrite ?Hl, ?Ht; try done.
  intros lid r Hin. destruct (Hfit lid r Hin) as (l & Hr & Hl').
  exists l. split; [by apply Hh|done].
Qed.

Lemma run_inv_init (c : Config) (objects : list Learner.t) :
  run_inv (Rover.init c objects).
Proof.
  split; simpl.
  - intros lid r Hin. by apply elem_of_nil in Hin.
  - intros ev Hin. by apply elem_of_nil in Hin.
  - apply NoDup_nil_2.
  - done.
Qed.

Lemma grows_refl (w : World) : grows w w.
Proof. by repeat split. Qed.

Lemma grows_trans (w1 w2 w3 : World) :
  grows w1 w2 -> grows w2 w3 -> grows w1 w3.
Proof.
  intros (L1 & T1 & S1 & C1) (L2 & T2 & S2 & C2).
  repeat split; [by etrans|by etrans|congruence|congruence].
Qed.

Lemma grows_frame (w w' : World) :
  learners w' = learners w -> trace w' = trace w ->
  super_learner w' = super_learner w -> config w' = config w ->
  grows w w'.
Proof. unfold grows. intros -> -> -> ->. by repeat split. Qed.

(** * The cache *)

(** A cached id is answered with the object of the registry, and nothing
    changes. *)
Lemma get_learner_cached_hit (learner_id : LearnerID) (r : ref) (w : World) :
  Py.dict_get (learners w) learner_id = Some r ->
  Rover.get_learner learner_id true w = (Return r, w).
Proof.
  intros Hget. unfold Rover.get_learner, bind, get_world, Py.dict_contains.
  by rewrite Hget.
Qed.

(** An id that is not in the registry is answered as without the cache. *)
Lemma get_learner_cached_miss (learner_id : LearnerID) (w : World) :
  learner_id ∉ (learners w).*1 ->
  Rover.get_learner learner_id true w = Rover.get_learner learner_id false w.
Proof.
  intros Hmiss%dict_get_None.
  unfold Rover.get_learner, bind, get_world, Py.dict_contains.
  by rewrite Hmiss.
Qed.

(** What [get_learner(learner_id)] returns: the object of the registry,
    or, for an id that is not there, a new object that has not been
    fit. *)
Lemma get_learner_cached_returns (learner_id : LearnerID) (r : ref)
    (w w1 : World) :
  Rover.get_learner learner_id true w = (Return r, w1) ->
  (Py.dict_get (learners w) learner_id = Some r /\ w1 = w)
  \/ ((learner_id ∉ (learners w).*1)
      /\ exists l, heap w1 !! r = Some l /\ Learner.has_been_fit l = false).
Proof.
  destruct (Py.dict_get (learners w) learner_id) as [r'|] eqn:Hget.
  - rewrite (get_learner_cached_hit _ _ _ Hget). intros [= -> ->]. by left.
  - apply dict_get_None in Hget. rewrite (get_learner_cached_miss _ _ Hget).
    rewrite get_learner_uncached_unfold. intros Hres. right. split; [done|].
    repeat case_match; try done.
    cbv zeta in Hres. injection Hres as <- <-. simpl.
    eexists. split; [apply list_lookup_middle; reflexivity|done].
Qed.

(** The first loop of a layer selects ids that are not in the registry,
    each once. *)
Lemma unfit_learners_returns (curr_ids : list LearnerID) (w w1 : World)
    (layer : list (LearnerID * ref)) :
  run_inv w -> NoDup curr_ids ->
  Rover.unfit_learners curr_ids w = (Return layer, w1) ->
  NoDup layer.*1
  /\ (forall learner_id, learner_id ∈ layer.*1 ->
        learner_id ∈ curr_ids /\ learner_id ∉ (learners w).*1).
Proof.
  revert w w1 layer.
  induction curr_ids as [|lid ids IH]; intros w w1 layer Hinv Hnd; simpl.
  - intros [= <- <-]. split; [apply NoDup_nil_2|].
    intros lid Hin. by apply elem_of_nil in Hin.
  - apply NoDup_cons in Hnd as [Hlid Hnd].
    unfold bind at 1.
    destruct (Rover.get_learner lid true w) as [[r|e|h] w2] eqn:Hget;
      [|done|done].
    pose proof (frame_get_learner lid true w) as (Hl & Ht & _ & _).
    pose proof (keeps_get_learner lid true w) as Hk.
    rewrite Hget in Hl, Ht, Hk. simpl in Hl, Ht, Hk.
    assert (run_inv w2) as Hinv2 by by eapply run_inv_frame.
    unfold bind at 1, deref at 1.
    destruct (heap w2 !! r) as [l|] eqn:Hr; [|done].
    unfold bind at 1.
    destruct (Rover.unfit_learners ids w2) as [[rest|e|h] w3] eqn:Hrest;
      [|done|done].
    intros [= <- <-].
    destruct (IH _ _ _ Hinv2 Hnd Hrest) as (Hnd' & Hsub).
    rewrite Hl in Hsub.
    destruct (Learner.has_been_fit l) eqn:Hfit.
    + split; [done|]. intros lid' Hin. destruct (Hsub lid' Hin).
      split; [by apply list_elem_of_further|done].
    + simpl. split.
      * apply NoDup_cons. split; [|done]. intros Hin. by destruct (Hsub lid Hin).
      * intros lid' [->|Hin]%elem_of_cons.
        -- split; [apply list_elem_of_here|].
           apply get_learner_cached_returns in Hget as [[Hd ->]|[Hmiss _]];
             [|done].
           destruct Hinv as [Hfitted _ _ _].
           destruct (Hfitted _ _ (dict_get_Some _ _ _ Hd)) as (l' & Hr' & Hf).
           congruence.
        -- destruct (Hsub lid' Hin). split; [by apply list_elem_of_further|done].
Qed.


(** * One layer *)

Lemma run_post_inv `{Collaborators} {A} (dataset : DataFrame)
    (res : outcome A * World) :
  run_inv res.2 -> run_post dataset res.
Proof. unfold run_post. destruct res.1; [done|by left|done]. Qed.

(** A method that is a frame and keeps the objects keeps the
    invariant. *)
Lemma quiet_post `{Collaborators} {A} (dataset : DataFrame) (m : M A)
    (w : World) :
  frame m -> keeps_objects m -> run_inv w ->
  grows w (m w).2 /\ run_post dataset (m w).
Proof.
  intros Hf Hk Hinv. destruct (Hf w) as (Hl & Ht & Hs & Hc).
  split; [by apply grows_frame|].
  apply run_post_inv. eapply run_inv_frame; [done..|]. apply Hk.
Qed.

(** Sequencing: the second method runs only from a state between two
    layers. *)
Lemma run_bind `{Collaborators} {A B} (dataset : DataFrame) (m : M A)
    (k : A -> M B) (w : World) :
  grows w (m w).2 /\ run_post dataset (m w) ->
  (forall a w1, m w = (Return a, w1) -> run_inv w1 ->
     grows w1 (k a w1).2 /\ run_post dataset (k a w1)) ->
  grows w (bind m k w).2 /\ run_post dataset (bind m k w).
Proof.
  intros [Hg Hp] Hk. unfold bind.
  destruct (m w) as [[a|e|h] w1] eqn:Hm; [|done|done].
  destruct (Hk a w1 eq_refl Hp) as [Hg' Hp'].
  split; [by eapply grows_trans|done].
Qed.

(** The state after a fit that returned and the assignment to the
    registry that follows it. *)
Lemma run_inv_fitted_step (w w' : World) (learner_id : LearnerID) (r : ref)
    (l' : Learner.t) :
  run_inv w ->
  learner_id ∉ (learners w).*1 ->
  (r < length (heap w))%nat ->
  Learner.has_been_fit l' = true ->
  learners w' = learners w ++ [(learner_id, r)] ->
  trace w' = trace w ++ [FitCall learner_id r true] ->
  heap w' = <[r := l']> (heap w) ->
  run_inv w'.
Proof.
  intros Hinv Hfresh Hr Hfit Hl Ht Hh.
  pose proof (run_inv_keys w Hinv) as Hkeys.
  destruct Hinv as [Hfitted Hclean Honce Hreg].
  split; rewrite ?Hl, ?Ht, ?Hh.
  - intros lid r0 Hin.
    destruct (decide (r0 = r)) as [->|Hne].
    + exists l'. by rewrite list_lookup_insert_eq.
    + rewrite list_lookup_insert_ne by done.
      apply elem_of_app in Hin as [Hin|Hin]; [by eapply Hfitted|].
      apply list_elem_of_singleton in Hin. congruence.
  - intros ev [Hin|Hin]%elem_of_app; [by apply Hclean|].
    by apply list_elem_of_singleton in Hin as ->.
  - unfold fit_calls. rewrite omap_app. simpl. apply NoDup_app.
    split; [done|]. split; [|apply NoDup_singleton].
    intros lid Hin ->%list_elem_of_singleton.
    apply Hfresh. by rewrite Hkeys.
  - unfold successes. rewrite omap_app. simpl. by rewrite Hreg.
Qed.

(** The call of the fitter, outcome by outcome. *)
Lemma call_fit_unfold `{Collaborators} (dataset : DataFrame)
    (learner_id : LearnerID) (r : ref) (w : World) :
  Rover.call_fit dataset learner_id r w
  = match heap w !! r with
    | None => (Halt Dangling, w)
    | Some l =>
        match Learner_fit l dataset (holdout_cols (config w)) with
        | (o, l') =>
            (match o with Some e => Raise e | None => Return tt end,
             set_trace (trace w ++ [FitCall learner_id r (bool_decide (o = None))])
                       (set_heap (<[r := l']> (heap w)) w))
        end
    end.
Proof.
  unfold Rover.call_fit, bind, get_world, deref.
  destruct (heap w !! r) as [l|]; [|done].
  by destruct (Learner_fit l dataset (holdout_cols (config w))) as [[e|] l'].
Qed.

(** [_fit_layer] on learners whose ids are distinct and not in the
    registry: each fit that returns extends the trace and the registry
    together; the first fit that raises ends the layer. *)
Lemma fit_layer_post `{Collaborators} (dataset : DataFrame)
    (layer : list (LearnerID * ref)) (w : World) :
  fit_marks_fitted -> run_inv w -> NoDup layer.*1 ->
  (forall learner_id, learner_id ∈ layer.*1 -> learner_id ∉ (learners w).*1) ->
  grows w (Rover._fit_layer dataset layer w).2
  /\ run_post dataset (Rover._fit_layer dataset layer w).
Proof.
  intros Hmarks. revert w.
  induction layer as [|[lid r] layer IH]; intros w Hinv Hnd Hfresh.
  { split; [apply grows_refl|by apply run_post_inv]. }
  simpl in Hnd. apply NoDup_cons in Hnd as [Hlid Hnd].
  assert (lid ∉ (learners w).*1) as Hnew by apply Hfresh, list_elem_of_here.
  cbn [Rover._fit_layer]. unfold bind. rewrite call_fit_unfold.
  destruct (heap w !! r) as [l|] eqn:Hr.
  2:{ split; [apply grows_refl|by apply run_post_inv]. }
  destruct (Learner_fit l dataset (holdout_cols (config w))) as [[e|] l']
    eqn:Hfit; simpl.
  - split.
    + split_and!; simpl; [done|by eexists|done|done].
    + right. exists w, lid, r, l, l'. by split_and!.
  - match goal with
    | |- context [Rover._fit_layer dataset layer ?w2] => set (w' := w2)
    end.
    assert (run_inv w') as Hinv'.
    { eapply (run_inv_fitted_step w w' lid r l'); try done.
      - by eapply lookup_lt_Some.
      - by eapply Hmarks.
      - simpl. by rewrite dict_set_fresh. }
    assert (grows w w') as Hg.
    { split_and!; simpl; [|by eexists|done|done].
      rewrite dict_set_fresh by done. by eexists. }
    destruct (IH w' Hinv' Hnd) as [Hg' Hp'].
    { intros lid' Hin. simpl. rewrite dict_set_fresh by done.
      rewrite fmap_app. apply not_elem_of_app. split.
      - by apply Hfresh, list_elem_of_further.
      - intros ->%list_elem_of_singleton. done. }
    split; [by eapply grows_trans|done].
Qed.

(** * The exploration *)

Lemma explore_loop_post `{Collaborators} (fuel : nat) (dataset : DataFrame)
    (s : RoverStrategy) (st : strategy_state s) (curr_ids : list LearnerID)
    (w : World) :
  fit_marks_fitted -> run_inv w -> NoDup curr_ids ->
  grows w (Rover.explore_loop fuel dataset s st curr_ids w).2
  /\ run_post dataset (Rover.explore_loop fuel dataset s st curr_ids w).
Proof.
  intros Hmarks. revert st curr_ids w.
  induction fuel as [|fuel IH]; intros st curr_ids w Hinv Hnd;
    (destruct curr_ids as [|lid ids];
     [split; [apply grows_refl|by apply run_post_inv]|]).
  { split; [apply grows_refl|by apply run_post_inv]. }
  cbn [Rover.explore_loop].
  apply run_bind; [apply quiet_post; auto with frame|].
  intros layer w1 Hunfit Hinv1.
  destruct (unfit_learners_returns _ _ _ _ Hinv Hnd Hunfit) as [Hnd' Hfresh].
  pose proof (frame_unfit_learners (lid :: ids) w) as (Hl & _).
  rewrite Hunfit in Hl. simpl in Hl.
  apply run_bind.
  { apply fit_layer_post; [done..|]. intros lid' Hin. rewrite Hl.
    by apply Hfresh. }
  intros [] w2 _ Hinv2.
  apply run_bind; [apply quiet_post; auto with frame|].
  intros w2' w2'' [= <- <-] _.
  apply run_bind; [apply quiet_post; auto with frame|].
  intros registry w3 _ Hinv3.
  destruct (get_next_layer s st (lid :: ids) registry) as [[e|next_ids] st'].
  - apply quiet_post; auto with frame.
  - apply IH; [done|]. apply NoDup_remove_dups.
Qed.

Lemma explore_post `{Collaborators} (fuel : nat) (dataset : DataFrame)
    (strategy : string + RoverStrategy) (w : World) :
  fit_marks_fitted -> run_inv w ->
  grows w (Rover._explore fuel dataset strategy w).2
  /\ run_post dataset (Rover._explore fuel dataset strategy w).
Proof.
  intros Hmarks Hinv. unfold Rover._explore.
  apply run_bind.
  - apply quiet_post; [| |done]; frame_tac.
  - intros s w1 _ Hinv1. apply explore_loop_post; [done..|].
    apply NoDup_singleton.
Qed.


(** * What a run leaves behind *)

Lemma successes_keys_sub (tr : list Event) (learner_id : LearnerID) :
  learner_id ∈ (successes tr).*1 -> learner_id ∈ fit_calls tr.
Proof.
  intros ([lid r] & -> & Hin%successes_elem)%list_elem_of_fmap.
  apply fit_calls_elem. by exists r, true.
Qed.

Lemma successes_keys_NoDup (tr : list Event) :
  NoDup (fit_calls tr) -> NoDup (successes tr).*1.
Proof.
  induction tr as [|ev tr IH]; [intros _; apply NoDup_nil_2|].
  destruct ev as [lid r [|]|r]; [| |exact IH].
  - change (NoDup (lid :: fit_calls tr) -> NoDup (lid :: (successes tr).*1)).
    rewrite !NoDup_cons. intros [Hlid Hnd]. split; [|by apply IH].
    intros Hin. by apply Hlid, successes_keys_sub.
  - change (NoDup (lid :: fit_calls tr) -> NoDup (successes tr).*1).
    rewrite NoDup_cons. intros [_ Hnd]. by apply IH.
Qed.

Lemma dict_get_elem {V} (d : list (LearnerID * V)) (k : LearnerID) (v : V) :
  NoDup d.*1 -> (k, v) ∈ d -> Py.dict_get d k = Some v.
Proof.
  induction d as [|[k' v'] d IH]; simpl.
  - intros _ Hin. by apply elem_of_nil in Hin.
  - rewrite NoDup_cons. intros [Hk' Hnd] [Heq|Hin]%elem_of_cons.
    + injection Heq as <- <-. by rewrite decide_True.
    + destruct (decide (k' = k)) as [->|_]; [|by apply IH].
      destruct Hk'. apply list_elem_of_fmap. by exists (k, v).
Qed.

(** The state of an aborted fit differs from a state between two calls by
    the record of the failed call and by the failed learner. *)
Lemma aborted_by_fit_once `{Collaborators} (dataset : DataFrame) (e : exn)
    (w : World) :
  aborted_by_fit dataset e w ->
  NoDup (fit_calls (trace w)) /\ learners w = successes (trace w).
Proof.
  intros (w0 & lid & r & l & l' & Hinv & _ & _ & Ht & Hl & Hfresh & _).
  pose proof (run_inv_keys w0 Hinv) as Hkeys.
  destruct Hinv as [_ _ Honce Hreg].
  rewrite Ht, Hl. unfold fit_calls, successes. rewrite !omap_app. simpl.
  split; [|by rewrite app_nil_r].
  apply NoDup_app. split; [done|]. split; [|apply NoDup_singleton].
  intros lid' Hin ->%list_elem_of_singleton.
  apply Hfresh. by rewrite Hkeys.
Qed.

(** However a step ends, no id has been fitted twice and the registry
    holds exactly the fits that returned. *)
Lemma run_post_once `{Collaborators} {A} (dataset : DataFrame)
    (res : outcome A * World) :
  run_post dataset res ->
  NoDup (fit_calls (trace res.2)) /\ learners res.2 = successes (trace res.2).
Proof.
  unfold run_post.
  assert (run_inv res.2 ->
          NoDup (fit_calls (trace res.2))
          /\ learners res.2 = successes (trace res.2)) as Hinv
    by by intros [_ _ ? ?].
  destruct res.1 as [a|e|h]; [done| |done].
  intros [?|?]; [auto|by eapply aborted_by_fit_once].
Qed.

(** A fit that raised is the last call of the step, and its exception is
    the outcome of the step. *)
Lemma run_post_failed `{Collaborators} {A} (dataset : DataFrame)
    (res : outcome A * World) (learner_id : LearnerID) (obj : ref) :
  run_post dataset res ->
  FitCall learner_id obj false ∈ trace res.2 ->
  exists e l l' evs,
    res.1 = Raise e
    /\ Learner_fit l dataset (holdout_cols (config res.2)) = (Some e, l')
    /\ trace res.2 = evs ++ [FitCall learner_id obj false]
    /\ (forall ev, ev ∈ evs -> failed_fit ev = false)
    /\ learner_id ∉ (learners res.2).*1.
Proof.
  unfold run_post. intros Hpost Hin.
  assert (~ run_inv res.2) as Hdirty.
  { intros [_ Hclean _ _]. by specialize (Hclean _ Hin). }
  destruct res.1 as [a|e|h]; [done| |done].
  destruct Hpost as [?|Hab]; [done|].
  destruct Hab as (w0 & lid & r & l & l' & Hinv & _ & Hfit & Ht & Hl & Hfresh
                   & Hc).
  destruct Hinv as [_ Hclean _ _].
  rewrite Ht in Hin. apply elem_of_app in Hin as [Hin|Hin].
  { by specialize (Hclean _ Hin). }
  apply list_elem_of_singleton in Hin. injection Hin as -> ->.
  exists e, l, l', (trace w0). rewrite Hc, Hl. by split_and!.
Qed.

(** [fit] is [_explore], then [_create_super_learner], then the
    assignment of the super learner. *)
Lemma fit_unfold `{Collaborators} (fuel : nat) (dataset : DataFrame)
    (strategy : string + RoverStrategy) (max_num_models : Z)
    (kernel_param ratio_cutoff : float) (w : World) :
  Rover.fit fuel dataset strategy max_num_models kernel_param ratio_cutoff w
  = match Rover._explore fuel dataset strategy w with
    | (Return _, w1) =>
        match Rover._create_super_learner max_num_models kernel_param
                                          ratio_cutoff w1 with
        | (Return r, w2) => (Return tt, set_super_learner (Some r) w2)
        | (Raise e, w2) => (Raise e, w2)
        | (Halt h, w2) => (Halt h, w2)
        end
    | (Raise e, w1) => (Raise e, w1)
    | (Halt h, w1) => (Halt h, w1)
    end.
Proof.
  unfold Rover.fit, bind.
  destruct (Rover._explore fuel dataset strategy w) as [[[]|e|h] w1]; [|done..].
  by destruct (Rover._create_super_learner _ _ _ w1) as [[r|e|h] w2].
Qed.

(** The ensemble step of [fit] leaves the registry and the trace as the
    exploration left them. *)
Lemma fit_keeps_exploration `{Collaborators} (fuel : nat)
    (dataset : DataFrame) (strategy : string + RoverStrategy)
    (max_num_models : Z) (kernel_param ratio_cutoff : float) (w : World) :
  let res := Rover.fit fuel dataset strategy max_num_models kernel_param
                       ratio_cutoff w in
  let explored := Rover._explore fuel dataset strategy w in
  learners res.2 = learners explored.2
  /\ trace res.2 = trace explored.2
  /\ (forall a, explored.1 <> Return a -> res = explored).
Proof.
  cbv zeta. rewrite fit_unfold.
  destruct (Rover._explore fuel dataset strategy w) as [[[]|e|h] w1]; simpl;
    [|done..].
  pose proof (frame_create_super_learner max_num_models kernel_param
                ratio_cutoff w1) as (Hl & Ht & _ & _).
  destruct (Rover._create_super_learner _ _ _ w1) as [[r|e|h] w2];
    simpl in *; split_and!; try done; intros [] Ha; by destruct Ha.
Qed.

(** The fitter of the test doubles marks what it fits. *)
Lemma double_fit_marks_fitted : fit_marks_fitted (H := Double.collaborators).
Proof.
  intros l l' dataset holdouts. simpl. unfold Double.fit.
  case_bool_decide; [done|]. by intros [= <-].
Qed.


(** * Fitting each learner once *)

(** C3. Whatever layers the strategy proposes, and however the
    exploration ends, no id has had [Learner.fit] called twice, the ids of
    earlier runs included; and [get_learner] on an id of the registry
    returns the object stored there and changes nothing, so nothing is
    fitted again. The fitter is assumed to mark what it fits. *)
Theorem explore_fits_each_learner_once `{Collaborators} (fuel : nat)
    (dataset : DataFrame) (strategy : string + RoverStrategy) (w : World) :
  fit_marks_fitted -> run_inv w ->
  let w' := (Rover._explore fuel dataset strategy w).2 in
  NoDup (fit_calls (trace w'))
  /\ (forall learner_id r, (learner_id, r) ∈ learners w' ->
        Rover.get_learner learner_id true w' = (Return r, w')).
Proof.
  intros Hmarks Hinv w'.
  destruct (explore_post fuel dataset strategy w Hmarks Hinv) as [_ Hpost].
  apply run_post_once in Hpost as [Honce Hreg]. fold w' in Honce, Hreg.
  split; [done|].
  intros lid r Hin. apply get_learner_cached_hit, dict_get_elem; [|done].
  rewrite Hreg. by apply successes_keys_NoDup.
Qed.

(** A strategy that proposes the ids [0] and [1] again and again. *)
Lemma explore_fits_each_learner_once_witness :
  let w' := (Rover._explore (H := Double.collaborators) 5 tt
               (inr (Double.playback [0] [[[0]; [1]]; [[1]; [0]; [1]]]))
               (Rover.init Double.plain_config [])).2 in
  NoDup (fit_calls (trace w'))
  /\ (forall learner_id r, (learner_id, r) ∈ learners w' ->
        Rover.get_learner learner_id true w' = (Return r, w')).
Proof.
  exact (explore_fits_each_learner_once (H := Double.collaborators) 5 tt
           (inr (Double.playback [0] [[[0]; [1]]; [[1]; [0]; [1]]]))
           (Rover.init Double.plain_config [])
           double_fit_marks_fitted (run_inv_init _ _)).
Defined.

(** * A fit that raises *)

(** C6, as the code has it. A call of [Learner.fit] that raised is the
    last call of the run: [fit] ends with the exception of the fitter, in
    the state in which [_explore] ended; the learner is not in the
    registry, and the super learner is the one from before the run. The
    fitter is assumed to mark what it fits. *)
Theorem fit_failure_ends_the_run `{Collaborators} (fuel : nat)
    (dataset : DataFrame) (strategy : string + RoverStrategy)
    (max_num_models : Z) (kernel_param ratio_cutoff : float) (w : World)
    (learner_id : LearnerID) (obj : ref) :
  fit_marks_fitted -> run_inv w ->
  let res := Rover.fit fuel dataset strategy max_num_models kernel_param
                       ratio_cutoff w in
  FitCall learner_id obj false ∈ trace res.2 ->
  (exists e l l',
      res.1 = Raise e
      /\ Learner_fit l dataset (holdout_cols (config w)) = (Some e, l'))
  /\ (exists evs, trace res.2 = evs ++ [FitCall learner_id obj false]
                  /\ forall ev, ev ∈ evs -> failed_fit ev = false)
  /\ (learner_id ∉ (learners res.2).*1)
  /\ super_learner res.2 = super_learner w
  /\ res = Rover._explore fuel dataset strategy w.
Proof.
  intros Hmarks Hinv res Hin.
  destruct (explore_post fuel dataset strategy w Hmarks Hinv) as [Hg Hpost].
  destruct (fit_keeps_exploration fuel dataset strategy max_num_models
              kernel_param ratio_cutoff w) as (Hl & Ht & Hsame).
  fold res in Hl, Ht, Hsame.
  rewrite Ht in Hin.
  destruct (run_post_failed _ _ _ _ Hpost Hin)
    as (e & l & l' & evs & Hres & Hfit & Htr & Hclean & Hfresh).
  assert (res = Rover._explore fuel dataset strategy w) as Heq.
  { apply (Hsame tt). by rewrite Hres. }
  destruct Hg as (_ & _ & Hs & Hc).
  rewrite Heq. split_and!; try done.
  - exists e, l, l'. by rewrite <- Hc.
  - by exists evs.
Qed.

(** The second learner of a layer of three fails. *)
Lemma fit_failure_ends_the_run_witness :
  let res := Rover.fit (H := Double.collaborators) 5 tt
               (inr (Double.playback [0] [[[1]; [2]]])) 10 10 0.5
               (Rover.init (Double.config_of [] ["c"; "collinear"; "d"]) []) in
  (exists e l l',
      res.1 = Raise e /\ Double.fit l tt None = (Some e, l'))
  /\ (exists evs, trace res.2 = evs ++ [FitCall [1] 1%nat false]
                  /\ forall ev, ev ∈ evs -> failed_fit ev = false)
  /\ ([1] ∉ (learners res.2).*1)
  /\ super_learner res.2 = None
  /\ res = Rover._explore (H := Double.collaborators) 5 tt
             (inr (Double.playback [0] [[[1]; [2]]]))
             (Rover.init (Double.config_of [] ["c"; "collinear"; "d"]) []).
Proof.
  apply (fit_failure_ends_the_run (H := Double.collaborators) 5 tt
           (inr (Double.playback [0] [[[1]; [2]]])) 10 10 0.5
           (Rover.init (Double.config_of [] ["c"; "collinear"; "d"]) [])
           [1] 1%nat double_fit_marks_fitted (run_inv_init _ _)).
  vm_compute. apply list_elem_of_further, list_elem_of_here.
Defined.

(** C6, as the spec has it, fails on a layer of the two learners [1] and
    [2] under a fitter that raises on the column of [1]: the exception
    leaves [fit], the learner [2] of the same layer is never fitted, and
    no super learner is built from the learner [0] that was fitted. *)
Lemma fit_failure_not_isolated :
  let res := Rover.fit (H := Double.collaborators) 5 tt
               (inr (Double.playback [0] [[[1]; [2]]])) 10 10 0.5
               (Rover.init (Double.config_of [] ["c"; "collinear"; "d"]) []) in
  res.1 = Raise (ExternalError "singular design matrix")
  /\ trace res.2 = [FitCall [0] 0%nat true; FitCall [1] 1%nat false]
  /\ learners res.2 = [([0], 0%nat)]
  /\ super_learner res.2 = None.
Proof. vm_compute. by split_and!. Qed.

(** * The registry *)

(** C10. [get_learner] leaves the registry as it is, with or without the
    cache. However the exploration ends, the registry holds, in order,
    exactly the calls of [Learner.fit] that returned, each with the object
    that was fitted; it has only grown at its end; and the id of a call
    that raised is not in it. The fitter is assumed to mark what it
    fits. *)
Theorem registry_holds_the_returned_fits `{Collaborators} (fuel : nat)
    (dataset : DataFrame) (strategy : string + RoverStrategy) (w : World) :
  fit_marks_fitted -> run_inv w ->
  let w' := (Rover._explore fuel dataset strategy w).2 in
  (forall learner_id use_cache w0,
      learners (Rover.get_learner learner_id use_cache w0).2 = learners w0)
  /\ learners w' = successes (trace w')
  /\ (learners w `prefix_of` learners w')
  /\ (forall learner_id r,
        FitCall learner_id r false ∈ trace w' ->
        learner_id ∉ (learners w').*1).
Proof.
  intros Hmarks Hinv w'.
  destruct (explore_post fuel dataset strategy w Hmarks Hinv) as [Hg Hpost].
  split_and!.
  - intros lid uc w0. by destruct (frame_get_learner lid uc w0) as [? _].
  - by apply run_post_once in Hpost as [_ ?].
  - by destruct Hg as [? _].
  - intros lid r Hin.
    by destruct (run_post_failed _ _ _ _ Hpost Hin)
      as (e & l & l' & evs & _ & _ & _ & _ & ?).
Qed.

(** An exploration in which the fit of the id [1] raises. *)
Lemma registry_holds_the_returned_fits_witness :
  let w' := (Rover._explore (H := Double.collaborators) 5 tt
               (inr (Double.playback [0] [[[2]; [1]]]))
               (Rover.init (Double.config_of [] ["c"; "collinear"; "d"]) [])).2
  in
  (forall learner_id use_cache w0,
      learners (Rover.get_learner learner_id use_cache w0).2 = learners w0)
  /\ learners w' = successes (trace w')
  /\ ([] `prefix_of` learners w')
  /\ (forall learner_id r,
        FitCall learner_id r false ∈ trace w' ->
        learner_id ∉ (learners w').*1).
Proof.
  exact (registry_holds_the_returned_fits (H := Double.collaborators) 5 tt
           (inr (Double.playback [0] [[[2]; [1]]]))
           (Rover.init (Double.config_of [] ["c"; "collinear"; "d"]) [])
           double_fit_marks_fitted (run_inv_init _ _)).
Defined.

(** * Indexing the explore pool *)

Lemma index_error {A} (l : list A) (i : Z) (e : exn) :
  Py.index l i = inl e -> e = IndexError.
Proof. unfold Py.index. cbv zeta. repeat case_match; congruence. Qed.

Lemma index_out_of_range {A} (l : list A) (i : Z) :
  i < - Z.of_nat (length l) \/ Z.of_nat (length l) <= i ->
  Py.index l i = inl IndexError.
Proof.
  intros Hi. unfold Py.index. cbv zeta.
  destruct (Z.ltb_spec i 0).
  - destruct (Z.leb_spec 0 (Z.of_nat (length l) + i)); [lia|done].
  - destruct (Z.ltb_spec i (Z.of_nat (length l))); [lia|].
    by rewrite andb_false_r.
Qed.

Lemma index_all_error {A} (l : list A) (ids : list Z) (e : exn) :
  Py.index_all l ids = inl e -> e = IndexError.
Proof.
  induction ids as [|i ids IH]; simpl; [done|].
  destruct (Py.index l i) eqn:Hi.
  - intros [= <-]. by eapply index_error.
  - destruct (Py.index_all l ids); [|done]. intros [= <-]. by apply IH.
Qed.

Lemma index_all_out_of_range {A} (l : list A) (ids : list Z) (i : Z) :
  i ∈ ids ->
  i < - Z.of_nat (length l) \/ Z.of_nat (length l) <= i ->
  Py.index_all l ids = inl IndexError.
Proof.
  intros Hin Hi. induction ids as [|j ids IH]; [by apply elem_of_nil in Hin|].
  simpl. apply elem_of_cons in Hin as [<-|Hin].
  - by rewrite index_out_of_range.
  - destruct (Py.index l j) eqn:Hj.
    + by rewrite (index_error _ _ _ Hj).
    + by rewrite IH.
Qed.

Lemma index_shift {A} (l : list A) (i : Z) :
  0 <= i < Z.of_nat (length l) ->
  Py.index l (i - Z.of_nat (length l)) = Py.index l i.
Proof.
  intros Hi. unfold Py.index. cbv zeta.
  destruct (Z.ltb_spec (i - Z.of_nat (length l)) 0); [|lia].
  destruct (Z.ltb_spec i 0); [lia|].
  by replace (Z.of_nat (length l) + (i - Z.of_nat (length l))) with i by lia.
Qed.

Lemma index_all_shift {A} (l : list A) (ids : list Z) :
  (forall i, i ∈ ids -> 0 <= i < Z.of_nat (length l)) ->
  Py.index_all l ((fun i => i - Z.of_nat (length l)) <$> ids)
  = Py.index_all l ids.
Proof.
  induction ids as [|i ids IH]; intros Hin; [done|].
  rewrite fmap_cons. cbn [Py.index_all].
  rewrite index_shift by apply Hin, list_elem_of_here.
  rewrite IH; [done|]. intros j Hj. by apply Hin, list_elem_of_further.
Qed.

(** X1. An identity with an index outside [-len(col_explore),
    len(col_explore)) makes [get_learner] raise [IndexError] and change
    nothing, whenever a learner would have to be built: without the
    cache, or for an id that is not in the registry. *)
Theorem get_learner_index_out_of_range (learner_id : LearnerID)
    (use_cache : bool) (w : World) (i : Z) :
  i ∈ learner_id ->
  i < - Z.of_nat (length (col_explore (config w)))
  \/ Z.of_nat (length (col_explore (config w))) <= i ->
  use_cache = false \/ learner_id ∉ (learners w).*1 ->
  Rover.get_learner learner_id use_cache w = (Raise IndexError, w).
Proof.
  intros Hin Hi Hbuild.
  assert (Rover.get_learner learner_id use_cache w
          = Rover.get_learner learner_id false w) as ->.
  { destruct use_cache; [|done]. destruct Hbuild as [|Hmiss]; [done|].
    by apply get_learner_cached_miss. }
  rewrite get_learner_uncached_unfold.
  by rewrite (index_all_out_of_range _ _ i).
Qed.

Lemma get_learner_index_out_of_range_witness :
  Rover.get_learner [0; 2] true (Rover.init Double.plain_config [])
  = (Raise IndexError, Rover.init Double.plain_config []).
Proof.
  apply (get_learner_index_out_of_range [0; 2] true
           (Rover.init Double.plain_config []) 2).
  - apply list_elem_of_further, list_elem_of_here.
  - right. simpl. lia.
  - right. simpl. apply not_elem_of_nil.
Defined.

(** X2. A negative index counts from the end of [col_explore]: an
    identity of indices in range and the identity with every index
    lowered by [len(col_explore)] make [get_learner] build the same
    learner, with the same outcome and the same state. *)
Theorem get_learner_negative_indices (learner_id : LearnerID) (w : World) :
  (forall i, i ∈ learner_id ->
             0 <= i < Z.of_nat (length (col_explore (config w)))) ->
  Rover.get_learner
    ((fun i => i - Z.of_nat (length (col_explore (config w)))) <$> learner_id)
    false w
  = Rover.get_learner learner_id false w.
Proof.
  intros Hin. rewrite !get_learner_uncached_unfold.
  by rewrite index_all_shift.
Qed.

Lemma get_learner_negative_indices_witness :
  Rover.get_learner [-1; -2] false (Rover.init Double.plain_config [])
  = Rover.get_learner [1; 0] false (Rover.init Double.plain_config []).
Proof.
  apply (get_learner_negative_indices [1; 0]
           (Rover.init Double.plain_config [])).
  intros i Hi. simpl.
  apply elem_of_cons in Hi as [->|Hi]; [lia|].
  apply list_elem_of_singleton in Hi as ->. lia.
Defined.

(** * Dicts *)

Section DictFacts.
Context {K V : Type} `{EqDecision K}.
Implicit Types (d : list (K * V)) (k : K) (v : V).

Lemma dict_get_notin d k : k ∉ d.*1 -> Py.dict_get d k = None.
Proof.
  induction d as [|[k' v'] d IH]; simpl; [done|].
  rewrite not_elem_of_cons. intros [Hne Hk].
  destruct (decide (k' = k)) as [->|_]; [done|]. by apply IH.
Qed.

Lemma dict_set_notin d k v : k ∉ d.*1 -> Py.dict_set d k v = d ++ [(k, v)].
Proof.
  induction d as [|[k' v'] d IH]; simpl; [done|].
  rewrite not_elem_of_cons. intros [Hne Hk].
  destruct (decide (k' = k)) as [->|_]; [done|]. by rewrite IH.
Qed.

Lemma dict_get_set d k v : Py.dict_get (Py.dict_set d k v) k = Some v.
Proof.
  induction d as [|[k' v'] d IH]; simpl.
  - by rewrite decide_True.
  - destruct (decide (k' = k)) as [->|Hne]; simpl.
    + by rewrite decide_True.
    + by rewrite decide_False.
Qed.

Lemma dict_get_set_ne d k k' v :
  k' <> k -> Py.dict_get (Py.dict_set d k v) k' = Py.dict_get d k'.
Proof.
  intros Hne. induction d as [|[k0 v0] d IH]; simpl.
  - by rewrite decide_False.
  - destruct (decide (k0 = k)) as [->|Hne0]; simpl.
    + by rewrite !decide_False.
    + destruct (decide (k0 = k')); [done|]. apply IH.
Qed.

Lemma dict_set_set d k v v' :
  Py.dict_set (Py.dict_set d k v) k v' = Py.dict_set d k v'.
Proof.
  induction d as [|[k0 v0] d IH]; simpl.
  - by rewrite decide_True.
  - destruct (decide (k0 = k)) as [->|Hne]; simpl.
    + by rewrite decide_True.
    + by rewrite decide_False, IH.
Qed.

Lemma dict_update_get_notin d (other : list (K * V)) k :
  k ∉ other.*1 -> Py.dict_get (Py.dict_update d other) k = Py.dict_get d k.
Proof.
  unfold Py.dict_update. revert d.
  induction other as [|[k0 v0] other IH]; intros d; simpl; [done|].
  rewrite not_elem_of_cons. intros [Hne Hk].
  rewrite IH by done. by apply dict_get_set_ne.
Qed.

End DictFacts.

(** * The default parameter specifications *)

Lemma default_param_specs_fold (user : ParamSpecs) (acc : ParamSpecs)
    (fixed : list (string * list string)) :
  NoDup fixed.*1 ->
  (forall k, k ∈ fixed.*1 -> k ∉ acc.*1) ->
  foldl (Rover.default_param_specs_step user) (inr acc) fixed
  = inr (acc ++ (fixed_param_spec user <$> fixed)).
Proof.
  revert acc. induction fixed as [|[k cols] fixed IH]; intros acc Hnd Hfresh.
  { simpl. by rewrite app_nil_r. }
  rewrite fmap_cons in Hnd. apply NoDup_cons in Hnd as [Hk Hnd].
  assert (k ∉ acc.*1) as Hacc by apply Hfresh, list_elem_of_here.
  cbn [foldl Rover.default_param_specs_step].
  unfold Rover.spec_variables, Rover.set_spec_variables. simpl.
  rewrite (dict_get_notin acc k Hacc). simpl.
  rewrite dict_get_set, dict_set_set, (dict_set_notin acc k _ Hacc).
  cbn [default]. rewrite IH; [|done|].
  - rewrite <- app_assoc. reflexivity.
  - intros k' Hk'. rewrite fmap_app. apply not_elem_of_app. split.
    + by apply Hfresh, list_elem_of_further.
    + intros ->%list_elem_of_singleton. done.
Qed.

(** The loop of [default_param_specs] over a [col_fixed] with distinct
    keys. *)
Lemma default_param_specs_closed_form (c : Config) :
  NoDup (col_fixed c).*1 ->
  Rover.default_param_specs c
  = inr (fixed_param_spec (param_specs c) <$> col_fixed c).
Proof.
  intros Hnd. unfold Rover.default_param_specs.
  rewrite default_param_specs_fold; [done..|].
  intros k _. apply not_elem_of_nil.
Qed.

(** X3. For a [col_fixed] with distinct keys, as a dict has them,
    [default_param_specs] returns one entry per key of [col_fixed], in its
    order: the fixed columns under ["variables"] with the user's settings
    for that parameter merged over it.  So a parameter of [param_specs]
    that has no fixed columns gets no entry, and a ["variables"] setting of
    the user replaces the fixed columns. *)
Theorem default_param_specs_entries (c : Config) :
  NoDup (col_fixed c).*1 ->
  Rover.default_param_specs c
  = inr (fixed_param_spec (param_specs c) <$> col_fixed c).
Proof.
  intros Hnd. unfold Rover.default_param_specs.
  rewrite (default_param_specs_fold (param_specs c) [] (col_fixed c) Hnd).
  - reflexivity.
  - intros k _. apply not_elem_of_nil.
Qed.

(** Two parameters with fixed columns, settings of the user for one of
    them and for a parameter without fixed columns. *)
Lemma default_param_specs_entries_witness :
  Rover.default_param_specs
    {| model_type := "gaussian"; y := "obs";
       col_fixed := [("mu", ["a"]); ("sigma", ["b"; "c"])];
       col_explore := ["d"]; explore_param := "mu";
       param_specs := [("sigma", [("inv_link", Setting "exp")]);
                       ("tau", [("inv_link", Setting "exp")])];
       offset := "offset"; weights := "weights"; holdout_cols := None;
       model_eval_metric := "get_rmse" |}
  = inr [("mu", [("variables", Variables ["a"])]);
         ("sigma", [("variables", Variables ["b"; "c"]);
                    ("inv_link", Setting "exp")])].
Proof.
  apply (default_param_specs_entries
           {| model_type := "gaussian"; y := "obs";
              col_fixed := [("mu", ["a"]); ("sigma", ["b"; "c"])];
              col_explore := ["d"]; explore_param := "mu";
              param_specs := [("sigma", [("inv_link", Setting "exp")]);
                              ("tau", [("inv_link", Setting "exp")])];
              offset := "offset"; weights := "weights"; holdout_cols := None;
              model_eval_metric := "get_rmse" |}).
  simpl. apply NoDup_cons. split.
  - intros Hin%list_elem_of_singleton. discriminate Hin.
  - apply NoDup_singleton.
Defined.

(** * The learner [get_learner] builds *)

Lemma dict_get_in {K V : Type} `{EqDecision K} (d : list (K * V)) (k : K)
    (v : V) :
  NoDup d.*1 -> (k, v) ∈ d -> Py.dict_get d k = Some v.
Proof.
  induction d as [|[k' v'] d IH]; simpl.
  - intros _ Hin. by apply elem_of_nil in Hin.
  - rewrite NoDup_cons. intros [Hk' Hnd] [Heq|Hin]%elem_of_cons.
    + injection Heq as <- <-. by rewrite decide_True.
    + destruct (decide (k' = k)) as [->|_]; [|by apply IH].
      destruct Hk'. apply list_elem_of_fmap. by exists (k, v).
Qed.

Lemma fixed_param_spec_keys (user : ParamSpecs)
    (fixed : list (string * list string)) :
  (fixed_param_spec user <$> fixed).*1 = fixed.*1.
Proof. rewrite <- list_fmap_compose. by apply list_fmap_ext. Qed.

Lemma spec_variables_set (ps : ParamSpecs) (name : string) (v : SpecValue) :
  Rover.spec_variables (Rover.set_spec_variables ps name v) name = v.
Proof.
  unfold Rover.spec_variables, Rover.set_spec_variables.
  rewrite dict_get_set. simpl. by rewrite dict_get_set.
Qed.

(** X4. When the explore parameter has no fixed columns, the learner
    [get_learner] builds has, after the entries of the parameters with
    fixed columns, an entry for the explore parameter that holds the
    explore columns of the identity under ["variables"] and nothing else:
    what [param_specs] says about the explore parameter is left out. *)
Theorem get_learner_explore_param_without_fixed (learner_id : LearnerID)
    (w : World) (explore_columns : list string) :
  NoDup (col_fixed (config w)).*1 ->
  explore_param (config w) ∉ (col_fixed (config w)).*1 ->
  Py.index_all (col_explore (config w)) learner_id = inr explore_columns ->
  exists l,
    (Rover.get_learner learner_id false w).1 = Return (length (heap w))
    /\ heap (Rover.get_learner learner_id false w).2 = heap w ++ [l]
    /\ Learner.param_specs l
       = (fixed_param_spec (param_specs (config w)) <$> col_fixed (config w))
         ++ [(explore_param (config w),
              [("variables", Variables explore_columns)])].
Proof.
  intros Hnd Hep Hcols.
  rewrite get_learner_uncached_unfold, Hcols.
  rewrite default_param_specs_closed_form by done.
  assert (explore_param (config w)
          ∉ (fixed_param_spec (param_specs (config w))
               <$> col_fixed (config w)).*1) as Hkeys
    by by rewrite fixed_param_spec_keys.
  unfold Rover.spec_variables, Rover.set_spec_variables.
  rewrite (dict_get_notin _ _ Hkeys). simpl.
  eexists. split_and!; [done..|].
  simpl. by rewrite (dict_set_notin _ _ _ Hkeys).
Qed.

(** The user's link for ["mu"] does not reach the learner. *)
Lemma get_learner_explore_param_without_fixed_witness :
  let w := Rover.init
             {| model_type := "gaussian"; y := "obs";
                col_fixed := [("sigma", ["a"])];
                col_explore := ["b"; "c"]; explore_param := "mu";
                param_specs := [("mu", [("inv_link", Setting "exp")])];
                offset := "offset"; weights := "weights";
                holdout_cols := None; model_eval_metric := "get_rmse" |} [] in
  exists l,
    (Rover.get_learner [1] false w).1 = Return 0%nat
    /\ heap (Rover.get_learner [1] false w).2 = [l]
    /\ Learner.param_specs l
       = [("sigma", [("variables", Variables ["a"])]);
          ("mu", [("variables", Variables ["c"])])].
Proof.
  apply (get_learner_explore_param_without_fixed [1]
           (Rover.init
              {| model_type := "gaussian"; y := "obs";
                 col_fixed := [("sigma", ["a"])];
                 col_explore := ["b"; "c"]; explore_param := "mu";
                 param_specs := [("mu", [("inv_link", Setting "exp")])];
                 offset := "offset"; weights := "weights";
                 holdout_cols := None; model_eval_metric := "get_rmse" |} [])
           ["c"]).
  - apply NoDup_singleton.
  - simpl. intros Hin%list_elem_of_singleton. discriminate Hin.
  - reflexivity.
Defined.

(** X5. When the explore parameter has fixed columns and the user gives
    no ["variables"] for it, the learner [get_learner] builds lists, for
    the explore parameter, the fixed columns first and then the explore
    columns in the order of the identity; the entries of the other
    parameters are those of [default_param_specs]; and the learner is
    given the global covariate list. *)
Theorem get_learner_explore_columns_last (learner_id : LearnerID)
    (w : World) (cols explore_columns : list string) :
  NoDup (col_fixed (config w)).*1 ->
  (explore_param (config w), cols) ∈ col_fixed (config w) ->
  "variables"
    ∉ (default [] (Py.dict_get (param_specs (config w))
                               (explore_param (config w)))).*1 ->
  Py.index_all (col_explore (config w)) learner_id = inr explore_columns ->
  exists l,
    (Rover.get_learner learner_id false w).1 = Return (length (heap w))
    /\ heap (Rover.get_learner learner_id false w).2 = heap w ++ [l]
    /\ Rover.spec_variables (Learner.param_specs l) (explore_param (config w))
       = Variables (cols ++ explore_columns)
    /\ (forall name, name <> explore_param (config w) ->
          Py.dict_get (Learner.param_specs l) name
          = Py.dict_get (fixed_param_spec (param_specs (config w))
                           <$> col_fixed (config w)) name)
    /\ Learner.all_covariates l
       = default (Rover.unpack_covariates (config w)) (_all_covariates w).
Proof.
  intros Hnd Hep Huser Hcols.
  rewrite get_learner_uncached_unfold, Hcols.
  rewrite default_param_specs_closed_form by done.
  set (ps := fixed_param_spec (param_specs (config w)) <$> col_fixed (config w)).
  assert (Rover.spec_variables ps (explore_param (config w)) = Variables cols)
    as ->.
  { unfold Rover.spec_variables.
    rewrite (dict_get_in ps _
               (fixed_param_spec (param_specs (config w))
                  (explore_param (config w), cols)).2).
    - simpl. by rewrite dict_update_get_notin.
    - unfold ps. by rewrite fixed_param_spec_keys.
    - apply list_elem_of_fmap.
      by exists (explore_param (config w), cols). }
  eexists. split_and!; [done..| | |done].
  - simpl. apply spec_variables_set.
  - intros name Hne. simpl. unfold Rover.set_spec_variables.
    by apply dict_get_set_ne.
Qed.

(** The docstring's setting: [a] and [b] fixed, the identity [(2, 0)]. *)
Lemma get_learner_explore_columns_last_witness :
  let w := Rover.init Double.docstring_config [] in
  exists l,
    (Rover.get_learner [2; 0] false w).1 = Return 0%nat
    /\ heap (Rover.get_learner [2; 0] false w).2 = [l]
    /\ Rover.spec_variables (Learner.param_specs l) "mu"
       = Variables ["a"; "b"; "e"; "c"]
    /\ Learner.all_covariates l = ["a"; "b"; "c"; "d"; "e"].
Proof.
  destruct (get_learner_explore_columns_last [2; 0]
              (Rover.init Double.docstring_config []) ["a"; "b"] ["e"; "c"])
    as (l & Hr & Hh & Hv & _ & Hc).
  - apply NoDup_singleton.
  - apply list_elem_of_here.
  - apply not_elem_of_nil.
  - reflexivity.
  - exists l. by split_and!.
Defined.

(** * The projection outside its intended inputs *)

Lemma broadcast_to_length {A} (n : nat) (src vals : list A) :
  Np.broadcast_to n src = Some vals -> length vals = n.
Proof.
  unfold Np.broadcast_to. destruct (decide (length src = n)) as [<-|_].
  - by intros [= <-].
  - destruct src as [|x [|]]; [done| |done].
    intros [= <-]. apply length_replicate.
Qed.

Lemma broadcast_to_mismatch {A} (n : nat) (src : list A) :
  length src <> n -> length src <> 1%nat -> Np.broadcast_to n src = None.
Proof.
  intros Hn H1. unfold Np.broadcast_to. rewrite decide_False by done.
  by destruct src as [|x [|]].
Qed.

Lemma assign_prefix_length (row : list float) (k : Z) (src row' : list float) :
  Np.assign_prefix row k src = inr row' -> length row' = length row.
Proof.
  unfold Np.assign_prefix. cbv zeta.
  destruct (Np.broadcast_to _ src) as [vals|] eqn:Hb; [|done].
  intros [= <-]. apply broadcast_to_length in Hb.
  rewrite length_app, length_drop, Hb.
  unfold Py.slice_to. rewrite length_take. lia.
Qed.

Lemma assign_at_length (row : list float) (idx : Np.ndarray)
    (src row' : list float) :
  Np.assign_at row idx src = inr row' -> length row' = length row.
Proof.
  unfold Np.assign_at. destruct idx as [ids|]; [|done].
  destruct (Np.broadcast_to _ src); [|done].
  destruct (mapM _ ids); [|done].
  intros [= <-]. apply scatter_length.
Qed.

Lemma global_coefs_length (num_covs num_explore : nat)
    (learner_id : LearnerID) (opt_coefs row : list float) :
  Rover.global_coefs num_covs num_explore learner_id opt_coefs = inr row ->
  length row = num_covs.
Proof.
  unfold Rover.global_coefs. cbv zeta.
  destruct (Np.assign_prefix _ _ _) as [e|row'] eqn:Hp; [done|].
  intros Ha%assign_at_length. apply assign_prefix_length in Hp.
  rewrite Ha, Hp. apply length_replicate.
Qed.

(** On a well-formed world the method is [global_coefs] on the counts of
    the configuration. *)
Lemma learner_coefs_to_global_coefs_unfold (learner_id : LearnerID)
    (opt_coefs : list float) (w : World) :
  cache_consistent w ->
  Rover._learner_coefs_to_global_coefs learner_id opt_coefs w
  = (match Rover.global_coefs
             (fixed_count (config w) + length (col_explore (config w)))
             (length (col_explore (config w))) learner_id opt_coefs with
     | inl e => Raise e
     | inr row => Return row
     end,
     set_all_covariates (Some (Rover.unpack_covariates (config w))) w).
Proof.
  intros Hc. unfold Rover._learner_coefs_to_global_coefs, bind.
  rewrite num_covariates_consistent by done. simpl.
  by destruct (Rover.global_coefs _ _ _ _).
Qed.

(** The length of a row the method returns on a well-formed world. *)
Lemma learner_coefs_returns_length (learner_id : LearnerID)
    (opt_coefs row : list float) (w w' : World) :
  cache_consistent w ->
  Rover._learner_coefs_to_global_coefs learner_id opt_coefs w
  = (Return row, w') ->
  length row
  = (fixed_count (config w) + length (col_explore (config w)))%nat.
Proof.
  intros Hc Hrun.
  rewrite learner_coefs_to_global_coefs_unfold in Hrun by done.
  destruct (Rover.global_coefs _ _ _ _) as [e|row'] eqn:Hg; [done|].
  injection Hrun as <- _. by apply global_coefs_length in Hg.
Qed.

(** X7. Whatever the identity and the local vector, a row that
    [_learner_coefs_to_global_coefs] returns has [num_covariates]
    entries: the fixed count plus the size of the explore pool. *)
Theorem learner_coefs_to_global_coefs_length (learner_id : LearnerID)
    (opt_coefs row : list float) (w w' : World) :
  Rover._learner_coefs_to_global_coefs learner_id opt_coefs w
  = (Return row, w') ->
  Rover.num_covariates w' = (Return (length row), w')
  /\ (cache_consistent w ->
      length row
      = (fixed_count (config w) + length (col_explore (config w)))%nat).
Proof.
  intros Hrun. split.
  - revert Hrun.
    unfold Rover._learner_coefs_to_global_coefs, Rover.num_covariates, bind,
      Rover.all_covariates, get_world.
    destruct (_all_covariates w) as [covs|] eqn:Hcache; simpl;
      destruct (Rover.global_coefs _ _ _ _) as [e|row'] eqn:Hg; simpl;
      try done; intros [= <- <-]; apply global_coefs_length in Hg;
      simpl; rewrite ?Hcache; simpl; by rewrite Hg.
  - intros Hc. rewrite learner_coefs_to_global_coefs_unfold in Hrun by done.
    destruct (Rover.global_coefs _ _ _ _) as [e|row'] eqn:Hg; [done|].
    injection Hrun as <- _. by apply global_coefs_length in Hg.
Qed.

(** One explore coefficient for the identity [(0, 2)]: it is broadcast,
    and the row still has five entries. *)
Lemma learner_coefs_to_global_coefs_length_witness :
  let w := Rover.init Double.docstring_config [] in
  let w' := set_all_covariates (Some ["a"; "b"; "c"; "d"; "e"]) w in
  Rover.num_covariates w' = (Return 5%nat, w')
  /\ (cache_consistent w -> 5%nat = (2 + 3)%nat).
Proof.
  exact (learner_coefs_to_global_coefs_length [0; 2]
           [0.5%float; 0.25%float; 2%float]
           [0.5%float; 0.25%float; 2%float; 0%float; 2%float]
           (Rover.init Double.docstring_config [])
           (set_all_covariates (Some ["a"; "b"; "c"; "d"; "e"])
              (Rover.init Double.docstring_config []))
           eq_refl).
Defined.

Lemma slice_bound_of_nat {A} (l : list A) (n : nat) :
  Py.slice_bound l (Z.of_nat n) = (n `min` length l)%nat.
Proof. unfold Py.slice_bound. case_match; lia. Qed.

Lemma assign_prefix_error (row : list float) (k : Z) (src : list float)
    (e : exn) :
  Np.assign_prefix row k src = inl e -> e = ValueError.
Proof.
  unfold Np.assign_prefix. cbv zeta.
  destruct (Np.broadcast_to _ src); [done|]. by intros [= <-].
Qed.

Lemma global_coefs_wrong_length (num_fixed num_explore : nat)
    (learner_id : LearnerID) (opt_coefs : list float) :
  learner_id <> [] ->
  length opt_coefs <> (num_fixed + length learner_id)%nat ->
  length opt_coefs <> (num_fixed + 1)%nat ->
  Rover.global_coefs (num_fixed + num_explore) num_explore learner_id opt_coefs
  = inl ValueError.
Proof.
  intros Hne Hlen Hone. unfold Rover.global_coefs. cbv zeta.
  replace (Z.of_nat (num_fixed + num_explore) - Z.of_nat num_explore)
    with (Z.of_nat num_fixed) by lia.
  destruct (Np.assign_prefix _ _ _) as [e|row'] eqn:Hp.
  { by rewrite (assign_prefix_error _ _ _ _ Hp). }
  destruct learner_id as [|k0 ids] eqn:Hid; [done|]. rewrite <- Hid in *.
  assert (Np.array_of_ints learner_id = Np.IntArr learner_id) as ->
    by (by rewrite Hid).
  simpl Np.add_int. unfold Np.assign_at.
  rewrite broadcast_to_mismatch; [done| |].
  - unfold Py.slice_from. rewrite slice_bound_of_nat, length_drop, length_fmap.
    assert (0 < length learner_id)%nat by (rewrite Hid; simpl; lia). lia.
  - unfold Py.slice_from. rewrite slice_bound_of_nat, length_drop. lia.
Qed.

(** X8. For a non-empty identity of indices into the explore pool, a
    local vector whose length is neither
    the fixed count plus the size of the identity nor the fixed count plus
    one makes [_learner_coefs_to_global_coefs] raise [ValueError]: the
    coefficients cannot be broadcast to the cells they are assigned
    to. *)
Theorem learner_coefs_to_global_coefs_wrong_length (learner_id : LearnerID)
    (opt_coefs : list float) (w : World) :
  cache_consistent w ->
  learner_id <> [] ->
  (forall k, k ∈ learner_id ->
             0 <= k < Z.of_nat (length (col_explore (config w)))) ->
  length opt_coefs <> (fixed_count (config w) + length learner_id)%nat ->
  length opt_coefs <> (fixed_count (config w) + 1)%nat ->
  (Rover._learner_coefs_to_global_coefs learner_id opt_coefs w).1
  = Raise ValueError.
Proof.
  intros Hc Hne _ Hlen Hone.
  rewrite learner_coefs_to_global_coefs_unfold by done.
  by rewrite global_coefs_wrong_length.
Qed.

(** Four coefficients for two fixed covariates and an identity of
    three. *)
Lemma learner_coefs_to_global_coefs_wrong_length_witness :
  (Rover._learner_coefs_to_global_coefs [0; 1; 2]
     [0.5%float; 0.25%float; 2%float; 1%float]
     (Rover.init Double.docstring_config [])).1
  = Raise ValueError.
Proof.
  apply (learner_coefs_to_global_coefs_wrong_length [0; 1; 2]
           [0.5%float; 0.25%float; 2%float; 1%float]
           (Rover.init Double.docstring_config [])).
  - intros covs Hcovs. discriminate Hcovs.
  - discriminate.
  - intros k Hk. simpl.
    repeat (apply elem_of_cons in Hk as [->|Hk]; [lia|]).
    by apply elem_of_nil in Hk.
  - simpl. vm_compute. lia.
  - simpl. vm_compute. lia.
Defined.

Lemma scatter_same_value (row : list float) (writes : list (nat * float))
    (c : nat) (x : float) :
  (forall cv, cv ∈ writes -> cv.2 = x) ->
  c ∈ writes.*1 -> (c < length row)%nat ->
  Np.scatter row writes !! c = Some x.
Proof.
  revert row. induction writes as [|[c0 v0] ws IH]; intros row Hval Hin Hlt.
  { by apply elem_of_nil in Hin. }
  change (Np.scatter row ((c0, v0) :: ws))
    with (Np.scatter (<[c0 := v0]> row) ws).
  destruct (decide (c ∈ ws.*1)) as [Hws|Hws].
  - apply IH; [|done|by rewrite length_insert].
    intros cv Hcv. by apply Hval, list_elem_of_further.
  - rewrite scatter_lookup_other by done.
    rewrite fmap_cons in Hin. apply elem_of_cons in Hin as [->|Hin]; [|done].
    simpl. rewrite list_lookup_insert_eq by done.
    f_equal. apply (Hval (c0, v0)), list_elem_of_here.
Qed.

(** The row after the assignment of the fixed coefficients, for a local
    vector that has them all. *)
Lemma global_coefs_after_prefix (num_fixed num_explore : nat)
    (learner_id : LearnerID) (opt_coefs : list float) :
  (num_fixed <= length opt_coefs)%nat ->
  Rover.global_coefs (num_fixed + num_explore) num_explore learner_id opt_coefs
  = Np.assign_at (take num_fixed opt_coefs ++ replicate num_explore 0%float)
      (Np.add_int (Np.array_of_ints learner_id) (Z.of_nat num_fixed))
      (drop num_fixed opt_coefs).
Proof.
  intros Hlen. unfold Rover.global_coefs. cbv zeta.
  replace (Z.of_nat (num_fixed + num_explore) - Z.of_nat num_explore)
    with (Z.of_nat num_fixed) by lia.
  unfold Np.assign_prefix, Py.slice_to, Py.slice_from, Np.zeros.
  rewrite !slice_bound_nat by (rewrite ?length_replicate; lia).
  rewrite length_take_le by (rewrite length_replicate; lia).
  rewrite broadcast_to_same by (rewrite length_take_le; lia).
  rewrite drop_replicate.
  by replace (num_fixed + num_explore - num_fixed)%nat with num_explore by lia.
Qed.

(** X9. In the projection a negative index does not count from the end of
    the explore pool: for an identity [(k,)] with [k] between minus the
    fixed count and [-1], the explore coefficient is written over the
    fixed coefficient at [fixed_count + k], and every explore position is
    left at zero. *)
Theorem learner_coefs_negative_index_hits_fixed (k : Z)
    (opt_coefs : list float) (w : World) :
  cache_consistent w ->
  - Z.of_nat (fixed_count (config w)) <= k < 0 ->
  length opt_coefs = (fixed_count (config w) + 1)%nat ->
  exists row w',
    Rover._learner_coefs_to_global_coefs [k] opt_coefs w = (Return row, w')
    /\ row !! Z.to_nat (Z.of_nat (fixed_count (config w)) + k)
       = opt_coefs !! fixed_count (config w)
    /\ (forall j, (j < length (col_explore (config w)))%nat ->
          row !! (fixed_count (config w) + j)%nat = Some 0%float).
Proof.
  intros Hc Hk Hlen.
  rewrite learner_coefs_to_global_coefs_unfold by done.
  rewrite global_coefs_after_prefix by lia.
  set (f := fixed_count (config w)) in *.
  set (ne := length (col_explore (config w))).
  set (row0 := take f opt_coefs ++ replicate ne 0%float).
  assert (length row0 = (f + ne)%nat) as Hrow0.
  { unfold row0. rewrite length_app, length_take_le, length_replicate; lia. }
  destruct (drop f opt_coefs) as [|x [|]] eqn:Hdrop;
    [apply (f_equal length) in Hdrop; rewrite length_drop in Hdrop;
     simpl in Hdrop; lia| |
     apply (f_equal length) in Hdrop; rewrite length_drop in Hdrop;
     simpl in Hdrop; lia].
  assert (opt_coefs !! f = Some x) as Hx.
  { rewrite <- (Nat.add_0_r f), <- lookup_drop. by rewrite Hdrop. }
  simpl Np.add_int. unfold Np.assign_at. rewrite broadcast_to_same by done.
  simpl. unfold Np.axis_index. rewrite Hrow0.
  destruct (Z.ltb_spec (k + Z.of_nat f) 0); [lia|].
  destruct (Z.leb_spec 0 (k + Z.of_nat f)); [|lia].
  destruct (Z.ltb_spec (k + Z.of_nat f) (Z.of_nat (f + ne))); [|lia].
  simpl. eexists _, _. split; [reflexivity|].
  replace (Z.of_nat f + k) with (k + Z.of_nat f) by lia.
  split.
  - rewrite Hx. apply list_lookup_insert_eq. lia.
  - intros j Hj. rewrite list_lookup_insert_ne by lia.
    unfold row0. rewrite lookup_app_r by (rewrite length_take_le; lia).
    rewrite length_take_le by lia. apply lookup_replicate_2. lia.
Qed.

(** The identity [(-1,)] with [a] and [b] fixed: the coefficient [2]
    lands on [b]. *)
Lemma learner_coefs_negative_index_hits_fixed_witness :
  exists row w',
    Rover._learner_coefs_to_global_coefs [-1]
      [0.5%float; 0.25%float; 2%float] (Rover.init Double.docstring_config [])
    = (Return row, w')
    /\ row = [0.5%float; 2%float; 0%float; 0%float; 0%float].
Proof.
  destruct (learner_coefs_negative_index_hits_fixed (-1)
              [0.5%float; 0.25%float; 2%float]
              (Rover.init Double.docstring_config []))
    as (row & w' & Hrun & _).
  - intros covs Hcovs. discriminate Hcovs.
  - vm_compute. split; [intros Hcmp; discriminate Hcmp|reflexivity].
  - reflexivity.
  - exists row, w'. split; [exact Hrun|].
    vm_compute in Hrun. by injection Hrun as <- _.
Defined.

(** X10. A local vector with a single explore coefficient is accepted for
    a non-empty identity of any size: the coefficient is broadcast, and
    every covariate of the identity gets it. *)
Theorem learner_coefs_single_coefficient_broadcast (learner_id : LearnerID)
    (opt_coefs : list float) (w : World) :
  cache_consistent w ->
  learner_id <> [] ->
  (forall k, k ∈ learner_id ->
             0 <= k < Z.of_nat (length (col_explore (config w)))) ->
  length opt_coefs = (fixed_count (config w) + 1)%nat ->
  exists row w',
    Rover._learner_coefs_to_global_coefs learner_id opt_coefs w
    = (Return row, w')
    /\ (forall k, k ∈ learner_id ->
          row !! (fixed_count (config w) + Z.to_nat k)%nat
          = opt_coefs !! fixed_count (config w)).
Proof.
  intros Hc Hne Hrange Hlen.
  rewrite learner_coefs_to_global_coefs_unfold by done.
  rewrite global_coefs_after_prefix by lia.
  set (f := fixed_count (config w)) in *.
  set (ne := length (col_explore (config w))) in *.
  set (row0 := take f opt_coefs ++ replicate ne 0%float).
  assert (length row0 = (f + ne)%nat) as Hrow0.
  { unfold row0. rewrite length_app, length_take_le, length_replicate; lia. }
  destruct (drop f opt_coefs) as [|x [|]] eqn:Hdrop;
    [apply (f_equal length) in Hdrop; rewrite length_drop in Hdrop;
     simpl in Hdrop; lia| |
     apply (f_equal length) in Hdrop; rewrite length_drop in Hdrop;
     simpl in Hdrop; lia].
  assert (opt_coefs !! f = Some x) as Hx.
  { rewrite <- (Nat.add_0_r f), <- lookup_drop. by rewrite Hdrop. }
  destruct learner_id as [|k0 ids] eqn:Hid; [done|]. rewrite <- Hid in *.
  assert (Np.array_of_ints learner_id = Np.IntArr learner_id) as ->
    by (by rewrite Hid).
  simpl Np.add_int. unfold Np.assign_at.
  assert (exists vals,
             Np.broadcast_to
               (length ((fun y => y + Z.of_nat f) <$> learner_id)) [x]
             = Some vals
             /\ length vals = length learner_id
             /\ forall v, v ∈ vals -> v = x) as (vals & -> & Hvl & Hvals).
  { rewrite length_fmap. unfold Np.broadcast_to.
    destruct (decide (length [x] = length learner_id)) as [Heq|_].
    - exists [x]. split_and!; [done|done|].
      by intros v ->%list_elem_of_singleton.
    - eexists. split_and!; [done|apply length_replicate|].
      by intros v [-> _]%elem_of_replicate. }
  rewrite axis_index_all; last first.
  { rewrite Hrow0. intros k [k' [-> Hk']]%list_elem_of_fmap.
    apply Hrange in Hk'. lia. }
  eexists _, _. split; [reflexivity|].
  intros k Hk. rewrite Hx. apply scatter_same_value.
  - intros [c v] Hcv. simpl. apply Hvals.
    apply (list_elem_of_fmap_2 snd) in Hcv. simpl in Hcv.
    rewrite snd_zip in Hcv; [done|]. rewrite !length_fmap. lia.
  - rewrite fst_zip by (rewrite !length_fmap; lia).
    apply list_elem_of_fmap. exists (k + Z.of_nat f).
    split; [apply Hrange in Hk; lia|].
    by apply (list_elem_of_fmap_2 (fun y => y + Z.of_nat f)).
  - rewrite Hrow0. apply Hrange in Hk. lia.
Qed.

(** One explore coefficient for the identity [(0, 2)]. *)
Lemma learner_coefs_single_coefficient_broadcast_witness :
  exists row w',
    Rover._learner_coefs_to_global_coefs [0; 2]
      [0.5%float; 0.25%float; 2%float] (Rover.init Double.docstring_config [])
    = (Return row, w')
    /\ row = [0.5%float; 0.25%float; 2%float; 0%float; 2%float].
Proof.
  destruct (learner_coefs_single_coefficient_broadcast [0; 2]
              [0.5%float; 0.25%float; 2%float]
              (Rover.init Double.docstring_config []))
    as (row & w' & Hrun & _).
  - intros covs Hcovs. discriminate Hcovs.
  - discriminate.
  - intros k Hk. simpl.
    repeat (apply elem_of_cons in Hk as [->|Hk]; [lia|]).
    by apply elem_of_nil in Hk.
  - reflexivity.
  - exists row, w'. split; [exact Hrun|].
    vm_compute in Hrun. by injection Hrun as <- _.
Defined.

(** * What the methods leave alone *)

#[export] Instance same_but_cache_preorder : PreOrder same_but_cache.
Proof.
  split.
  - by intros w.
  - intros w1 w2 w3 (C1 & L1 & S1 & H1 & T1) (C2 & L2 & S2 & H2 & T2).
    unfold same_but_cache. by rewrite C2, L2, S2, H2, T2.
Qed.

#[export] Instance same_setting_preorder : PreOrder same_setting.
Proof.
  split.
  - by intros w.
  - intros w1 w2 w3 (C1 & S1 & K1) (C2 & S2 & K2).
    unfold same_setting. rewrite C2, S2. auto.
Qed.

Section Stable.
Context (R : relation World) `{!PreOrder R}.

Lemma stable_ret {A} (a : A) : stable R (ret a).
Proof. by intros w. Qed.

Lemma stable_raise {A} (e : exn) : stable R (@raise A e).
Proof. by intros w. Qed.

Lemma stable_lift {A} (r : exn + A) : stable R (lift r).
Proof. by destruct r; intros w. Qed.

Lemma stable_get_world : stable R get_world.
Proof. by intros w. Qed.

Lemma stable_deref (r : ref) : stable R (deref r).
Proof. intros w. unfold deref. by destruct (heap w !! r). Qed.

Lemma stable_bind {A B} (m : M A) (k : A -> M B) :
  stable R m -> (forall a, stable R (k a)) -> stable R (bind m k).
Proof.
  intros Hm Hk w. unfold bind. specialize (Hm w).
  destruct (m w) as [[a|e|h] w1]; simpl in *; [|done|done].
  etrans; [done|]. apply Hk.
Qed.

End Stable.

Lemma cache_consistent_setter (w w' : World) :
  config w' = config w -> _all_covariates w' = _all_covariates w ->
  cache_consistent w -> cache_consistent w'.
Proof. unfold cache_consistent. intros -> ->. done. Qed.

Lemma pure_all_covariates : stable same_but_cache Rover.all_covariates.
Proof. intros w. unfold Rover.all_covariates. by destruct (_all_covariates w). Qed.

Lemma setting_all_covariates : stable same_setting Rover.all_covariates.
Proof.
  intros w. unfold Rover.all_covariates.
  destruct (_all_covariates w); [done|].
  split_and!; [done..|]. intros _ covs. simpl. by intros [= <-].
Qed.

Lemma setting_alloc (l : Learner.t) : stable same_setting (alloc l).
Proof. by intros w. Qed.

Lemma setting_store (r : ref) (l : Learner.t) : stable same_setting (store r l).
Proof. by intros w. Qed.

Lemma setting_emit (ev : Event) : stable same_setting (emit ev).
Proof. by intros w. Qed.

Lemma setting_set_learners (f : World -> list (LearnerID * ref)) :
  stable same_setting (modify (fun w => set_learners (f w) w)).
Proof. by intros w. Qed.

Create HintDb stable.
#[export] Hint Resolve stable_ret stable_raise stable_lift stable_get_world
  stable_deref pure_all_covariates setting_all_covariates setting_alloc
  setting_store setting_emit setting_set_learners : stable.

(** One step of a proof that a method is stable: through a bind, a
    branch or a known method. *)
Ltac stable_step :=
  match goal with
  | |- stable _ (bind _ _) => apply stable_bind; [tc_solve| |intros ?]
  | |- stable _ (match ?x with _ => _ end) => destruct x
  | |- stable _ (let _ := _ in _) => cbv zeta
  | |- stable _ _ => solve [eauto with stable typeclass_instances]
  end.

Ltac stable_tac := repeat stable_step.

Section StableMethods.
Context (R : relation World) `{!PreOrder R}.
Hypothesis R_all_covariates : stable R Rover.all_covariates.

Lemma stable_num_covariates : stable R Rover.num_covariates.
Proof. unfold Rover.num_covariates. stable_tac. Qed.

Lemma stable_snapshot (d : list (LearnerID * ref)) :
  stable R (Rover.snapshot d).
Proof. induction d as [|[lid r] d IH]; simpl; stable_tac. Qed.

Lemma stable_performances : stable R Rover.performances.
Proof.
  unfold Rover.performances. stable_tac. apply stable_snapshot.
Qed.

Lemma stable_learner_coefs_to_global_coefs (learner_id : LearnerID)
    (opt_coefs : list float) :
  stable R (Rover._learner_coefs_to_global_coefs learner_id opt_coefs).
Proof.
  unfold Rover._learner_coefs_to_global_coefs. stable_tac.
  apply stable_num_covariates.
Qed.

Lemma stable_coefficient_rows (learner_ids : list LearnerID) :
  stable R (Rover.coefficient_rows learner_ids).
Proof.
  induction learner_ids as [|lid ids IH]; simpl; stable_tac.
  apply stable_learner_coefs_to_global_coefs.
Qed.

Lemma stable_generate_coefficients_matrix :
  stable R Rover._generate_coefficients_matrix.
Proof.
  unfold Rover._generate_coefficients_matrix. stable_tac;
    auto using stable_snapshot, stable_num_covariates,
      stable_coefficient_rows.
Qed.

Lemma stable_performances_of (learner_ids : list LearnerID) :
  stable R (Rover.performances_of learner_ids).
Proof.
  induction learner_ids as [|lid ids IH]; simpl; stable_tac.
  apply stable_performances.
Qed.

Lemma stable_generate_ensemble_coefficients `{Collaborators}
    (max_num_models : Z) (kernel_param ratio_cutoff : float) :
  stable R (Rover._generate_ensemble_coefficients max_num_models kernel_param
                                                  ratio_cutoff).
Proof.
  unfold Rover._generate_ensemble_coefficients. stable_tac;
    auto using stable_generate_coefficients_matrix, stable_performances_of.
Qed.

Lemma stable_master_learner_id : stable R Rover.master_learner_id.
Proof.
  unfold Rover.master_learner_id. stable_tac. apply stable_num_covariates.
Qed.

End StableMethods.

(** X11. [_generate_ensemble_coefficients] only reads: whether it returns
    or raises, the configuration, the registry, the super learner, every
    learner object and the trace of fitter calls are as before; only the
    [_all_covariates] attribute may have been created. *)
Theorem generate_ensemble_coefficients_reads_only `{Collaborators}
    (max_num_models : Z) (kernel_param ratio_cutoff : float) (w : World) :
  same_but_cache w
    (Rover._generate_ensemble_coefficients max_num_models kernel_param
                                           ratio_cutoff w).2.
Proof.
  apply stable_generate_ensemble_coefficients; [tc_solve|].
  apply pure_all_covariates.
Qed.

Lemma setting_get_learner (learner_id : LearnerID) (use_cache : bool) :
  stable same_setting (Rover.get_learner learner_id use_cache).
Proof. unfold Rover.get_learner. stable_tac. Qed.

Lemma setting_call_fit `{Collaborators} (dataset : DataFrame)
    (learner_id : LearnerID) (r : ref) :
  stable same_setting (Rover.call_fit dataset learner_id r).
Proof. unfold Rover.call_fit. stable_tac. Qed.

Lemma setting_fit_layer `{Collaborators} (dataset : DataFrame)
    (layer : list (LearnerID * ref)) :
  stable same_setting (Rover._fit_layer dataset layer).
Proof.
  induction layer as [|[lid r] layer IH]; cbn [Rover._fit_layer];
    stable_tac; auto using setting_call_fit.
Qed.

Lemma setting_unfit_learners (curr_ids : list LearnerID) :
  stable same_setting (Rover.unfit_learners curr_ids).
Proof.
  induction curr_ids as [|lid ids IH]; simpl; stable_tac.
  apply setting_get_learner.
Qed.

Lemma setting_explore_loop `{Collaborators} (fuel : nat) (dataset : DataFrame)
    (s : RoverStrategy) (st : strategy_state s) (curr_ids : list LearnerID) :
  stable same_setting (Rover.explore_loop fuel dataset s st curr_ids).
Proof.
  revert st curr_ids. induction fuel as [|fuel IH]; intros st curr_ids;
    (destruct curr_ids as [|lid ids]; [apply stable_ret; tc_solve|]).
  { by intros w. }
  cbn [Rover.explore_loop]. stable_tac;
    auto using setting_unfit_learners, setting_fit_layer, stable_snapshot,
      setting_all_covariates with typeclass_instances.
Qed.

Lemma setting_explore `{Collaborators} (fuel : nat) (dataset : DataFrame)
    (strategy : string + RoverStrategy) :
  stable same_setting (Rover._explore fuel dataset strategy).
Proof.
  unfold Rover._explore. stable_tac;
    auto using setting_explore_loop, stable_num_covariates,
      setting_all_covariates with typeclass_instances.
Qed.

Lemma setting_create_super_learner `{Collaborators} (max_num_models : Z)
    (kernel_param ratio_cutoff : float) :
  stable same_setting (Rover._create_super_learner max_num_models kernel_param
                                                   ratio_cutoff).
Proof.
  unfold Rover._create_super_learner. stable_tac;
    auto using stable_generate_ensemble_coefficients,
      stable_master_learner_id, setting_get_learner,
      setting_all_covariates with typeclass_instances.
Qed.

(** * The coefficient matrix *)

Lemma snapshot_world (d : list (LearnerID * ref)) (w : World) :
  (Rover.snapshot d w).2 = w.
Proof.
  induction d as [|[lid r] d IH]; simpl; [done|].
  unfold bind, deref. destruct (heap w !! r); [|done].
  specialize IH. destruct (Rover.snapshot d w) as [[rest|e|h] w1]; simpl in *;
    by subst.
Qed.

Lemma coefficient_rows_shape (learner_ids : list LearnerID)
    (w w' : World) (rows : list (list float)) :
  cache_consistent w ->
  Rover.coefficient_rows learner_ids w = (Return rows, w') ->
  length rows = length learner_ids
  /\ Forall (fun row =>
               length row
               = (fixed_count (config w) + length (col_explore (config w)))%nat)
            rows.
Proof.
  revert w w' rows.
  induction learner_ids as [|lid ids IH]; intros w w' rows Hc; simpl.
  { by intros [= <- <-]. }
  unfold bind at 1, get_world.
  destruct (Py.dict_get (learners w) lid) as [r|]; [|done].
  unfold bind at 1, deref. destruct (heap w !! r) as [l|]; [|done].
  destruct (Learner.opt_coefs l) as [opt_coefs|]; [|done].
  unfold bind at 1.
  destruct (Rover._learner_coefs_to_global_coefs lid opt_coefs w)
    as [[row|e|h] w1] eqn:Hrow; [|done|done].
  pose proof (setting_learner := stable_learner_coefs_to_global_coefs
                 same_setting setting_all_covariates lid opt_coefs w).
  rewrite Hrow in setting_learner. destruct setting_learner as (Hcfg & _ & Hc1).
  simpl in Hcfg, Hc1.
  apply learner_coefs_returns_length in Hrow as Hlen; [|done].
  unfold bind at 1.
  destruct (Rover.coefficient_rows ids w1) as [[rest|e|h] w2] eqn:Hrest;
    [|done|done].
  intros [= <- <-].
  destruct (IH _ _ _ (Hc1 Hc) Hrest) as [Hl Hall]. rewrite Hcfg in Hall.
  split; [simpl; by rewrite Hl|]. by apply Forall_cons.
Qed.

(** What a returning [_generate_coefficients_matrix] returns. *)
Lemma generate_coefficients_matrix_returns (w w' : World)
    (learner_ids : list LearnerID) (m : Rover.Matrix) :
  cache_consistent w ->
  Rover._generate_coefficients_matrix w = (Return (learner_ids, m), w') ->
  (exists registry,
      Rover.snapshot (learners w) w = (Return registry, w)
      /\ learner_ids
         = (filter (fun kv => Rover.ensemble_candidate kv.2 = true)
                   registry).*1)
  /\ Rover.y_dim m
     = (fixed_count (config w) + length (col_explore (config w)))%nat
  /\ length (Rover.rows m) = length learner_ids
  /\ Forall (fun row => length row = Rover.y_dim m) (Rover.rows m).
Proof.
  intros Hc. unfold Rover._generate_coefficients_matrix, bind at 1, get_world.
  unfold bind at 1.
  pose proof (snapshot_world (learners w) w) as Hsnap.
  destruct (Rover.snapshot (learners w) w) as [[registry|e|h] w0] eqn:Hreg;
    [|done|done].
  simpl in Hsnap. subst w0.
  unfold bind at 1. rewrite num_covariates_consistent by done.
  unfold bind at 1.
  destruct (Rover.coefficient_rows _ _) as [[rows|e|h] w1] eqn:Hrows;
    [|done|done].
  intros [= <- <- <-]. simpl.
  apply coefficient_rows_shape in Hrows as [Hl Hall].
  2:{ intros covs. simpl. by intros [= <-]. }
  simpl in Hall.
  split_and!; [|done|done|done].
  exists registry. split; [done|].
  unfold Rover.select_learners. by rewrite select_learners_foldl.
Qed.

(** X12. When [_generate_coefficients_matrix] returns, the ids are those
    of the learners of the registry that pass the test, in the order of
    the registry; the matrix has one row per id; and every row has
    [num_covariates] entries, the fixed count plus the size of the explore
    pool.  Nothing but the [_all_covariates] attribute has changed. *)
Theorem generate_coefficients_matrix_shape (w w' : World)
    (learner_ids : list LearnerID) (m : Rover.Matrix) :
  cache_consistent w ->
  Rover._generate_coefficients_matrix w = (Return (learner_ids, m), w') ->
  (exists registry,
      Rover.snapshot (learners w) w = (Return registry, w)
      /\ learner_ids
         = (filter (fun kv => Rover.ensemble_candidate kv.2 = true)
                   registry).*1)
  /\ Rover.y_dim m
     = (fixed_count (config w) + length (col_explore (config w)))%nat
  /\ length (Rover.rows m) = length learner_ids
  /\ Forall (fun row => length row = Rover.y_dim m) (Rover.rows m)
  /\ same_but_cache w w'.
Proof.
  intros Hc Hrun.
  pose proof (stable_generate_coefficients_matrix same_but_cache
                pure_all_covariates w) as Hsame.
  rewrite Hrun in Hsame.
  destruct (generate_coefficients_matrix_returns _ _ _ _ Hc Hrun)
    as (Hids & Hy & Hl & Hall).
  by split_and!.
Qed.

(** The registry of two learners of which the first passes the test. *)
Lemma generate_coefficients_matrix_shape_witness :
  length (Rover.rows {| Rover.y_dim := 2; Rover.rows := [[0.5%float; 0%float]] |})
  = length [[0]]
  /\ Forall (fun row => length row = 2%nat) [[0.5%float; 0%float]].
Proof.
  destruct (generate_coefficients_matrix_shape Double.scored_world
              (Rover._generate_coefficients_matrix Double.scored_world).2
              [[0]]
              {| Rover.y_dim := 2; Rover.rows := [[0.5%float; 0%float]] |})
    as (_ & _ & Hl & Hall & _).
  - intros covs Hcovs. discriminate Hcovs.
  - reflexivity.
  - split; [exact Hl | exact Hall].
Defined.

(** X13. When [_generate_ensemble_coefficients] returns, the vector of
    ensemble coefficients has [num_covariates] entries: the fixed count
    plus the size of the explore pool, whatever the number of learners
    that entered the ensemble. *)
Theorem generate_ensemble_coefficients_length `{Collaborators}
    (max_num_models : Z) (kernel_param ratio_cutoff : float)
    (w w' : World) (means : list float) :
  cache_consistent w ->
  Rover._generate_ensemble_coefficients max_num_models kernel_param
                                        ratio_cutoff w
  = (Return means, w') ->
  length means
  = (fixed_count (config w) + length (col_explore (config w)))%nat.
Proof.
  intros Hc. unfold Rover._generate_ensemble_coefficients.
  destruct (_ || _); [done|].
  unfold bind at 1.
  destruct (Rover._generate_coefficients_matrix w) as [[[ids m]|e|h] w1]
    eqn:Hm; [|done|done].
  apply generate_coefficients_matrix_returns in Hm as (_ & Hy & _); [|done].
  unfold bind at 1.
  destruct (Rover.performances_of _ w1) as [[perfs|e|h] w2]; [|done|done].
  unfold bind at 1. simpl.
  destruct (metrics_to_weights _ _ _ _) as [e|ws]; [done|]. simpl.
  unfold Np.dot_T. destruct (decide _); [|done]. simpl.
  intros [= <- <-]. by rewrite length_fmap, length_seq.
Qed.

Lemma generate_ensemble_coefficients_length_witness :
  length [0.5%float; 0%float] = (0 + 2)%nat.
Proof.
  exact (generate_ensemble_coefficients_length (H := Double.collaborators)
           10 10 0.5 Double.scored_world
           (Rover._generate_ensemble_coefficients (H := Double.collaborators)
              10 10 0.5 Double.scored_world).2
           [0.5%float; 0%float]
           ltac:(intros covs Hcovs; discriminate Hcovs) eq_refl).
Defined.

(** * A performance that is not a number *)

Lemma SFeqb_self_false (s : SpecFloat.spec_float) :
  SpecFloat.SFeqb s s = false -> s = SpecFloat.S754_nan.
Proof.
  destruct s as [b|b| |b m e]; try done; unfold SpecFloat.SFeqb; simpl.
  - by destruct b.
  - destruct b; rewrite Z.compare_refl, Pos.compare_cont_refl; done.
Qed.

(** [bool(x)] is true for a NaN. *)
Lemma float_truth_nan (p : float) :
  PrimFloat.is_nan p = true -> Py.float_truth p = true.
Proof.
  unfold PrimFloat.is_nan, Py.float_truth.
  intros Hp%negb_true_iff. rewrite FloatAxioms.eqb_spec in Hp.
  apply SFeqb_self_false in Hp.
  rewrite FloatAxioms.eqb_spec, Hp. reflexivity.
Qed.

Lemma snapshot_returned (d : list (LearnerID * ref)) (w w' : World)
    (registry : list (LearnerID * Learner.t)) :
  Rover.snapshot d w = (Return registry, w') ->
  Forall2 (fun kv kl => kl.1 = kv.1 /\ heap w !! kv.2 = Some kl.2) d registry.
Proof.
  revert registry. induction d as [|[lid r] d IH]; intros registry; simpl.
  { by intros [= <- <-]. }
  unfold bind, deref. destruct (heap w !! r) as [l|] eqn:Hl; [|done].
  pose proof (snapshot_world d w) as Hw.
  destruct (Rover.snapshot d w) as [[rest|e|h] w1] eqn:Hrest; [|done|done].
  simpl in Hw. subst w1. intros [= <- <-].
  apply Forall2_cons. split; [by split|by apply IH].
Qed.

(** X14. A learner of the registry whose performance is a NaN and whose
    coefficients are not [None] passes the test of
    [_generate_coefficients_matrix], a NaN being true in Python: when the
    method returns, the id of the learner is among the ids it returns. *)
Theorem nan_performance_learner_is_selected (w w' : World)
    (learner_ids : list LearnerID) (m : Rover.Matrix)
    (learner_id : LearnerID) (r : ref) (l : Learner.t) (p : float) :
  cache_consistent w ->
  Rover._generate_coefficients_matrix w = (Return (learner_ids, m), w') ->
  (learner_id, r) ∈ learners w ->
  heap w !! r = Some l ->
  Learner.performance l = Some p ->
  PrimFloat.is_nan p = true ->
  is_Some (Learner.opt_coefs l) ->
  learner_id ∈ learner_ids.
Proof.
  intros Hc Hrun Hin Hl Hp Hnan [coefs Hcoefs].
  destruct (generate_coefficients_matrix_returns _ _ _ _ Hc Hrun)
    as ((registry & Hs & ->) & _).
  apply snapshot_returned in Hs.
  apply list_elem_of_lookup in Hin as [i Hi].
  destruct (Forall2_lookup_l _ _ _ _ _ Hs Hi) as ([lid' l'] & Hi' & Hk & Hl').
  simpl in Hk, Hl'. subst lid'. rewrite Hl in Hl'. injection Hl' as <-.
  apply list_elem_of_fmap. exists (learner_id, l). split; [done|].
  apply list_elem_of_filter. split; [|by eapply list_elem_of_lookup_2].
  simpl. apply ensemble_candidate_iff. exists p, coefs.
  split_and!; [done| |done]. by apply float_truth_nan.
Qed.

Lemma nan_performance_learner_is_selected_witness :
  let l := Double.fitted
             (Learner.init "gaussian" "obs"
                [("mu", [("variables", Variables ["d"])])]
                ["c"; "d"] "offset" "weights" "get_rmse")
             PrimFloat.nan [0.5%float] in
  let w := {| config := Double.plain_config;
              learners := [([1], 0%nat)];
              super_learner := None;
              _all_covariates := None;
              heap := [l];
              trace := [FitCall [1] 0%nat true] |} in
  (Rover._generate_coefficients_matrix w).1
  = Return ([[1]], {| Rover.y_dim := 2;
                      Rover.rows := [[0%float; 0.5%float]] |})
  /\ [1] ∈ [[1]].
Proof.
  intros l w. split; [reflexivity|].
  apply (nan_performance_learner_is_selected w
           (Rover._generate_coefficients_matrix w).2 [[1]]
           {| Rover.y_dim := 2; Rover.rows := [[0%float; 0.5%float]] |}
           [1] 0%nat l PrimFloat.nan).
  - intros covs Hcovs. discriminate Hcovs.
  - reflexivity.
  - apply list_elem_of_here.
  - reflexivity.
  - reflexivity.
  - reflexivity.
  - by eexists.
Defined.

(** * A layer *)

(** X15. When [_fit_layer] returns, [Learner.fit] has been called once
    for every pair of the layer, in the order of the layer, whether or not
    the learner had been fit before, and every call returned; the registry
    is the old one updated with the pairs of the layer in that order; and
    no object has been created. *)
Theorem fit_layer_returns `{Collaborators} (dataset : DataFrame)
    (layer : list (LearnerID * ref)) (w w' : World) :
  Rover._fit_layer dataset layer w = (Return tt, w') ->
  trace w' = trace w ++ ((fun kv => FitCall kv.1 kv.2 true) <$> layer)
  /\ learners w' = Py.dict_update (learners w) layer
  /\ length (heap w') = length (heap w).
Proof.
  revert w. induction layer as [|[lid r] layer IH]; intros w.
  { simpl. intros [= <-]. by rewrite app_nil_r. }
  cbn [Rover._fit_layer]. unfold bind. rewrite call_fit_unfold.
  destruct (heap w !! r) as [l|]; [|done].
  destruct (Learner_fit l dataset (holdout_cols (config w))) as [[e|] l'];
    [done|].
  simpl. intros (Ht & Hl & Hh)%IH. simpl in Ht, Hl, Hh.
  rewrite Ht, Hl, Hh, length_insert, <- app_assoc. done.
Qed.

(** A layer of two learners of which the first has been fit before. *)
Lemma fit_layer_returns_witness :
  let w := Double.scored_world in
  let w' := (Rover._fit_layer (H := Double.collaborators) tt
               [([1], 0%nat); ([0; 1], 1%nat)] w).2 in
  trace w' = trace w ++ [FitCall [1] 0%nat true; FitCall [0; 1] 1%nat true]
  /\ learners w' = [([0], 0%nat); ([1], 0%nat); ([0; 1], 1%nat)]
  /\ length (heap w') = 2%nat.
Proof.
  exact (fit_layer_returns (H := Double.collaborators) tt
           [([1], 0%nat); ([0; 1], 1%nat)] Double.scored_world
           (Rover._fit_layer (H := Double.collaborators) tt
              [([1], 0%nat); ([0; 1], 1%nat)] Double.scored_world).2
           eq_refl).
Defined.

(** * The super learner *)

(** What a returning [_create_super_learner] returns and leaves. *)
Lemma create_super_learner_returns_facts `{Collaborators}
    (max_num_models : Z) (kernel_param ratio_cutoff : float)
    (w w' : World) (obj : ref) :
  Rover._create_super_learner max_num_models kernel_param ratio_cutoff w
  = (Return obj, w') ->
  obj = length (heap w)
  /\ learners w' = learners w
  /\ trace w' = trace w
  /\ super_learner w' = super_learner w
  /\ exists l means,
       heap w' = heap w ++ [l]
       /\ (Rover._generate_ensemble_coefficients max_num_models kernel_param
                                                 ratio_cutoff w).1
          = Return means
       /\ Learner.opt_coefs l = Some means
       /\ Learner.has_been_fit l = false
       /\ Learner.performance l = None.
Proof.
  unfold Rover._create_super_learner. unfold bind at 1.
  pose proof (stable_generate_ensemble_coefficients same_but_cache
                pure_all_covariates max_num_models kernel_param ratio_cutoff w)
    as (_ & Hl1 & Hs1 & Hh1 & Ht1).
  destruct (Rover._generate_ensemble_coefficients _ _ _ w)
    as [[means|e|h] w1]; [|done|done].
  simpl in Hl1, Hs1, Hh1, Ht1.
  unfold bind at 1.
  pose proof (stable_master_learner_id same_but_cache pure_all_covariates w1)
    as (_ & Hl2 & Hs2 & Hh2 & Ht2).
  destruct (Rover.master_learner_id w1) as [[master|e|h] w2]; [|done|done].
  simpl in Hl2, Hs2, Hh2, Ht2.
  unfold bind at 1. rewrite get_learner_uncached_unfold.
  destruct (Py.index_all _ _); [done|].
  destruct (Rover.default_param_specs _); [done|].
  destruct (Rover.spec_variables _ _); [|done].
  cbv zeta. unfold bind, deref, store, modify, ret. simpl.
  rewrite list_lookup_middle by done.
  intros [= <- <-]. simpl.
  rewrite insert_app_r_alt, Nat.sub_diag by done. simpl.
  rewrite Hl2, Hl1, Ht2, Ht1, Hs2, Hs1, Hh2, Hh1.
  split_and!; [done..|].
  eexists _, means. by split_and!.
Qed.

(** X16. The learner [_create_super_learner] returns is a new object: the
    learners that existed, those of the registry among them, are as they
    were, also when the registry holds the id the super learner is built
    for.  The new learner carries the ensemble coefficients, is not marked
    as fit and has no performance; the registry and the trace of fitter
    calls are unchanged. *)
Theorem create_super_learner_returns `{Collaborators}
    (max_num_models : Z) (kernel_param ratio_cutoff : float)
    (w w' : World) (obj : ref) :
  Rover._create_super_learner max_num_models kernel_param ratio_cutoff w
  = (Return obj, w') ->
  heap w !! obj = None
  /\ (forall r l0, heap w !! r = Some l0 -> heap w' !! r = Some l0)
  /\ learners w' = learners w
  /\ trace w' = trace w
  /\ super_learner w' = super_learner w
  /\ exists l means,
       heap w' !! obj = Some l
       /\ (Rover._generate_ensemble_coefficients max_num_models kernel_param
                                                 ratio_cutoff w).1
          = Return means
       /\ Learner.opt_coefs l = Some means
       /\ Learner.has_been_fit l = false
       /\ Learner.performance l = None.
Proof.
  intros (-> & Hl & Ht & Hs & l & means & Hh & Hm & Hc & Hf & Hp)
    %create_super_learner_returns_facts.
  split_and!; [by apply lookup_ge_None_2| |done..|].
  - intros r l0 Hr. rewrite Hh. by apply lookup_app_l_Some.
  - exists l, means. split_and!; [|done..].
    rewrite Hh. by apply list_lookup_middle.
Qed.

(** Two explore covariates, both explored as the learners [(0,)] and
    [(0, 1)]: the super learner has the id [(0, 1)] and is a third
    object. *)
Lemma create_super_learner_returns_witness :
  let w := (Rover._explore (H := Double.collaborators) 5 tt
              (inr (Double.playback [0] [[[0; 1]]]))
              (Rover.init Double.plain_config [])).2 in
  let w' := (Rover._create_super_learner (H := Double.collaborators)
               10 10 0.5 w).2 in
  learners w = [([0], 0%nat); ([0; 1], 1%nat)]
  /\ heap w !! 2%nat = None
  /\ (forall r l0, heap w !! r = Some l0 -> heap w' !! r = Some l0)
  /\ learners w' = learners w
  /\ exists l means,
       heap w' !! 2%nat = Some l /\ Learner.opt_coefs l = Some means.
Proof.
  intros w w'.
  destruct (create_super_learner_returns (H := Double.collaborators)
              10 10 0.5 w w' 2%nat eq_refl)
    as (Hnew & Hold & Hl & _ & _ & l & means & Hh & _ & Hc & _).
  split_and!; [reflexivity|exact Hnew|exact Hold|exact Hl|].
  exists l, means. split; [exact Hh|exact Hc].
Defined.

(** * The outcome of [fit] *)

(** Unless [fit] returns, the super learner is the one from before. *)
Lemma fit_not_returned `{Collaborators} (fuel : nat) (dataset : DataFrame)
    (strategy : string + RoverStrategy) (max_num_models : Z)
    (kernel_param ratio_cutoff : float) (w : World) :
  (Rover.fit fuel dataset strategy max_num_models kernel_param ratio_cutoff
             w).1 <> Return tt ->
  same_setting w
    (Rover.fit fuel dataset strategy max_num_models kernel_param ratio_cutoff
               w).2.
Proof.
  rewrite fit_unfold.
  pose proof (setting_explore fuel dataset strategy w) as Hex.
  destruct (Rover._explore fuel dataset strategy w) as [[[]|e|h] w1];
    [|done..].
  pose proof (setting_create_super_learner max_num_models kernel_param
                ratio_cutoff w1) as Hcr.
  destruct (Rover._create_super_learner _ _ _ w1) as [[obj|e|h] w2];
    simpl in *; [done| |]; intros _; by etrans.
Qed.

(** X17. A [fit] that does not return, because a fitter, the strategy or
    the ensemble step raised, leaves the super learner of the [Rover] as
    it was before the call, and the configuration too: a [Rover] that was
    fitted before still predicts with its old ensemble. *)
Theorem failed_fit_keeps_super_learner `{Collaborators} (fuel : nat)
    (dataset : DataFrame) (strategy : string + RoverStrategy)
    (max_num_models : Z) (kernel_param ratio_cutoff : float) (w : World) :
  let res := Rover.fit fuel dataset strategy max_num_models kernel_param
                       ratio_cutoff w in
  res.1 <> Return tt ->
  super_learner res.2 = super_learner w /\ config res.2 = config w.
Proof.
  intros res Hres. by destruct (fit_not_returned _ _ _ _ _ _ _ Hres) as (? & ? & _).
Qed.

(** A second [fit], with a ratio cutoff that is refused, on a [Rover]
    whose first [fit] returned. *)
Lemma failed_fit_keeps_super_learner_witness :
  let w := (Rover.fit (H := Double.collaborators) 5 tt
              (inr (Double.playback [0] [])) 10 10 0.5
              (Rover.init Double.plain_config [])).2 in
  let res := Rover.fit (H := Double.collaborators) 5 tt
               (inr (Double.playback [0] [[[1]]])) 10 10 1.5 w in
  super_learner w = Some 1%nat
  /\ res.1 = Raise Rover.invalid_configuration
  /\ super_learner res.2 = super_learner w /\ config res.2 = config w.
Proof.
  intros w res. split; [reflexivity|]. split; [reflexivity|].
  apply (failed_fit_keeps_super_learner (H := Double.collaborators) 5 tt
           (inr (Double.playback [0] [[[1]]])) 10 10 1.5 w).
  vm_compute. intros Hres. discriminate Hres.
Defined.

Lemma create_super_learner_fixed `{Collaborators} (max_num_models : Z)
    (kernel_param ratio_cutoff : float) (w : World) (obj : ref) :
  cache_consistent w -> (0 < fixed_count (config w))%nat ->
  (Rover._create_super_learner max_num_models kernel_param ratio_cutoff w).1
  <> Return obj.
Proof.
  intros Hc Hfixed. unfold Rover._create_super_learner. unfold bind at 1.
  pose proof (stable_generate_ensemble_coefficients same_setting
                setting_all_covariates max_num_models kernel_param
                ratio_cutoff w) as (Hcfg & _ & Hc1).
  destruct (Rover._generate_ensemble_coefficients _ _ _ w)
    as [[means|e|h] w1]; [|done|done].
  simpl in Hcfg, Hc1.
  destruct (master_learner_id_out_of_range w1) as (w2 & Hid & _ & Hget);
    [by apply Hc1|by rewrite Hcfg|].
  unfold bind at 1. rewrite Hid. unfold bind at 1. by rewrite Hget.
Qed.

(** X18. With at least one fixed covariate, [fit] never returns, whatever
    the data, the strategy and the ensemble parameters: if nothing raises
    before, building the super learner raises.  The super learner of the
    [Rover] stays what it was. *)
Theorem fit_with_fixed_covariates_never_returns `{Collaborators} (fuel : nat)
    (dataset : DataFrame) (strategy : string + RoverStrategy)
    (max_num_models : Z) (kernel_param ratio_cutoff : float) (w : World) :
  cache_consistent w -> (0 < fixed_count (config w))%nat ->
  let res := Rover.fit fuel dataset strategy max_num_models kernel_param
                       ratio_cutoff w in
  res.1 <> Return tt /\ super_learner res.2 = super_learner w.
Proof.
  intros Hc Hfixed res.
  assert (res.1 <> Return tt) as Hres.
  { unfold res. rewrite fit_unfold.
    pose proof (setting_explore fuel dataset strategy w) as (Hcfg & _ & Hc1).
    destruct (Rover._explore fuel dataset strategy w) as [[[]|e|h] w1];
      [|done..].
    simpl in Hcfg, Hc1.
    pose proof (create_super_learner_fixed max_num_models kernel_param
                  ratio_cutoff w1) as Hcr.
    destruct (Rover._create_super_learner _ _ _ w1) as [[obj|e|h] w2];
      [|done..].
    destruct (Hcr obj); [by apply Hc1|by rewrite Hcfg|done]. }
  split; [done|].
  by destruct (fit_not_returned _ _ _ _ _ _ _ Hres) as (_ & ? & _).
Qed.

(** The docstring's setting, [a] and [b] fixed. *)
Lemma fit_with_fixed_covariates_never_returns_witness :
  let res := Rover.fit (H := Double.collaborators) 5 tt
               (inr (Double.playback [0] [[[1]; [2]]])) 10 10 0.5
               (Rover.init Double.docstring_config []) in
  res.1 <> Return tt /\ super_learner res.2 = None.
Proof.
  apply (fit_with_fixed_covariates_never_returns (H := Double.collaborators)
           5 tt (inr (Double.playback [0] [[[1]; [2]]])) 10 10 0.5
           (Rover.init Double.docstring_config [])).
  - intros covs Hcovs. discriminate Hcovs.
  - vm_compute. lia.
Defined.

(** [predict] on a [Rover] that has a super learner. *)
Lemma predict_fitted `{Collaborators} (dataset : DataFrame) (w : World)
    (obj : ref) (l : Learner.t) :
  super_learner w = Some obj -> heap w !! obj = Some l ->
  Rover.check_is_fitted w = (Return tt, w)
  /\ Rover.predict dataset w
     = (match Learner_predict l dataset with
        | inl e => Raise e
        | inr ys => Return ys
        end,
        set_trace (trace w ++ [PredictCall obj]) w).
Proof.
  intros Hs Hl.
  unfold Rover.predict, Rover.check_is_fitted, bind, get_world, deref.
  rewrite Hs. simpl. rewrite Hs, Hl. simpl.
  by destruct (Learner_predict l dataset).
Qed.

(** X19. After a [fit] that returned, the [Rover] has a super learner,
    [check_is_fitted] returns, and [predict] is one call of
    [Learner.predict] on the super learner, which carries coefficients:
    its result or its exception is that of [predict], and the registry is
    not touched. *)
Theorem predict_after_fit `{Collaborators} (fuel : nat)
    (dataset dataset' : DataFrame) (strategy : string + RoverStrategy)
    (max_num_models : Z) (kernel_param ratio_cutoff : float)
    (w w' : World) :
  Rover.fit fuel dataset strategy max_num_models kernel_param ratio_cutoff w
  = (Return tt, w') ->
  exists obj l means,
    super_learner w' = Some obj
    /\ heap w' !! obj = Some l
    /\ Learner.opt_coefs l = Some means
    /\ Rover.check_is_fitted w' = (Return tt, w')
    /\ Rover.predict dataset' w'
       = (match Learner_predict l dataset' with
          | inl e => Raise e
          | inr ys => Return ys
          end,
          set_trace (trace w' ++ [PredictCall obj]) w').
Proof.
  rewrite fit_unfold.
  destruct (Rover._explore fuel dataset strategy w) as [[[]|e|h] w1];
    [|done..].
  destruct (Rover._create_super_learner _ _ _ w1) as [[obj|e|h] w2] eqn:Hcr;
    [|done..].
  intros [= <-].
  apply create_super_learner_returns_facts in Hcr
    as (-> & _ & _ & _ & l & means & Hh & _ & Hc & _).
  assert (heap (set_super_learner (Some (length (heap w1))) w2)
            !! length (heap w1) = Some l) as Hl.
  { simpl. rewrite Hh. by apply list_lookup_middle. }
  exists (length (heap w1)), l, means.
  destruct (predict_fitted dataset'
              (set_super_learner (Some (length (heap w1))) w2)
              (length (heap w1)) l eq_refl Hl) as [Hchk Hp].
  by split_and!.
Qed.

(** Two explore covariates, no fixed one. *)
Lemma predict_after_fit_witness :
  let w' := (Rover.fit (H := Double.collaborators) 5 tt
               (inr (Double.playback [0] [[[0; 1]]])) 10 10 0.5
               (Rover.init Double.plain_config [])).2 in
  exists obj l means,
    super_learner w' = Some obj
    /\ heap w' !! obj = Some l
    /\ Learner.opt_coefs l = Some means
    /\ Rover.check_is_fitted w' = (Return tt, w')
    /\ Rover.predict (H := Double.collaborators) tt w'
       = (Return means, set_trace (trace w' ++ [PredictCall obj]) w').
Proof.
  intros w'.
  destruct (predict_after_fit (H := Double.collaborators) 5 tt tt
              (inr (Double.playback [0] [[[0; 1]]])) 10 10 0.5
              (Rover.init Double.plain_config []) w' eq_refl)
    as (obj & l & means & Hs & Hl & Hc & Hchk & Hp).
  exists obj, l, means. split_and!; [done..|].
  rewrite Hp. simpl. by rewrite Hc.
Defined.

(** * The performances *)

Lemma snapshot_returns (d : list (LearnerID * ref)) (w : World) :
  (forall learner_id r, (learner_id, r) ∈ d -> is_Some (heap w !! r)) ->
  exists registry,
    Rover.snapshot d w = (Return registry, w)
    /\ Forall2 (fun kv kl => kl.1 = kv.1 /\ heap w !! kv.2 = Some kl.2)
               d registry.
Proof.
  induction d as [|[lid r] d IH]; intros Hvalid.
  { exists []. by split. }
  destruct (Hvalid lid r) as [l Hl]; [apply list_elem_of_here|].
  destruct IH as (rest & Hrest & Hall).
  { intros lid' r' Hin. eapply Hvalid. by apply list_elem_of_further. }
  exists ((lid, l) :: rest). split.
  - simpl. unfold bind, deref. by rewrite Hl, Hrest.
  - by apply Forall2_cons.
Qed.

(** X20. On a [Rover] whose registry refers to learners that exist, the
    property [performances] returns one entry per entry of the registry,
    in the order of the registry: the id with the performance of its
    learner, [None] included.  Nothing is changed. *)
Theorem performances_entries (w : World) :
  (forall learner_id r,
      (learner_id, r) ∈ learners w -> is_Some (heap w !! r)) ->
  exists perfs,
    Rover.performances w = (Return perfs, w)
    /\ Forall2 (fun kv p =>
                  p.1 = kv.1
                  /\ exists l, heap w !! kv.2 = Some l
                               /\ p.2 = Learner.performance l)
               (learners w) perfs.
Proof.
  intros Hvalid.
  destruct (snapshot_returns (learners w) w Hvalid) as (registry & Hs & Hall).
  eexists. split.
  - unfold Rover.performances, bind, get_world. by rewrite Hs.
  - apply Forall2_fmap_r. eapply Forall2_impl; [exact Hall|].
    intros [lid r] [lid' l] [Hk Hl]. simpl in *. split; [done|]. by exists l.
Qed.

Lemma performances_entries_witness :
  exists perfs,
    Rover.performances Double.scored_world = (Return perfs, Double.scored_world)
    /\ perfs = [([0], Some 1%float); ([1], Some 0%float)].
Proof.
  destruct (performances_entries Double.scored_world) as (perfs & Hp & _).
  - intros lid r Hin. simpl in Hin.
    apply elem_of_cons in Hin as [[= -> ->]|Hin]; [by eexists|].
    apply list_elem_of_singleton in Hin as [= -> ->]. by eexists.
  - exists perfs. split; [exact Hp|].
    vm_compute in Hp. by injection Hp as <-.
Defined.

(** * The strategy of a run *)

(** X21. A strategy given by its name is looked up, then built for
    [num_covariates] covariates, the fixed ones counted with the explore
    pool, and the exploration runs as with that strategy object.  An
    exception of the lookup or of the constructor leaves [_explore] before
    any learner is built or fitted. *)
Theorem explore_named_strategy `{Collaborators} (fuel : nat)
    (dataset : DataFrame) (name : string) (w : World) :
  cache_consistent w ->
  Rover._explore fuel dataset (inl name) w
  = match get_strategy name with
    | inl e => (Raise e, w)
    | inr strategy_class =>
        let w1 :=
          set_all_covariates (Some (Rover.unpack_covariates (config w))) w in
        match strategy_class (fixed_count (config w)
                              + length (col_explore (config w)))%nat with
        | inl e => (Raise e, w1)
        | inr s => Rover._explore fuel dataset (inr s) w1
        end
    end.
Proof.
  intros Hc. unfold Rover._explore, bind at 1, bind at 1.
  destruct (get_strategy name) as [e|strategy_class]; [done|].
  simpl. unfold bind at 1. rewrite num_covariates_consistent by done.
  simpl. by destruct (strategy_class _).
Qed.

(** The strategy ["full"] on one fixed and two explore covariates starts
    at the learner [(0, 1, 2)], which [get_learner] cannot build. *)
Lemma explore_named_strategy_witness :
  let w := Rover.init (Double.config_of [("mu", ["a"])] ["b"; "c"]) [] in
  Rover._explore (H := Double.named_collaborators) 5 tt (inl "full") w
  = Rover._explore (H := Double.named_collaborators) 5 tt
      (inr (Double.playback [0; 1; 2] []))
      (set_all_covariates (Some ["a"; "b"; "c"]) w)
  /\ (Rover._explore (H := Double.named_collaborators) 5 tt (inl "full") w).1
     = Raise IndexError.
Proof.
  intros w. split; [|reflexivity].
  apply (explore_named_strategy (H := Double.named_collaborators) 5 tt
           "full" w).
  intros covs Hcovs. discriminate Hcovs.
Defined.

(** X22. When the exploration returns, every entry of the registry refers
    to a learner that exists and is marked as fit, and no id occurs twice
    among its keys.  The fitter is assumed to mark what it fits. *)
Theorem explored_registry_is_fitted `{Collaborators} (fuel : nat)
    (dataset : DataFrame) (strategy : string + RoverStrategy)
    (w w' : World) :
  fit_marks_fitted -> run_inv w ->
  Rover._explore fuel dataset strategy w = (Return tt, w') ->
  NoDup (learners w').*1
  /\ (forall learner_id r, (learner_id, r) ∈ learners w' ->
        exists l, heap w' !! r = Some l /\ Learner.has_been_fit l = true).
Proof.
  intros Hmarks Hinv Hrun.
  destruct (explore_post fuel dataset strategy w Hmarks Hinv) as [_ Hpost].
  rewrite Hrun in Hpost. unfold run_post in Hpost. simpl in Hpost.
  split.
  - rewrite (run_inv_keys _ Hpost). by destruct Hpost.
  - by destruct Hpost.
Qed.

Lemma explored_registry_is_fitted_witness :
  let w' := (Rover._explore (H := Double.collaborators) 5 tt
               (inr (Double.playback [0] [[[0]; [1]]; [[1]; [0]; [1]]]))
               (Rover.init Double.plain_config [])).2 in
  NoDup (learners w').*1
  /\ (forall learner_id r, (learner_id, r) ∈ learners w' ->
        exists l, heap w' !! r = Some l /\ Learner.has_been_fit l = true).
Proof.
  exact (explored_registry_is_fitted (H := Double.collaborators) 5 tt
           (inr (Double.playback [0] [[[0]; [1]]; [[1]; [0]; [1]]]))
           (Rover.init Double.plain_config []) _
           double_fit_marks_fitted (run_inv_init _ _) eq_refl).
Defined.

(** * The cache between calls *)

(** X23. [get_learner] does not remember what it builds: asked twice for
    an id that is not in the registry, it returns two different objects,
    both unfit, and the registry still has no entry for the id.  Only
    [_fit_layer] fills the cache. *)
Theorem get_learner_builds_anew (learner_id : LearnerID) (w w1 : World)
    (r : ref) :
  learner_id ∉ (learners w).*1 ->
  Rover.get_learner learner_id true w = (Return r, w1) ->
  exists w2 l,
    Rover.get_learner learner_id true w1 = (Return (S r), w2)
    /\ heap w2 !! r = Some l
    /\ heap w2 !! S r = Some l
    /\ Learner.has_been_fit l = false
    /\ learner_id ∉ (learners w2).*1.
Proof.
  intros Hmiss. rewrite (get_learner_cached_miss _ _ Hmiss).
  rewrite get_learner_uncached_unfold.
  destruct (Py.index_all _ _) as [e|cols] eqn:Hcols; [done|].
  destruct (Rover.default_param_specs _) as [e|ps] eqn:Hps; [done|].
  destruct (Rover.spec_variables _ _) as [vars|] eqn:Hvars; [|done].
  cbv zeta. intros [= <- <-].
  rewrite get_learner_cached_miss by done.
  rewrite get_learner_uncached_unfold. simpl.
  rewrite Hcols, Hps, Hvars. simpl.
  eexists _, _.
  split; [rewrite length_app; simpl; rewrite Nat.add_1_r; reflexivity|].
  simpl. split.
  { rewrite <- app_assoc. by apply list_lookup_middle. }
  split.
  { apply list_lookup_middle. rewrite length_app. simpl. lia. }
  by split.
Qed.

Lemma get_learner_builds_anew_witness :
  let w := Rover.init Double.plain_config [] in
  exists w2 l,
    Rover.get_learner [1] true (Rover.get_learner [1] true w).2
    = (Return 1%nat, w2)
    /\ heap w2 = [l; l]
    /\ learners w2 = [].
Proof.
  intros w.
  destruct (get_learner_builds_anew [1] w (Rover.get_learner [1] true w).2
              0%nat)
    as (w2 & l & Hrun & Hl0 & Hl1 & _).
  - simpl. apply not_elem_of_nil.
  - reflexivity.
  - exists w2, l. split; [exact Hrun|].
    vm_compute in Hrun. injection Hrun as <-.
    vm_compute in Hl0. injection Hl0 as <-. by split.
Defined.

(** A [fit] that returned leaves the [Rover] between two layers. *)
Lemma fit_returns_run_inv `{Collaborators} (fuel : nat) (dataset : DataFrame)
    (strategy : string + RoverStrategy) (max_num_models : Z)
    (kernel_param ratio_cutoff : float) (w w' : World) :
  fit_marks_fitted -> run_inv w ->
  Rover.fit fuel dataset strategy max_num_models kernel_param ratio_cutoff w
  = (Return tt, w') ->
  run_inv w'.
Proof.
  intros Hmarks Hinv. rewrite fit_unfold.
  destruct (explore_post fuel dataset strategy w Hmarks Hinv) as [_ Hpost].
  destruct (Rover._explore fuel dataset strategy w) as [[[]|e|h] w1];
    [|done..].
  unfold run_post in Hpost. simpl in Hpost.
  destruct (Rover._create_super_learner _ _ _ w1) as [[obj|e|h] w2] eqn:Hcr;
    [|done..].
  intros [= <-].
  apply create_super_learner_returns_facts in Hcr
    as (_ & Hl & Ht & _ & l & means & Hh & _).
  apply (run_inv_frame w1); [done..|].
  intros r l' Hr. simpl. rewrite Hh. by apply lookup_app_l_Some.
Qed.

(** X24. What one call of [fit] has fitted, a later call on the same
    [Rover] does not fit again: after a [fit] that returned, whatever a
    second [fit] is given and however it ends, no id has had [Learner.fit]
    called twice over both calls.  The fitter is assumed to mark what it
    fits. *)
Theorem second_fit_fits_nothing_twice `{Collaborators} (fuel fuel' : nat)
    (dataset dataset' : DataFrame) (strategy strategy' : string + RoverStrategy)
    (max_num_models max_num_models' : Z)
    (kernel_param ratio_cutoff kernel_param' ratio_cutoff' : float)
    (w w1 : World) :
  fit_marks_fitted -> run_inv w ->
  Rover.fit fuel dataset strategy max_num_models kernel_param ratio_cutoff w
  = (Return tt, w1) ->
  let w2 := (Rover.fit fuel' dataset' strategy' max_num_models' kernel_param'
                       ratio_cutoff' w1).2 in
  (trace w1 `prefix_of` trace w2)
  /\ NoDup (fit_calls (trace w2)).
Proof.
  intros Hmarks Hinv Hfit w2.
  pose proof (fit_returns_run_inv _ _ _ _ _ _ _ _ Hmarks Hinv Hfit) as Hinv1.
  destruct (explore_post fuel' dataset' strategy' w1 Hmarks Hinv1)
    as [Hg Hpost].
  destruct (fit_keeps_exploration fuel' dataset' strategy' max_num_models'
              kernel_param' ratio_cutoff' w1) as (_ & Ht & _).
  fold w2 in Ht. rewrite Ht.
  split; [by destruct Hg as (_ & ? & _)|].
  by apply run_post_once in Hpost as [? _].
Qed.

(** A second exploration that proposes the learners of the first one
    again, and one more. *)
Lemma second_fit_fits_nothing_twice_witness :
  let w1 := (Rover.fit (H := Double.collaborators) 5 tt
               (inr (Double.playback [0] [[[0; 1]]])) 10 10 0.5
               (Rover.init Double.plain_config [])).2 in
  let w2 := (Rover.fit (H := Double.collaborators) 5 tt
               (inr (Double.playback [0; 1] [[[0]; [1]]])) 10 10 0.5 w1).2 in
  fit_calls (trace w2) = [[0]; [0; 1]; [1]]
  /\ (trace w1 `prefix_of` trace w2)
  /\ NoDup (fit_calls (trace w2)).
Proof.
  intros w1 w2. split; [reflexivity|].
  exact (second_fit_fits_nothing_twice (H := Double.collaborators) 5 5 tt tt
           (inr (Double.playback [0] [[[0; 1]]]))
           (inr (Double.playback [0; 1] [[[0]; [1]]]))
           10 10 10 0.5 10 0.5
           (Rover.init Double.plain_config []) w1
           double_fit_marks_fitted (run_inv_init _ _) eq_refl).
Defined.

(** * Uncached creation of a learner *)

Lemma index_in_range {A} (l : list A) (i : Z) :
  - Z.of_nat (length l) <= i < Z.of_nat (length l) ->
  exists x, Py.index l i = inr x.
Proof.
  intros Hi. unfold Py.index. cbv zeta.
  set (j := if i <? 0 then Z.of_nat (length l) + i else i).
  assert (0 <= j < Z.of_nat (length l)) as Hj.
  { unfold j. destruct (Z.ltb_spec i 0); lia. }
  destruct (Z.leb_spec 0 j); [|lia].
  destruct (Z.ltb_spec j (Z.of_nat (length l))); [|lia].
  simpl. destruct (l !! Z.to_nat j) as [x|] eqn:Hl; [by exists x|].
  apply lookup_ge_None in Hl. lia.
Qed.

Lemma index_all_in_range {A} (l : list A) (ids : list Z) :
  (forall i, i ∈ ids ->
             - Z.of_nat (length l) <= i < Z.of_nat (length l)) ->
  exists xs, Py.index_all l ids = inr xs.
Proof.
  induction ids as [|i ids IH]; intros Hin; [by exists []|].
  destruct (index_in_range l i) as [x Hx]; [apply Hin, list_elem_of_here|].
  destruct IH as [xs Hxs].
  { intros j Hj. by apply Hin, list_elem_of_further. }
  exists (x :: xs). simpl. by rewrite Hx, Hxs.
Qed.

Lemma dict_get_some_in {K V : Type} `{EqDecision K} (d : list (K * V))
    (k : K) (v : V) :
  Py.dict_get d k = Some v -> (k, v) ∈ d.
Proof.
  induction d as [|[k' v'] d IH]; simpl; [done|].
  destruct (decide (k' = k)) as [->|Hne].
  - intros [= ->]. apply list_elem_of_here.
  - intros Hd. apply list_elem_of_further. by apply IH.
Qed.

Lemma dict_update_get_cases {K V : Type} `{EqDecision K}
    (d other : list (K * V)) (k : K) (v : V) :
  Py.dict_get (Py.dict_update d other) k = Some v ->
  Py.dict_get d k = Some v \/ (k, v) ∈ other.
Proof.
  unfold Py.dict_update. revert d.
  induction other as [|[k0 v0] other IH]; intros d; simpl; [by left|].
  intros [Hd|Hin]%IH; [|right; by apply list_elem_of_further].
  destruct (decide (k0 = k)) as [->|Hne].
  - rewrite dict_get_set in Hd. injection Hd as ->.
    right. apply list_elem_of_here.
  - rewrite dict_get_set_ne in Hd by done. by left.
Qed.

(** The explore parameter's ["variables"] in the default specifications
    is a list, when what the user gives under that name is one. *)
Lemma default_spec_variables_is_list (c : Config) :
  NoDup (col_fixed c).*1 ->
  (forall v, ("variables", v)
               ∈ default [] (Py.dict_get (param_specs c) (explore_param c)) ->
             exists cols, v = Variables cols) ->
  exists ps cols,
    Rover.default_param_specs c = inr ps
    /\ Rover.spec_variables ps (explore_param c) = Variables cols.
Proof.
  intros Hnd Huser.
  exists (fixed_param_spec (param_specs c) <$> col_fixed c).
  assert (exists cols,
             Rover.spec_variables
               (fixed_param_spec (param_specs c) <$> col_fixed c)
               (explore_param c)
             = Variables cols) as [cols Hcols].
  { unfold Rover.spec_variables.
    destruct (Py.dict_get (fixed_param_spec (param_specs c) <$> col_fixed c)
                          (explore_param c)) as [spec|] eqn:Hspec;
      [|by exists []].
    apply dict_get_some_in, list_elem_of_fmap in Hspec
      as ([name cols] & Heq & _).
    unfold fixed_param_spec in Heq. simpl in Heq. injection Heq as <- ->.
    simpl.
    destruct (Py.dict_get _ "variables") as [v|] eqn:Hv; [|by exists []].
    apply dict_update_get_cases in Hv as [Hv|Hv].
    - simpl in Hv. injection Hv as <-. by exists cols.
    - destruct (Huser v Hv) as [cols' ->]. by exists cols'. }
  exists cols. split; [by apply default_param_specs_closed_form|done].
Qed.

(** C9. [get_learner(learner_id, use_cache=False)] leaves the registry as
    it was, whatever its outcome; its outcome and every other effect are
    the same under any registry, so no entry is read; and when it returns,
    the learner is a new object, at an address that held nothing before,
    unfit and without performance or coefficients, while the objects that
    existed are untouched.  It does return, with such a learner, whenever
    every index of the identity is in [-len(col_explore),
    len(col_explore)), [col_fixed] has distinct keys, as a dict has, and
    what the user gives as ["variables"] of the explore parameter, if
    anything, is a list. *)
Theorem get_learner_uncached_frame (learner_id : LearnerID) (w : World) :
  let res := Rover.get_learner learner_id false w in
  learners res.2 = learners w
  /\ (forall registry : list (LearnerID * ref),
        Rover.get_learner learner_id false (set_learners registry w)
        = (res.1, set_learners registry res.2))
  /\ (forall obj, res.1 = Return obj ->
        heap w !! obj = None
        /\ exists l, heap res.2 = heap w ++ [l]
             /\ heap res.2 !! obj = Some l
             /\ Learner.has_been_fit l = false
             /\ Learner.performance l = None
             /\ Learner.opt_coefs l = None)
  /\ ((forall i, i ∈ learner_id ->
         - Z.of_nat (length (col_explore (config w))) <= i
           < Z.of_nat (length (col_explore (config w)))) ->
      NoDup (col_fixed (config w)).*1 ->
      (forall v, ("variables", v)
                   ∈ default [] (Py.dict_get (param_specs (config w))
                                             (explore_param (config w))) ->
                 exists cols, v = Variables cols) ->
      res.1 = Return (length (heap w))).
Proof.
  cbv zeta. split; [|split; [|split]].
  - rewrite get_learner_uncached_unfold.
    repeat case_match; reflexivity.
  - intros registry. rewrite !get_learner_uncached_unfold. simpl.
    repeat case_match; reflexivity.
  - intros obj. rewrite get_learner_uncached_unfold.
    repeat case_match; simpl; intros [= <-].
    split; [by apply lookup_ge_None_2|].
    eexists; split; [reflexivity|].
    split; [by rewrite lookup_app_r, Nat.sub_diag|done].
  - intros Hrange Hnd Huser. rewrite get_learner_uncached_unfold.
    destruct (index_all_in_range _ _ Hrange) as [explore_columns ->].
    destruct (default_spec_variables_is_list _ Hnd Huser)
      as (ps & cols & -> & ->).
    reflexivity.
Qed.

(** The id [(1,)] on a [Rover] whose registry holds a fitted learner for
    it: a third object is built, unfit, and the registry is as before. *)
Lemma get_learner_uncached_frame_witness :
  let res := Rover.get_learner [1] false Double.scored_world in
  Py.dict_get (learners Double.scored_world) [1] = Some 1%nat
  /\ res.1 = Return 2%nat
  /\ learners res.2 = learners Double.scored_world
  /\ heap Double.scored_world !! 2%nat = None
  /\ exists l, heap res.2 = heap Double.scored_world ++ [l]
       /\ heap res.2 !! 2%nat = Some l
       /\ Learner.has_been_fit l = false
       /\ Learner.performance l = None
       /\ Learner.opt_coefs l = None.
Proof.
  intros res.
  destruct (get_learner_uncached_frame [1] Double.scored_world)
    as (Hreg & _ & Hnew & Hret).
  assert (res.1 = Return 2%nat) as Hres.
  { apply Hret.
    - intros i ->%list_elem_of_singleton. simpl. lia.
    - apply NoDup_nil_2.
    - intros v Hin. by apply elem_of_nil in Hin. }
  split; [reflexivity|]. split; [exact Hres|]. split; [exact Hreg|].
  exact (Hnew 2%nat Hres).
Defined.
